(** * NCDHHS PDF processor: a shallow embedding of [src/pdf_processor.py]

    The development follows the class [NCDHHSPDFProcessor]:
    - Python [str] values are sequences of Unicode code points,
    - the two [re.sub] shapes the sanitizers use are list functions,
    - the network, the object store and the clock are an external world
      threaded through a state-and-exception monad,
    - [process_pdfs] is the loop of the source with its two [try] blocks. *)

From Stdlib Require Import NArith Strings.Ascii Strings.String Strings.Byte Lia.
From stdpp Require Import base option list gmap.

(** ** Python strings *)

Module PyStr.
Local Open Scope N_scope.

(** A [str] is a sequence of code points. *)
Definition codepoint := N.
Abbreviation pystr := (list codepoint).

(** Literals: the code points of an ASCII string of the source. *)
Fixpoint u (s : string) : pystr :=
  match s with
  | EmptyString => []
  | String a t => N_of_ascii a :: u t
  end.
Arguments u s%_string.

Definition in_range (lo hi c : codepoint) : bool := (lo <=? c) && (c <=? hi).

Definition is_upper_az (c : codepoint) : bool := in_range 65 90 c.
Definition is_lower_az (c : codepoint) : bool := in_range 97 122 c.
Definition is_digit09 (c : codepoint) : bool := in_range 48 57 c.
Definition is_ascii (c : codepoint) : bool := c <? 128.

Definition UNDERSCORE : codepoint := 95.
Definition HYPHEN : codepoint := 45.
Definition DOT : codepoint := 46.
Definition SLASH : codepoint := 47.

(** [Py_UNICODE_ISSPACE]: what [\s] matches in a [str] pattern and what
    [str.strip()] removes. *)
Definition is_space (c : codepoint) : bool :=
  in_range 9 13 c || in_range 28 32 c || (c =? 133) || (c =? 160)
  || (c =? 5760) || in_range 8192 8202 c || (c =? 8232) || (c =? 8233)
  || (c =? 8239) || (c =? 8287) || (c =? 12288).

Definition ascii_lower (c : codepoint) : codepoint :=
  if is_upper_az c then c + 32 else c.

Section Lower.
(** [str.lower()] on a string that is not pure ASCII goes through the
    Unicode case tables, which are not part of the repository. *)
Variable unicode_lower : pystr -> pystr.

(** CPython: [if PyUnicode_IS_ASCII(self) return ascii_upper_or_lower(..)],
    otherwise the table-driven case operation. *)
Definition lower (s : pystr) : pystr :=
  if forallb is_ascii s then map ascii_lower s else unicode_lower s.
End Lower.

(** [needle in hay], [hay.startswith(needle)], [hay.endswith(needle)]. *)
Fixpoint startswith (needle hay : pystr) : bool :=
  match needle, hay with
  | [], _ => true
  | _ :: _, [] => false
  | a :: n', b :: h' => (a =? b) && startswith n' h'
  end.

Fixpoint contains (needle hay : pystr) : bool :=
  startswith needle hay ||
  match hay with
  | [] => false
  | _ :: h' => contains needle h'
  end.

Definition endswith (needle hay : pystr) : bool :=
  startswith (rev needle) (rev hay).

(** [str.strip()] with no argument. *)
Fixpoint lstrip (s : pystr) : pystr :=
  match s with
  | [] => []
  | c :: t => if is_space c then lstrip t else s
  end.
Definition rstrip (s : pystr) : pystr := rev (lstrip (rev s)).
Definition strip (s : pystr) : pystr := rstrip (lstrip s).

(** [re.sub(r'[class]', repl, s)]: every character of the class is
    replaced on its own. *)
Definition re_sub_char (cls : codepoint -> bool) (repl s : pystr) : pystr :=
  flat_map (fun c => if cls c then repl else [c]) s.

(** [re.sub(r'[class]+', repl, s)]: every maximal run of characters of the
    class is replaced by one [repl]; [in_run] says that the character
    before the current one belonged to a run already replaced. *)
Fixpoint re_sub_plus_from (in_run : bool) (cls : codepoint -> bool)
    (repl s : pystr) : pystr :=
  match s with
  | [] => []
  | c :: t =>
      if cls c
      then (if in_run then [] else repl) ++ re_sub_plus_from true cls repl t
      else c :: re_sub_plus_from false cls repl t
  end.
Definition re_sub_plus := re_sub_plus_from false.

End PyStr.
Import PyStr.

(** ** Name sanitizers and the categorizer *)

Section Sanitize.
Local Open Scope N_scope.
Variable unicode_lower : pystr -> pystr.
Local Abbreviation lower := (PyStr.lower unicode_lower).

(** [[a-zA-Z0-9.-]] *)
Definition filename_char (c : codepoint) : bool :=
  is_lower_az c || is_upper_az c || is_digit09 c || (c =? DOT) || (c =? HYPHEN).

(** [[a-zA-Z0-9\s-]] *)
Definition folder_char (c : codepoint) : bool :=
  is_lower_az c || is_upper_az c || is_digit09 c || is_space c || (c =? HYPHEN).

Definition sanitize_filename (filename : pystr) : pystr :=
  let sanitized := re_sub_char (fun c => negb (filename_char c)) (u "_") filename in
  let sanitized := re_sub_plus (fun c => c =? UNDERSCORE) (u "_") sanitized in
  lower sanitized.

Definition sanitize_folder_name (folder_name : pystr) : pystr :=
  let sanitized := re_sub_char (fun c => negb (folder_char c)) (u "") folder_name in
  let sanitized := re_sub_plus is_space (u "-") sanitized in
  let sanitized := re_sub_plus (fun c => c =? HYPHEN) (u "-") sanitized in
  strip (lower sanitized).

Definition manual_keywords : list pystr :=
  [u "child welfare manual"; u "cws manual"; u "adoptions";
   u "cps-assessments"; u "cps-intake"; u "cross-functions";
   u "permanency-planning"; u "in-home"; u "icpc";
   u "purpose"; u "rams-manual"; u "evidence-based-prevention"].
Definition appendix_keywords : list pystr :=
  [u "appendix"; u "funding"; u "pregnancy-services";
   u "case-record"; u "best-practice"; u "data-collection"; u "cpps"].
Definition practice_keywords : list pystr :=
  [u "practice"; u "resource"; u "guidance"; u "lgbtq"; u "fatality";
   u "discipline"; u "substance"; u "safety"; u "firearm";
   u "circles-of-safety"; u "capp"; u "cmep"; u "reasonable";
   u "prudent"; u "youth-in-transition"].
Definition safe_sleep_keywords : list pystr :=
  [u "safe sleep"; u "safesleep"; u "sleep-comic"].
Definition disaster_keywords : list pystr :=
  [u "disaster"; u "county-attestation"; u "disaster-plan"].
Definition path_sdm_keywords : list pystr :=
  [u "path"; u "sdm"; u "screening"; u "risk-assessment";
   u "safety-manual"; u "fsna"; u "csna"; u "technology-usage"].
Definition administrative_keywords : list pystr :=
  [u "administrative"; u "dss-admin"].

(** [any(keyword in text for keyword in keywords)] *)
Definition any_keyword_in (keywords : list pystr) (text : pystr) : bool :=
  existsb (fun keyword => contains keyword text) keywords.

Definition categorize_section (link_text link_url nearby_text : pystr) : pystr :=
  let text := lower (link_text ++ u " " ++ link_url ++ u " " ++ nearby_text) in
  if any_keyword_in manual_keywords text then u "child-welfare-manuals"
  else if any_keyword_in appendix_keywords text then u "child-welfare-appendices"
  else if any_keyword_in practice_keywords text then u "child-welfare-practice-resources"
  else if any_keyword_in safe_sleep_keywords text then u "safe-sleep-resources"
  else if any_keyword_in disaster_keywords text then u "disaster-preparedness"
  else if any_keyword_in path_sdm_keywords text then u "path-sdm-tools-manuals"
  else if any_keyword_in administrative_keywords text then u "administrative-manuals"
  else u "other-resources".
End Sanitize.


(** [os.path.basename]: what follows the last slash. *)
Definition basename (p : pystr) : pystr :=
  fold_left (fun tail c => if (c =? SLASH)%N then [] else tail ++ [c]) p [].

(** [not xs] on a string or a list: the empty one is falsy. *)
Definition is_nil {A} (xs : list A) : bool :=
  match xs with [] => true | _ :: _ => false end.

(** [x or default] on strings: the empty string is falsy. *)
Definition str_or (x default : pystr) : pystr :=
  match x with [] => default | _ => x end.

(** ** Bytes *)

Abbreviation bytes := (list byte).

Fixpoint bytes_startswith (prefix data : bytes) : bool :=
  match prefix, data with
  | [], _ => true
  | _ :: _, [] => false
  | a :: p', d :: t => Byte.eqb a d && bytes_startswith p' t
  end.

(** [b'%PDF'] *)
Definition PDF_MAGIC : bytes := [x25; x50; x44; x46].

(** ** Exceptions and the state-and-exception monad *)

(** The code only ever reads [str(e)] of what it catches; [ValueError] is
    the one exception the processor raises itself, the others come out of
    [requests] and [boto3]. All of them are [Exception]s: both [except]
    clauses of the source catch them. *)
Inductive exc : Type :=
| ValueError (msg : pystr)
| ExternalError (msg : pystr).

Definition str_of_exc (e : exc) : pystr :=
  match e with ValueError msg | ExternalError msg => msg end.

Module Monad.

(** A computation over a state [S] ends with a value or with an exception;
    the state reached so far survives the exception, as Python's mutations
    do. *)
Definition M (S A : Type) : Type := S -> (exc + A) * S.

Definition ret {S A} (a : A) : M S A := fun s => (inr a, s).

Definition bind {S A B} (m : M S A) (k : A -> M S B) : M S B :=
  fun s => match m s with
           | (inr a, s') => k a s'
           | (inl e, s') => (inl e, s')
           end.

Definition raise {S A} (e : exc) : M S A := fun s => (inl e, s).

(** [try: m  except Exception as e: handler e] *)
Definition try_except {S A} (m : M S A) (handler : exc -> M S A) : M S A :=
  fun s => match m s with
           | (inl e, s') => handler e s'
           | (inr a, s') => (inr a, s')
           end.

Definition get {S} : M S S := fun s => (inr s, s).
Definition modify {S} (f : S -> S) : M S unit := fun s => (inr tt, f s).

(** [for x in xs: body x] *)
Fixpoint for_each {S A} (xs : list A) (body : A -> M S unit) : M S unit :=
  match xs with
  | [] => ret tt
  | x :: rest => bind (body x) (fun _ => for_each rest body)
  end.

Declare Scope py_scope.
Delimit Scope py_scope with py.
Notation "x <- m ;; k" := (bind m (fun x => k))
  (at level 100, m at next level, right associativity) : py_scope.
Notation "m ;; k" := (bind m (fun _ => k))
  (at level 100, right associativity) : py_scope.

End Monad.
Import Monad.

(** ** Data model *)

Module PdfLink.
Record t := { url : pystr; text : pystr; nearby_text : pystr; section_heading : pystr }.
End PdfLink.

Module ResultEntry.
Record t := {
  original_url : pystr;
  filename : pystr;
  link_text : pystr;
  section : pystr;
  s3_key : pystr;
  size : nat;
  content_type : pystr;
  timestamp : pystr }.
End ResultEntry.

Module ErrorEntry.
Record t := { url : pystr; link_text : pystr; error : pystr }.
End ErrorEntry.

Module Summary.
Record t := { total : nat; successful : nat; failed : nat; sections : gmap pystr nat }.
End Summary.

(** The dict [process_pdfs] returns; a key the dict does not have is [None].
    ['errors'] is present with the value [None] when the run had no
    failure: [Some None]. *)
Module ProcessResult.
Record t := {
  success : bool;
  summary : option Summary.t;
  results : option (list ResultEntry.t);
  errors : option (option (list ErrorEntry.t));
  message : option pystr;
  processed_from : option pystr;
  error : option pystr;
  timestamp : option pystr }.

(** The failures the dict reports: none when the key is absent or null. *)
Definition errors_list (r : t) : list ErrorEntry.t :=
  match errors r with Some (Some es) => es | _ => [] end.
End ProcessResult.

(** [upload_to_s3]'s return value. *)
Module UploadResult.
Record t := { success : bool; key : pystr; bucket : pystr }.
End UploadResult.

(** The keyword arguments of [s3_client.put_object]. *)
Record PutObject := {
  Bucket : pystr;
  Key : pystr;
  Body : bytes;
  ContentType : pystr;
  Metadata : list (pystr * pystr) }.

(** What the code reads off a [requests] response: whether
    [raise_for_status()] raises, the [content-type] header if any, the body. *)
Record Response := {
  raise_for_status_exc : option exc;
  header_content_type : option pystr;
  content : bytes }.

(** What the code reads off one [<a href=...>] of the parsed page. *)
Record Parent := {
  parent_text : pystr;                 (* parent.get_text(strip=True) *)
  previous_sibling : option pystr;     (* str(parent.previous_sibling) *)
  next_sibling : option pystr }.       (* str(parent.next_sibling) *)

Record Anchor := {
  href : pystr;
  anchor_text : pystr;                 (* link.get_text(strip=True) *)
  parent : option Parent;
  (* per ancestor, innermost first: the text of the heading that
     [find_previous(['h1', ..., 'h6'])] finds from it, if any *)
  ancestor_headings : list (option pystr) }.

(** ** The external collaborators

    None of them is code of the repository: the interpreter's case tables,
    [urllib.parse], BeautifulSoup, the HTTP session, the S3 client and the
    clock. [World] is whatever state the last three share; a call may
    change it and may answer differently the next time. [urlparse] and
    [urljoin] are taken to return: discovery joins every [href] it keeps,
    and the loop only parses what discovery has joined. Logging is left
    out. *)
Record Env := {
  unicode_lower : pystr -> pystr;
  urlparse_path : pystr -> pystr;                  (* urlparse(url).path *)
  urljoin : pystr -> pystr -> pystr;
  find_all_a_href : bytes -> list Anchor;
  bucket_name : pystr;                             (* self.bucket_name *)
  World : Type;
  session_get : pystr -> World -> (exc + Response) * World;
  put_object : PutObject -> World -> option exc * World;
  now_isoformat : World -> pystr * World }.

(** The processor's view of the outside: the world and the objects its
    [put_object] calls have written so far, oldest first. *)
Record Sys (E : Env) := { world : World E; s3_written : list PutObject }.
Arguments world {E} _.
Arguments s3_written {E} _.

(** The local variables of [process_pdfs] that its loop mutates. *)
Record Frame (E : Env) := {
  sys : Sys E;
  results : list ResultEntry.t;
  errors : list ErrorEntry.t;
  section_counts : gmap pystr nat }.
Arguments sys {E} _.
Arguments results {E} _.
Arguments errors {E} _.
Arguments section_counts {E} _.

(** ** The processor *)

Section Processor.
Context (E : Env).
Local Open Scope py_scope.

Local Abbreviation lower := (PyStr.lower (unicode_lower E)).

(** *** The world's operations, as computations *)

Definition get_url (url : pystr) : M (Sys E) Response :=
  fun s => match session_get E url (world s) with
           | (inr response, w) => (inr response, {| world := w; s3_written := s3_written s |})
           | (inl e, w) => (inl e, {| world := w; s3_written := s3_written s |})
           end.

Definition raise_for_status (response : Response) : M (Sys E) unit :=
  match raise_for_status_exc response with
  | Some e => raise e
  | None => ret tt
  end.

Definition s3_put_object (request : PutObject) : M (Sys E) unit :=
  fun s => match put_object E request (world s) with
           | (None, w) => (inr tt, {| world := w; s3_written := s3_written s ++ [request] |})
           | (Some e, w) => (inl e, {| world := w; s3_written := s3_written s |})
           end.

(** [datetime.now().isoformat()] *)
Definition now : M (Sys E) pystr :=
  fun s => let '(stamp, w) := now_isoformat E (world s) in
           (inr stamp, {| world := w; s3_written := s3_written s |}).

(** The system after a call that only the world has noticed. *)
Definition same_world (w : World E) (s : Sys E) : Sys E :=
  {| world := w; s3_written := s3_written s |}.

(** *** [discover_pdf_links] *)

(** [if sibling: nearby_text += ' ' + str(sibling)]: a tag is truthy, a
    text node is truthy when it is not empty, and only the latter has an
    empty [str]. *)
Definition append_sibling (nearby_text : pystr) (sibling : option pystr) : pystr :=
  match sibling with
  | Some ((_ :: _) as s) => nearby_text ++ u " " ++ s
  | _ => nearby_text
  end.

Definition nearby_text_of (link : Anchor) : pystr :=
  match parent link with
  | Some p =>
      append_sibling (append_sibling (parent_text p) (previous_sibling p))
        (next_sibling p)
  | None => []
  end.

(** The walk up at most ten ancestors, stopping at the first heading. *)
Fixpoint first_heading (levels : list (option pystr)) : pystr :=
  match levels with
  | [] => []
  | Some heading :: _ => heading
  | None :: up => first_heading up
  end.

Definition section_heading_of (link : Anchor) : pystr :=
  first_heading (take 10 (ancestor_headings link)).

Definition is_pdf_href (href : pystr) : bool :=
  endswith (u ".pdf") href || contains (u ".pdf") href.

Definition pdf_link_of (url : pystr) (link : Anchor) : PdfLink.t :=
  {| PdfLink.url := urljoin E url (href link);
     PdfLink.text := str_or (anchor_text link) (u "PDF Document");
     PdfLink.nearby_text := nearby_text_of link;
     PdfLink.section_heading := section_heading_of link |}.

(** The de-duplication loop, with its [seen_urls] set. *)
Fixpoint unique_links_from (seen_urls : gset pystr) (pdf_links : list PdfLink.t)
    : list PdfLink.t :=
  match pdf_links with
  | [] => []
  | link :: rest =>
      if decide (PdfLink.url link ∈ seen_urls)
      then unique_links_from seen_urls rest
      else link :: unique_links_from ({[PdfLink.url link]} ∪ seen_urls) rest
  end.

Definition discover_pdf_links (url : pystr) : M (Sys E) (list PdfLink.t) :=
  try_except
    (response <- get_url url ;;
     raise_for_status response ;;
     let pdf_links :=
       map (pdf_link_of url)
         (filter (fun link => is_pdf_href (href link) = true)
            (find_all_a_href E (content response))) in
     ret (unique_links_from ∅ pdf_links))
    (fun e => raise e).

(** *** [upload_to_s3] *)

Definition s3_key_of (filename section : pystr) : pystr :=
  u "ncdhhs-pdfs/" ++ sanitize_folder_name (unicode_lower E) section
    ++ u "/" ++ sanitize_filename (unicode_lower E) filename.

Definition upload_to_s3 (content : bytes) (filename section : pystr)
    : M (Sys E) UploadResult.t :=
  let key := s3_key_of filename section in
  try_except
    (upload_date <- now ;;
     last_updated <- now ;;
     s3_put_object
       {| Bucket := bucket_name E;
          Key := key;
          Body := content;
          ContentType := u "application/pdf";
          Metadata := [(u "upload-date", upload_date);
                       (u "original-name", filename);
                       (u "source", u "ncdhhs-policies");
                       (u "section", section);
                       (u "last-updated", last_updated)] |} ;;
     ret {| UploadResult.success := true;
            UploadResult.key := key;
            UploadResult.bucket := bucket_name E |})
    (fun e => raise e).

(** The request [upload_to_s3] hands to [put_object]. *)
Definition put_request (content : bytes) (filename section upload_date last_updated : pystr)
    : PutObject :=
  {| Bucket := bucket_name E;
     Key := s3_key_of filename section;
     Body := content;
     ContentType := u "application/pdf";
     Metadata := [(u "upload-date", upload_date);
                  (u "original-name", filename);
                  (u "source", u "ncdhhs-policies");
                  (u "section", section);
                  (u "last-updated", last_updated)] |}.

(** *** [download_pdf] *)

(** [response.headers.get('content-type', '').lower()] *)
Definition content_type_of (response : Response) : pystr :=
  lower (default [] (header_content_type response)).

Definition invalid_file_type (content_type : pystr) : exc :=
  ValueError (u "Invalid file type. Expected PDF, got: " ++ content_type).

Definition download_pdf (url : pystr) : M (Sys E) (bytes * pystr) :=
  try_except
    (response <- get_url url ;;
     raise_for_status response ;;
     let content_type := content_type_of response in
     let content := content response in
     if negb (bytes_startswith PDF_MAGIC content)
        && negb (contains (u "pdf") content_type)
     then raise (invalid_file_type content_type)
     else ret (content, content_type))
    (fun e => raise e).

(** *** [process_pdfs] *)

(** Run a method of the processor from inside the loop. *)
Definition lift {A} (m : M (Sys E) A) : M (Frame E) A :=
  fun f => let '(r, s) := m (sys f) in
           (r, {| sys := s; results := results f; errors := errors f;
                  section_counts := section_counts f |}).

(** [section_counts[section] = section_counts.get(section, 0) + 1] *)
Definition counted (section : pystr) (counts : gmap pystr nat) : gmap pystr nat :=
  <[section := default 0 (counts !! section) + 1]> counts.

Definition count_section (section : pystr) : M (Frame E) unit :=
  modify (fun f =>
    {| sys := sys f; results := results f; errors := errors f;
       section_counts := counted section (section_counts f) |}).

Definition results_append (entry : ResultEntry.t) : M (Frame E) unit :=
  modify (fun f =>
    {| sys := sys f; results := results f ++ [entry]; errors := errors f;
       section_counts := section_counts f |}).

Definition errors_append (entry : ErrorEntry.t) : M (Frame E) unit :=
  modify (fun f =>
    {| sys := sys f; results := results f; errors := errors f ++ [entry];
       section_counts := section_counts f |}).

Definition original_filename_of (pdf_link : PdfLink.t) : pystr :=
  let original_filename := basename (urlparse_path E (PdfLink.url pdf_link)) in
  if is_nil original_filename || negb (endswith (u ".pdf") original_filename)
  then sanitize_filename (unicode_lower E)
         (str_or (PdfLink.text pdf_link) (u "document")) ++ u ".pdf"
  else original_filename.

Definition section_of (pdf_link : PdfLink.t) : pystr :=
  categorize_section (unicode_lower E)
    (PdfLink.text pdf_link) (PdfLink.url pdf_link)
    (PdfLink.nearby_text pdf_link ++ u " " ++ PdfLink.section_heading pdf_link).

(** The body of the inner [try]. *)
Definition process_one (pdf_link : PdfLink.t) : M (Frame E) unit :=
  let original_filename := original_filename_of pdf_link in
  let section := section_of pdf_link in
  count_section section ;;
  downloaded <- lift (download_pdf (PdfLink.url pdf_link)) ;;
  let '(content, content_type) := downloaded in
  upload_result <- lift (upload_to_s3 content original_filename section) ;;
  stamp <- lift now ;;
  results_append
    {| ResultEntry.original_url := PdfLink.url pdf_link;
       ResultEntry.filename := original_filename;
       ResultEntry.link_text := PdfLink.text pdf_link;
       ResultEntry.section := section;
       ResultEntry.s3_key := UploadResult.key upload_result;
       ResultEntry.size := length content;
       ResultEntry.content_type := content_type;
       ResultEntry.timestamp := stamp |}.

(** The inner [except Exception as e]. *)
Definition record_error (pdf_link : PdfLink.t) (e : exc) : M (Frame E) unit :=
  errors_append
    {| ErrorEntry.url := PdfLink.url pdf_link;
       ErrorEntry.link_text := PdfLink.text pdf_link;
       ErrorEntry.error := str_of_exc e |}.

(** One turn of the loop: the inner [try] with its handler. *)
Definition turn (pdf_link : PdfLink.t) : M (Frame E) unit :=
  try_except (process_one pdf_link) (record_error pdf_link).

Definition process_loop (pdf_links : list PdfLink.t) : M (Frame E) unit :=
  for_each pdf_links turn.

(** [results = []], [errors = []], [section_counts = {}] *)
Definition fresh_frame (s : Sys E) : Frame E :=
  {| sys := s; results := []; errors := []; section_counts := ∅ |}.

(** Run a block that owns the loop's locals. *)
Definition with_locals {A} (m : M (Frame E) A) : M (Sys E) A :=
  fun s => let '(r, f) := m (fresh_frame s) in (r, sys f).

Definition no_links_result : ProcessResult.t :=
  {| ProcessResult.success := true;
     ProcessResult.summary :=
       Some {| Summary.total := 0; Summary.successful := 0;
               Summary.failed := 0; Summary.sections := ∅ |};
     ProcessResult.results := Some [];
     ProcessResult.errors := None;
     ProcessResult.message := Some (u "No PDF links found on the specified page");
     ProcessResult.processed_from := None;
     ProcessResult.error := None;
     ProcessResult.timestamp := None |}.

(** The dict returned after the loop. *)
Definition run_result (url : pystr) (pdf_links : list PdfLink.t) (f : Frame E)
    (stamp : pystr) : ProcessResult.t :=
  {| ProcessResult.success := true;
     ProcessResult.summary :=
       Some {| Summary.total := length pdf_links;
               Summary.successful := length (results f);
               Summary.failed := length (errors f);
               Summary.sections := section_counts f |};
     ProcessResult.results := Some (results f);
     (* errors if errors else None *)
     ProcessResult.errors :=
       Some (match errors f with [] => None | _ :: _ => Some (errors f) end);
     ProcessResult.message := None;
     ProcessResult.processed_from := Some url;
     ProcessResult.error := None;
     ProcessResult.timestamp := Some stamp |}.

(** The dict returned by the outer [except Exception as e]. *)
Definition failure_result (e : exc) (stamp : pystr) : ProcessResult.t :=
  {| ProcessResult.success := false;
     ProcessResult.summary := None;
     ProcessResult.results := None;
     ProcessResult.errors := None;
     ProcessResult.message := None;
     ProcessResult.processed_from := None;
     ProcessResult.error := Some (str_of_exc e);
     ProcessResult.timestamp := Some stamp |}.

Definition process_pdfs (url : pystr) : M (Sys E) ProcessResult.t :=
  try_except
    (pdf_links <- discover_pdf_links url ;;
     if is_nil pdf_links
     then ret no_links_result
     else
       with_locals
         (process_loop pdf_links ;;
          f <- get ;;
          stamp <- lift now ;;
          ret (run_result url pdf_links f stamp)))
    (fun e =>
       stamp <- now ;;
       ret (failure_result e stamp)).

End Processor.
Arguments same_world {E} w s.

(** *** The categorizer as the specification words it

    A fixed ordered list of rules, each a keyword set with its label; the
    label of the first rule with a keyword in the text, and the default
    when there is none. *)
Definition category_rules : list (list pystr * pystr) :=
  [(manual_keywords, u "child-welfare-manuals");
   (appendix_keywords, u "child-welfare-appendices");
   (practice_keywords, u "child-welfare-practice-resources");
   (safe_sleep_keywords, u "safe-sleep-resources");
   (disaster_keywords, u "disaster-preparedness");
   (path_sdm_keywords, u "path-sdm-tools-manuals");
   (administrative_keywords, u "administrative-manuals")].

Definition rule_matches (text : pystr) (rule : list pystr * pystr) : bool :=
  any_keyword_in (fst rule) text.

Fixpoint first_match_label (rules : list (list pystr * pystr)) (text : pystr) : pystr :=
  match rules with
  | [] => u "other-resources"
  | rule :: later =>
      if rule_matches text rule then snd rule else first_match_label later text
  end.

(** The text the categorizer searches. *)
Definition categorizer_text (unicode_lower : pystr -> pystr)
    (link_text link_url nearby_text : pystr) : pystr :=
  PyStr.lower unicode_lower (link_text ++ u " " ++ link_url ++ u " " ++ nearby_text).

(** The characters a sanitized folder name is made of: [[a-z0-9-]]. *)
Definition slug_char (c : codepoint) : bool :=
  is_lower_az c || is_digit09 c || (c =? HYPHEN)%N.

(** The characters a sanitized file name is made of: [[a-z0-9._-]]. *)
Definition stored_name_char (c : codepoint) : bool :=
  is_lower_az c || is_digit09 c || (c =? DOT)%N || (c =? HYPHEN)%N
  || (c =? UNDERSCORE)%N.

(** What the first substitution of [sanitize_filename] leaves. *)
Definition raw_name_char (c : codepoint) : bool :=
  filename_char c || (c =? UNDERSCORE)%N.

(** What the first two substitutions of [sanitize_folder_name] leave. *)
Definition raw_slug_char (c : codepoint) : bool :=
  is_lower_az c || is_upper_az c || is_digit09 c || (c =? HYPHEN)%N.

(** The two substitutions of [sanitize_filename], before the case fold. *)
Definition raw_filename (filename : pystr) : pystr :=
  re_sub_plus (fun c => (c =? UNDERSCORE)%N) (u "_")
    (re_sub_char (fun c => negb (filename_char c)) (u "_") filename).

(** The three substitutions of [sanitize_folder_name]. *)
Definition raw_folder_name (folder_name : pystr) : pystr :=
  re_sub_plus (fun c => (c =? HYPHEN)%N) (u "-")
    (re_sub_plus is_space (u "-")
       (re_sub_char (fun c => negb (folder_char c)) (u "") folder_name)).

(** A case table that leaves its argument alone, for running the model on
    ASCII text, where [lower] never consults the table. *)
Definition ascii_only : pystr -> pystr := fun s => s.

(** A link is accounted for by a result entry or by an error entry that
    carries its URL and its anchor text. *)
Definition succeeded_in (entries : list ResultEntry.t) (pdf_link : PdfLink.t) : Prop :=
  Exists (fun entry =>
            ResultEntry.original_url entry = PdfLink.url pdf_link
            /\ ResultEntry.link_text entry = PdfLink.text pdf_link) entries.

Definition failed_in (entries : list ErrorEntry.t) (pdf_link : PdfLink.t) : Prop :=
  Exists (fun entry =>
            ErrorEntry.url entry = PdfLink.url pdf_link
            /\ ErrorEntry.link_text entry = PdfLink.text pdf_link) entries.

(** The download of the link raises [e], or its upload does. *)
Definition item_fails (E : Env) (pdf_link : PdfLink.t) (f : Frame E) (e : exc) : Prop :=
  (exists s1, download_pdf E (PdfLink.url pdf_link) (sys f) = (inl e, s1))
  \/ (exists content content_type s1 s2,
        download_pdf E (PdfLink.url pdf_link) (sys f)
        = (inr (content, content_type), s1)
        /\ upload_to_s3 E content (original_filename_of E pdf_link)
             (section_of E pdf_link) s1 = (inl e, s2)).

(** The entry [record_error] appends. *)
Definition error_entry (pdf_link : PdfLink.t) (e : exc) : ErrorEntry.t :=
  {| ErrorEntry.url := PdfLink.url pdf_link;
     ErrorEntry.link_text := PdfLink.text pdf_link;
     ErrorEntry.error := str_of_exc e |}.

(** [sum(sections.values())] *)
Definition sum_values (m : gmap pystr nat) : nat :=
  map_fold (fun _ count acc => count + acc) 0 m.

(** ** A small world to run the processor in

    The page [https://example.com] carries two PDF links; the first
    downloads (a [%PDF] body under a content type that does not say so) and
    the second times out. [https://example.com/empty] carries no link and
    [https://down.example.com] does not answer. Uploads succeed and the
    clock stands still. *)
Module Demo.

Definition page : pystr := u "https://example.com".
Definition empty_page : pystr := u "https://example.com/empty".
Definition down_page : pystr := u "https://down.example.com".
Definition first_pdf : pystr := u "https://example.com/test1.pdf".
Definition second_pdf : pystr := u "https://example.com/docs/test2.pdf".

Definition pdf_body : bytes := PDF_MAGIC ++ [x2d; x31; x2e; x34].   (* %PDF-1.4 *)
Definition html_body : bytes := [x3c; x61; x3e].                    (* <a> *)

Definition ok_response (content_type : pystr) (body : bytes) : Response :=
  {| raise_for_status_exc := None;
     header_content_type := Some content_type;
     content := body |}.

Definition fetch (url : pystr) (w : unit) : (exc + Response) * unit :=
  if bool_decide (url = page) then (inr (ok_response (u "text/html") html_body), w)
  else if bool_decide (url = empty_page) then (inr (ok_response (u "text/html") []), w)
  else if bool_decide (url = first_pdf)
       then (inr (ok_response (u "Binary/Octet-Stream") pdf_body), w)
  else (inl (ExternalError (u "Read timed out.")), w).

Definition anchors (body : bytes) : list Anchor :=
  match body with
  | [] => []
  | _ :: _ =>
      [ {| href := u "test1.pdf"; anchor_text := u "Test PDF 1";
           parent := Some {| parent_text := u "Test PDF 1";
                             previous_sibling := None; next_sibling := None |};
           ancestor_headings := [None; Some (u "Child Welfare")] |};
        {| href := u "/docs/test2.pdf"; anchor_text := u "";
           parent := None; ancestor_headings := [] |};
        {| href := u "notes.txt"; anchor_text := u "Notes";
           parent := None; ancestor_headings := [] |};
        {| href := u "test1.pdf"; anchor_text := u "Test PDF 1 again";
           parent := None; ancestor_headings := [] |} ]
  end.

(** [urljoin] against a base that has no path. *)
Definition join (base href : pystr) : pystr :=
  if startswith (u "https://") href then href
  else if startswith (u "/") href then base ++ href
  else base ++ u "/" ++ href.

(** [urlparse(url).path] of an [https] URL with neither query nor fragment. *)
Fixpoint from_first_slash (s : pystr) : pystr :=
  match s with
  | [] => []
  | c :: t => if (c =? SLASH)%N then s else from_first_slash t
  end.
Definition path_of (url : pystr) : pystr :=
  from_first_slash (drop 8 url).

Definition env : Env :=
  {| unicode_lower := ascii_only;
     urlparse_path := path_of;
     urljoin := join;
     find_all_a_href := anchors;
     bucket_name := u "test-bucket";
     World := unit;
     session_get := fetch;
     put_object := fun _ w => (None, w);
     now_isoformat := fun w => (u "2024-01-01T00:00:00", w) |}.

Definition start : Sys env := {| world := (tt : World env); s3_written := [] |}.

(** The two links discovery finds on [page]. *)
Definition first_link : PdfLink.t :=
  {| PdfLink.url := first_pdf; PdfLink.text := u "Test PDF 1";
     PdfLink.nearby_text := u "Test PDF 1";
     PdfLink.section_heading := u "Child Welfare" |}.
Definition second_link : PdfLink.t :=
  {| PdfLink.url := second_pdf; PdfLink.text := u "PDF Document";
     PdfLink.nearby_text := u ""; PdfLink.section_heading := u "" |}.

(** The run over [page], computed: the dict it returns and the system it
    leaves. *)
Definition page_dict : ProcessResult.t :=
  Eval vm_compute in
    match fst (process_pdfs env page start) with
    | inr r => r
    | inl e => failure_result e []
    end.
Definition page_end : Sys env :=
  Eval vm_compute in snd (process_pdfs env page start).

End Demo.

(** ** The callers of the processor *)

(** What [lambda_handler] reads off its event. ['body'] is a JSON text
    (API Gateway), an object already decoded, or null; without a ['body']
    key the event itself is the body. Of a decoded body only
    [body.get('url')] is read: [None] when the key is absent or null,
    otherwise the string it holds. *)
Inductive LambdaEvent : Type :=
| BodyText (text : pystr)
| BodyObject (url : option pystr)
| BodyNull
| NoBody (url : option pystr).

(** The dict [lambda_handler] hands to [json.dumps] for the response body. *)
Inductive LambdaBody : Type :=
| ResultBody (result : ProcessResult.t)
| ErrorBody (error : pystr) (timestamp : option pystr).

Module LambdaResponse.
Record t := { statusCode : nat; headers : list (pystr * pystr); body : LambdaBody }.
End LambdaResponse.

(** What the handler needs beyond the processor's collaborators:
    [json.loads(text).get('url')], which raises when the text is not JSON
    or does not decode to an object, and the constructor
    [NCDHHSPDFProcessor()], which raises when a client cannot be made. *)
Record Runtime (E : Env) := {
  json_loads_url : pystr -> exc + option pystr;
  new_processor : World E -> option exc * World E }.
Arguments json_loads_url {E} _ _.
Arguments new_processor {E} _ _.

Section Callers.
Context (E : Env) (R : Runtime E).
Local Open Scope py_scope.

Definition json_headers : list (pystr * pystr) :=
  [(u "Content-Type", u "application/json");
   (u "Access-Control-Allow-Origin", u "*")].

(** [None.get]: the [AttributeError] a null body ends in. *)
Definition none_has_no_get : exc :=
  ExternalError (u "'NoneType' object has no attribute 'get'").

(** [body.get('url')], from the event. *)
Definition url_of_event (event : LambdaEvent) : M (Sys E) (option pystr) :=
  match event with
  | BodyText text =>
      match json_loads_url R text with
      | inl e => raise e
      | inr url => ret url
      end
  | BodyObject url => ret url
  | BodyNull => raise none_has_no_get
  | NoBody url => ret url
  end.

(** [NCDHHSPDFProcessor()] *)
Definition construct_processor : M (Sys E) unit :=
  fun s => match new_processor R (world s) with
           | (None, w) => (inr tt, same_world w s)
           | (Some e, w) => (inl e, same_world w s)
           end.

Definition lambda_handler (event : LambdaEvent) : M (Sys E) LambdaResponse.t :=
  try_except
    (url <- url_of_event event ;;
     if is_nil (default [] url)
     then ret {| LambdaResponse.statusCode := 400;
                 LambdaResponse.headers := json_headers;
                 LambdaResponse.body := ErrorBody (u "URL is required") None |}
     else
       construct_processor ;;
       result <- process_pdfs E (default [] url) ;;
       ret {| LambdaResponse.statusCode := 200;
              LambdaResponse.headers := json_headers;
              LambdaResponse.body := ResultBody result |})
    (fun e =>
       stamp <- now E ;;
       ret {| LambdaResponse.statusCode := 500;
              LambdaResponse.headers := json_headers;
              LambdaResponse.body := ErrorBody (str_of_exc e) (Some stamp) |}).

(** The three responses of [lambda_handler], by name. *)
Definition bad_request : LambdaResponse.t :=
  {| LambdaResponse.statusCode := 400;
     LambdaResponse.headers := json_headers;
     LambdaResponse.body := ErrorBody (u "URL is required") None |}.

Definition server_error (e : exc) (stamp : pystr) : LambdaResponse.t :=
  {| LambdaResponse.statusCode := 500;
     LambdaResponse.headers := json_headers;
     LambdaResponse.body := ErrorBody (str_of_exc e) (Some stamp) |}.

Definition ok_response (r : ProcessResult.t) : LambdaResponse.t :=
  {| LambdaResponse.statusCode := 200;
     LambdaResponse.headers := json_headers;
     LambdaResponse.body := ResultBody r |}.

(** The answer of a FastAPI route: the dict it returns, or the
    [HTTPException] it raises. *)
Inductive ApiAnswer : Type :=
| Returned (result : ProcessResult.t)
| HTTPException (status_code : nat) (detail : pystr).

(** The module global [pdf_processor] of [web_app_fastapi]: [None] when
    the module is loaded, the processor once the [lifespan] start-up has
    assigned it. Nothing else assigns it, and
    [infrastructure/lambda_handler.py] serves the app with
    [Mangum(app, lifespan="off")], which never runs the start-up. *)
Inductive ProcessorGlobal : Type :=
| StillNone
| Initialised.

(** [None.process_pdfs]: the [AttributeError] of a route that is called
    while the global is [None]. *)
Definition none_has_no_process_pdfs : exc :=
  ExternalError (u "'NoneType' object has no attribute 'process_pdfs'").

(** [pdf_processor.process_pdfs(request.url)] *)
Definition global_process_pdfs (pdf_processor : ProcessorGlobal) (url : pystr)
    : M (Sys E) ProcessResult.t :=
  match pdf_processor with
  | StillNone => raise none_has_no_process_pdfs
  | Initialised => process_pdfs E url
  end.

(** [web_app_fastapi.process_pdfs]; [request.url] is a [str] by the
    request model. *)
Definition api_process_pdfs (pdf_processor : ProcessorGlobal) (url : pystr)
    : M (Sys E) ApiAnswer :=
  try_except
    (result <- global_process_pdfs pdf_processor url ;;
     ret (Returned result))
    (fun e => ret (HTTPException 500 (str_of_exc e))).

End Callers.

(** ** Vocabulary for the properties *)

(** No two adjacent characters of the class. *)
Fixpoint no_run (cls : codepoint -> bool) (s : pystr) : bool :=
  match s with
  | [] => true
  | a :: t =>
      match t with
      | [] => true
      | b :: _ => negb (cls a && cls b) && no_run cls t
      end
  end.

(** A character that is not the slash. *)
Abbreviation not_slash := (fun c : codepoint => (c =? SLASH)%N = false).

(** [[a-z0-9.-]]: the characters [sanitize_filename] leaves alone. *)
Definition plain_name_char (c : codepoint) : bool :=
  is_lower_az c || is_digit09 c || (c =? DOT)%N || (c =? HYPHEN)%N.

(** The eight labels, in rule order. *)
Definition category_labels : list pystr :=
  map snd category_rules ++ [u "other-resources"].

(** The rule list without the three keywords that can never decide:
    ['circles-of-safety'] and ['disaster-plan'] contain a keyword of their
    own rule, ['safety-manual'] contains one of an earlier rule. *)
Definition pruned_rules : list (list pystr * pystr) :=
  [(manual_keywords, u "child-welfare-manuals");
   (appendix_keywords, u "child-welfare-appendices");
   ([u "practice"; u "resource"; u "guidance"; u "lgbtq"; u "fatality";
     u "discipline"; u "substance"; u "safety"; u "firearm";
     u "capp"; u "cmep"; u "reasonable"; u "prudent"; u "youth-in-transition"],
    u "child-welfare-practice-resources");
   (safe_sleep_keywords, u "safe-sleep-resources");
   ([u "disaster"; u "county-attestation"], u "disaster-preparedness");
   ([u "path"; u "sdm"; u "screening"; u "risk-assessment";
     u "fsna"; u "csna"; u "technology-usage"], u "path-sdm-tools-manuals");
   (administrative_keywords, u "administrative-manuals")].

(** How many of the links the categorizer files under a label. *)
Definition links_in_section (E : Env) (label : pystr) (pdf_links : list PdfLink.t) : nat :=
  length (filter (fun pdf_link => section_of E pdf_link = label) pdf_links).

(** [section_counts.get(label, 0)] *)
Definition count_of (counts : gmap pystr nat) (label : pystr) : nat :=
  default 0 (counts !! label).

(** An object in the store and the result entry that reports it. *)
Definition stored_as (E : Env) (object : PutObject) (entry : ResultEntry.t) : Prop :=
  Key object = ResultEntry.s3_key entry
  /\ Key object = s3_key_of E (ResultEntry.filename entry) (ResultEntry.section entry)
  /\ Bucket object = bucket_name E
  /\ ContentType object = u "application/pdf"
  /\ length (Body object) = ResultEntry.size entry.

(** A result entry and the link it reports. *)
Definition reports (E : Env) (entry : ResultEntry.t) (pdf_link : PdfLink.t) : Prop :=
  ResultEntry.original_url entry = PdfLink.url pdf_link
  /\ ResultEntry.link_text entry = PdfLink.text pdf_link
  /\ ResultEntry.filename entry = original_filename_of E pdf_link
  /\ ResultEntry.section entry = section_of E pdf_link.

(** An error entry and the link it reports. *)
Definition reports_failure (entry : ErrorEntry.t) (pdf_link : PdfLink.t) : Prop :=
  ErrorEntry.url entry = PdfLink.url pdf_link
  /\ ErrorEntry.link_text entry = PdfLink.text pdf_link.

(** The shape of a key: the prefix, one of the eight labels, a slash and a
    name of [[a-z0-9._-]] that ends with [.pdf]. *)
Definition pdf_key (key : pystr) : Prop :=
  exists label name,
    key = u "ncdhhs-pdfs/" ++ label ++ u "/" ++ name
    /\ In label category_labels
    /\ Forall (fun c => stored_name_char c = true) name
    /\ endswith (u ".pdf") name = true.

(** The anchors discovery keeps. *)
Definition pdf_anchors (E : Env) (body : bytes) : list Anchor :=
  filter (fun link => is_pdf_href (href link) = true) (find_all_a_href E body).

(** ** More of the small world *)
Module DemoMore.

(** A server that sends the PDF without a [content-type] header, and one
    that sends a text without one. *)
Definition bare_response (body : bytes) : Response :=
  {| raise_for_status_exc := None; header_content_type := None; content := body |}.

Definition bare_fetch (url : pystr) (w : unit) : (exc + Response) * unit :=
  if bool_decide (url = Demo.first_pdf) then (inr (bare_response Demo.pdf_body), w)
  else (inr (bare_response Demo.html_body), w).

Definition bare_env : Env :=
  {| unicode_lower := ascii_only;
     urlparse_path := Demo.path_of;
     urljoin := Demo.join;
     find_all_a_href := Demo.anchors;
     bucket_name := u "test-bucket";
     World := unit;
     session_get := bare_fetch;
     put_object := fun _ w => (None, w);
     now_isoformat := fun w => (u "2024-01-01T00:00:00", w) |}.

Definition bare_start : Sys bare_env :=
  {| world := (tt : World bare_env); s3_written := [] |}.

(** A server that answers every request with the three bytes [<a>] and
    the header [Content-Type: Application/PDF]. *)
Definition capitals_fetch (url : pystr) (w : unit) : (exc + Response) * unit :=
  (inr (Demo.ok_response (u "Application/PDF") Demo.html_body), w).

Definition capitals_env : Env :=
  {| unicode_lower := ascii_only;
     urlparse_path := Demo.path_of;
     urljoin := Demo.join;
     find_all_a_href := Demo.anchors;
     bucket_name := u "test-bucket";
     World := unit;
     session_get := capitals_fetch;
     put_object := fun _ w => (None, w);
     now_isoformat := fun w => (u "2024-01-01T00:00:00", w) |}.

Definition capitals_start : Sys capitals_env :=
  {| world := (tt : World capitals_env); s3_written := [] |}.

(** A runtime for the handler: clients can always be made, and the only
    body texts around are not JSON. *)
Definition runtime : Runtime Demo.env :=
  {| json_loads_url := fun _ =>
       inl (ExternalError (u "Expecting value: line 1 column 1 (char 0)"));
     new_processor := fun w => (None, w) |}.

End DemoMore.

(** * Properties *)

(** ** Character classes *)

Ltac char_classes :=
  unfold slug_char, stored_name_char, filename_char, folder_char, is_space,
    is_lower_az, is_upper_az, is_digit09, is_ascii, in_range, ascii_lower,
    UNDERSCORE, HYPHEN, DOT, SLASH in *;
  repeat match goal with
         | |- _ = false => apply not_true_iff_false; intro
         | H : _ = false |- _ => apply not_true_iff_false in H
         end;
  rewrite ?negb_true_iff, ?andb_true_iff, ?orb_true_iff, ?N.leb_le,
    ?N.eqb_eq, ?N.ltb_lt in *;
  repeat match goal with
         | H : _ = false |- _ => apply not_true_iff_false in H
         end;
  rewrite ?andb_true_iff, ?orb_true_iff, ?N.leb_le, ?N.eqb_eq, ?N.ltb_lt in *;
  try lia.

Lemma ascii_lower_upper (c : codepoint) :
  is_upper_az c = true -> ascii_lower c = (c + 32)%N.
Proof. unfold ascii_lower. intros ->. reflexivity. Qed.

Lemma ascii_lower_not_upper (c : codepoint) :
  is_upper_az c = false -> ascii_lower c = c.
Proof. unfold ascii_lower. intros ->. reflexivity. Qed.

Lemma is_upper_az_cases (c : codepoint) :
  (is_upper_az c = true /\ (65 <= c <= 90)%N) \/
  (is_upper_az c = false /\ ((c < 65)%N \/ (90 < c)%N)).
Proof.
  destruct (is_upper_az c) eqn:Hc; [left | right]; split; try reflexivity;
    char_classes.
Qed.

Ltac lower_cases c :=
  destruct (is_upper_az_cases c) as [[?Hup ?Hrange] | [?Hup ?Hrange]];
  [rewrite (ascii_lower_upper c) by assumption
  | rewrite (ascii_lower_not_upper c) by assumption].

Lemma ascii_lower_slug (c : codepoint) :
  slug_char c = true -> ascii_lower c = c.
Proof. intros H. lower_cases c; [|reflexivity]. char_classes. Qed.

Lemma ascii_lower_stored_name (c : codepoint) :
  stored_name_char c = true -> ascii_lower c = c.
Proof. intros H. lower_cases c; [|reflexivity]. char_classes. Qed.

Lemma ascii_lower_hyphen (c : codepoint) :
  (ascii_lower c =? HYPHEN)%N = (c =? HYPHEN)%N.
Proof.
  lower_cases c; [|reflexivity].
  destruct (N.eqb_spec c HYPHEN); char_classes.
Qed.

Lemma ascii_lower_underscore (c : codepoint) :
  (ascii_lower c =? UNDERSCORE)%N = (c =? UNDERSCORE)%N.
Proof.
  lower_cases c; [|reflexivity].
  destruct (N.eqb_spec c UNDERSCORE); char_classes.
Qed.

Lemma raw_name_char_ascii (c : codepoint) :
  raw_name_char c = true -> is_ascii c = true.
Proof. unfold raw_name_char. intros H. char_classes. Qed.

Lemma raw_name_char_lower (c : codepoint) :
  raw_name_char c = true -> stored_name_char (ascii_lower c) = true.
Proof. unfold raw_name_char. intros H. lower_cases c; char_classes. Qed.

Lemma raw_slug_char_ascii (c : codepoint) :
  raw_slug_char c = true -> is_ascii c = true.
Proof. unfold raw_slug_char. intros H. char_classes. Qed.

Lemma raw_slug_char_lower (c : codepoint) :
  raw_slug_char c = true -> slug_char (ascii_lower c) = true.
Proof. unfold raw_slug_char. intros H. lower_cases c; char_classes. Qed.

Lemma folder_char_not_space (c : codepoint) :
  folder_char c = true -> is_space c = false -> raw_slug_char c = true.
Proof.
  unfold folder_char, raw_slug_char. intros H Hs. rewrite Hs in H.
  rewrite !orb_true_iff in *. intuition discriminate.
Qed.

Lemma slug_char_folder (c : codepoint) :
  slug_char c = true -> folder_char c = true.
Proof. intros H. char_classes. Qed.

Lemma slug_char_not_space (c : codepoint) :
  slug_char c = true -> is_space c = false.
Proof. intros H. char_classes. Qed.

Lemma slug_char_ascii (c : codepoint) : slug_char c = true -> is_ascii c = true.
Proof. intros H. char_classes. Qed.

Lemma stored_name_char_ascii (c : codepoint) :
  stored_name_char c = true -> is_ascii c = true.
Proof. intros H. char_classes. Qed.

Lemma stored_name_char_kept (c : codepoint) :
  stored_name_char c = true -> negb (filename_char c) = true -> c = UNDERSCORE.
Proof. intros H Hn. apply negb_true_iff in Hn. char_classes. Qed.

(** ** The two [re.sub] shapes *)

Section Regex.
Variable cls : codepoint -> bool.

Lemma re_sub_char_Forall (P : codepoint -> Prop) (repl s : pystr) :
  Forall P repl ->
  Forall (fun c => cls c = false -> P c) s ->
  Forall P (re_sub_char cls repl s).
Proof.
  intros Hrepl Hs. unfold re_sub_char.
  induction Hs as [|c t Hc _ IH]; simpl; [constructor|].
  apply Forall_app. split; [|exact IH].
  destruct (cls c); [exact Hrepl | auto].
Qed.

Lemma re_sub_char_id (repl s : pystr) :
  Forall (fun c => cls c = true -> repl = [c]) s ->
  re_sub_char cls repl s = s.
Proof.
  unfold re_sub_char.
  induction 1 as [|c t Hc _ IH]; simpl; [reflexivity|].
  rewrite IH. destruct (cls c); [rewrite Hc by reflexivity|]; reflexivity.
Qed.

Lemma re_sub_plus_from_Forall (P : codepoint -> Prop) (repl s : pystr) :
  Forall P repl ->
  Forall (fun c => cls c = false -> P c) s ->
  forall in_run, Forall P (re_sub_plus_from in_run cls repl s).
Proof.
  intros Hrepl Hs.
  induction Hs as [|c t Hc _ IH]; intros in_run; simpl; [constructor|].
  destruct (cls c).
  - apply Forall_app. split; [destruct in_run; [constructor | exact Hrepl] | apply IH].
  - constructor; [auto | apply IH].
Qed.

Lemma re_sub_plus_from_none (repl s : pystr) :
  Forall (fun c => cls c = false) s ->
  forall in_run, re_sub_plus_from in_run cls repl s = s.
Proof.
  induction 1 as [|c t Hc _ IH]; intros in_run; simpl; [reflexivity|].
  rewrite Hc, IH. reflexivity.
Qed.

(** Once the runs are collapsed to one character of the class there is
    nothing left to collapse. *)
Lemma re_sub_plus_from_idem (r : codepoint) (s : pystr) :
  cls r = true ->
  forall in_run in_run',
    in_run = true \/ in_run' = false ->
    re_sub_plus_from in_run' cls [r] (re_sub_plus_from in_run cls [r] s)
    = re_sub_plus_from in_run cls [r] s.
Proof.
  intros Hr. induction s as [|c t IH]; intros in_run in_run' Hflags; [reflexivity|].
  simpl. destruct (cls c) eqn:Hc.
  - destruct in_run; simpl.
    + apply IH. left. reflexivity.
    + destruct Hflags as [Hf | ->]; [discriminate|].
      rewrite Hr. simpl. f_equal. apply IH. left. reflexivity.
  - simpl. rewrite Hc. f_equal. apply IH. right. reflexivity.
Qed.

(** A character map that respects the class and fixes the replacement
    commutes with the collapse. *)
Lemma re_sub_plus_from_map (h : codepoint -> codepoint) (r : codepoint) (s : pystr) :
  (forall c, cls (h c) = cls c) -> h r = r ->
  forall in_run,
    re_sub_plus_from in_run cls [r] (map h s)
    = map h (re_sub_plus_from in_run cls [r] s).
Proof.
  intros Hcls Hr. induction s as [|c t IH]; intros in_run; [reflexivity|].
  simpl. rewrite Hcls. destruct (cls c).
  - rewrite IH. destruct in_run; simpl; [reflexivity | rewrite Hr; reflexivity].
  - rewrite IH. reflexivity.
Qed.

End Regex.

(** ** [lower] and [strip] on text that is already plain *)

Lemma lower_ascii (unicode_lower : pystr -> pystr) (s : pystr) :
  Forall (fun c => is_ascii c = true) s ->
  lower unicode_lower s = map ascii_lower s.
Proof.
  intros H. unfold lower.
  replace (forallb is_ascii s) with true; [reflexivity|].
  symmetry. apply forallb_forall. intros c Hc.
  rewrite Forall_forall in H. apply H. apply list_elem_of_In. exact Hc.
Qed.

Lemma map_fixed (h : codepoint -> codepoint) (s : pystr) :
  Forall (fun c => h c = c) s -> map h s = s.
Proof. induction 1 as [|c t Hc _ IH]; simpl; [|rewrite Hc, IH]; reflexivity. Qed.

Lemma lstrip_no_space (s : pystr) :
  Forall (fun c => is_space c = false) s -> lstrip s = s.
Proof. destruct 1 as [|c t Hc _]; simpl; [|rewrite Hc]; reflexivity. Qed.

Lemma strip_no_space (s : pystr) :
  Forall (fun c => is_space c = false) s -> strip s = s.
Proof.
  intros H. unfold strip, rstrip. rewrite (lstrip_no_space s H).
  rewrite lstrip_no_space; [apply rev_involutive|].
  rewrite Forall_forall in *. intros c Hc. apply H.
  apply list_elem_of_In. apply list_elem_of_In in Hc. apply in_rev. exact Hc.
Qed.

(** ** The sanitizers *)

Section SanitizeFacts.
Variable unicode_lower : pystr -> pystr.

Local Abbreviation no_name_char := (fun c : codepoint => negb (filename_char c)).
Local Abbreviation no_folder_char := (fun c : codepoint => negb (folder_char c)).
Local Abbreviation is_underscore := (fun c : codepoint => (c =? UNDERSCORE)%N).
Local Abbreviation is_hyphen := (fun c : codepoint => (c =? HYPHEN)%N).

Lemma raw_filename_chars (filename : pystr) :
  Forall (fun c => raw_name_char c = true) (raw_filename filename).
Proof.
  unfold raw_filename, re_sub_plus.
  apply re_sub_plus_from_Forall.
  - repeat constructor.
  - apply Forall_impl with (P := fun c => raw_name_char c = true); [|auto].
    apply re_sub_char_Forall.
    + repeat constructor.
    + apply Forall_forall. intros c _ Hc.
      apply negb_false_iff in Hc. unfold raw_name_char. rewrite Hc. reflexivity.
Qed.

Lemma sanitize_filename_unfold (filename : pystr) :
  sanitize_filename unicode_lower filename = map ascii_lower (raw_filename filename).
Proof.
  unfold sanitize_filename. apply lower_ascii.
  eapply Forall_impl; [apply raw_filename_chars|].
  intros c. apply raw_name_char_ascii.
Qed.

Lemma sanitize_filename_chars (filename : pystr) :
  Forall (fun c => stored_name_char c = true)
    (sanitize_filename unicode_lower filename).
Proof.
  rewrite sanitize_filename_unfold. apply Forall_map.
  eapply Forall_impl; [apply raw_filename_chars|].
  intros c. apply raw_name_char_lower.
Qed.

Lemma raw_filename_stored (w : pystr) :
  Forall (fun c => stored_name_char c = true) w ->
  raw_filename w = re_sub_plus is_underscore (u "_") w.
Proof.
  intros Hw. unfold raw_filename. f_equal. apply re_sub_char_id.
  eapply Forall_impl; [exact Hw|].
  intros c Hc Hn. rewrite (stored_name_char_kept c Hc Hn). reflexivity.
Qed.

Lemma raw_filename_collapsed (filename : pystr) :
  re_sub_plus is_underscore (u "_") (raw_filename filename) = raw_filename filename.
Proof.
  unfold raw_filename, re_sub_plus.
  apply (re_sub_plus_from_idem is_underscore UNDERSCORE); [reflexivity|].
  right. reflexivity.
Qed.

Lemma sanitize_filename_idempotent (filename : pystr) :
  sanitize_filename unicode_lower (sanitize_filename unicode_lower filename)
  = sanitize_filename unicode_lower filename.
Proof.
  pose proof (sanitize_filename_chars filename) as Hchars.
  rewrite (sanitize_filename_unfold (sanitize_filename _ _)).
  rewrite (raw_filename_stored _ Hchars).
  rewrite sanitize_filename_unfold in *.
  unfold re_sub_plus.
  rewrite (re_sub_plus_from_map is_underscore ascii_lower UNDERSCORE)
    by (try reflexivity; apply ascii_lower_underscore).
  fold (re_sub_plus is_underscore). rewrite raw_filename_collapsed.
  apply map_fixed. eapply Forall_impl; [exact Hchars|].
  intros c. apply ascii_lower_stored_name.
Qed.

Lemma spaces_replaced_chars (folder_name : pystr) :
  Forall (fun c => raw_slug_char c = true)
    (re_sub_plus is_space (u "-")
       (re_sub_char no_folder_char (u "") folder_name)).
Proof.
  unfold re_sub_plus. apply re_sub_plus_from_Forall.
  - repeat constructor.
  - apply Forall_impl with (P := fun c => folder_char c = true).
    + apply re_sub_char_Forall; [constructor|].
      apply Forall_forall. intros c _ Hc. apply negb_false_iff. exact Hc.
    + intros c. apply folder_char_not_space.
Qed.

Lemma raw_folder_name_chars (folder_name : pystr) :
  Forall (fun c => raw_slug_char c = true) (raw_folder_name folder_name).
Proof.
  unfold raw_folder_name, re_sub_plus at 1. apply re_sub_plus_from_Forall.
  - repeat constructor.
  - eapply Forall_impl; [apply spaces_replaced_chars|]. auto.
Qed.

Lemma sanitize_folder_name_chars_raw (folder_name : pystr) :
  Forall (fun c => slug_char c = true) (map ascii_lower (raw_folder_name folder_name)).
Proof.
  apply Forall_map. eapply Forall_impl; [apply raw_folder_name_chars|].
  intros c. apply raw_slug_char_lower.
Qed.

Lemma sanitize_folder_name_unfold (folder_name : pystr) :
  sanitize_folder_name unicode_lower folder_name
  = map ascii_lower (raw_folder_name folder_name).
Proof.
  unfold sanitize_folder_name. fold (raw_folder_name folder_name).
  rewrite lower_ascii.
  - apply strip_no_space.
    eapply Forall_impl; [apply sanitize_folder_name_chars_raw|].
    intros c. apply slug_char_not_space.
  - eapply Forall_impl; [apply raw_folder_name_chars|].
    intros c. apply raw_slug_char_ascii.
Qed.

Lemma sanitize_folder_name_chars (folder_name : pystr) :
  Forall (fun c => slug_char c = true)
    (sanitize_folder_name unicode_lower folder_name).
Proof. rewrite sanitize_folder_name_unfold. apply sanitize_folder_name_chars_raw. Qed.

Lemma raw_folder_name_slug (w : pystr) :
  Forall (fun c => slug_char c = true) w ->
  raw_folder_name w = re_sub_plus is_hyphen (u "-") w.
Proof.
  intros Hw. unfold raw_folder_name. f_equal.
  rewrite re_sub_char_id.
  - apply re_sub_plus_from_none.
    eapply Forall_impl; [exact Hw|]. intros c. apply slug_char_not_space.
  - eapply Forall_impl; [exact Hw|].
    intros c Hc Hn. apply slug_char_folder in Hc. rewrite Hc in Hn. discriminate.
Qed.

Lemma raw_folder_name_collapsed (folder_name : pystr) :
  re_sub_plus is_hyphen (u "-") (raw_folder_name folder_name)
  = raw_folder_name folder_name.
Proof.
  unfold raw_folder_name. unfold re_sub_plus at 1 2.
  apply (re_sub_plus_from_idem is_hyphen HYPHEN); [reflexivity|].
  right. reflexivity.
Qed.

Lemma sanitize_folder_name_idempotent (folder_name : pystr) :
  sanitize_folder_name unicode_lower (sanitize_folder_name unicode_lower folder_name)
  = sanitize_folder_name unicode_lower folder_name.
Proof.
  pose proof (sanitize_folder_name_chars folder_name) as Hchars.
  rewrite (sanitize_folder_name_unfold (sanitize_folder_name _ _)).
  rewrite (raw_folder_name_slug _ Hchars).
  rewrite sanitize_folder_name_unfold in *.
  unfold re_sub_plus.
  rewrite (re_sub_plus_from_map is_hyphen ascii_lower HYPHEN)
    by (try reflexivity; apply ascii_lower_hyphen).
  fold (re_sub_plus is_hyphen). rewrite raw_folder_name_collapsed.
  apply map_fixed. eapply Forall_impl; [exact Hchars|].
  intros c. apply ascii_lower_slug.
Qed.

End SanitizeFacts.

(** C4. [sanitize_filename] and [sanitize_folder_name] are idempotent:
    applying either of them twice gives what applying it once gives, for
    every string and whatever the case tables say outside ASCII. *)
Theorem sanitizers_idempotent (unicode_lower : pystr -> pystr) (x : pystr) :
  sanitize_filename unicode_lower (sanitize_filename unicode_lower x)
  = sanitize_filename unicode_lower x
  /\ sanitize_folder_name unicode_lower (sanitize_folder_name unicode_lower x)
     = sanitize_folder_name unicode_lower x.
Proof.
  split.
  - apply sanitize_filename_idempotent.
  - apply sanitize_folder_name_idempotent.
Qed.

(** C3, as amended. For every input, [sanitize_folder_name] returns a string
    that is lower-cased (lower-casing it again changes nothing), that has
    no whitespace at either end (it has none at all, so stripping it
    changes nothing), and whose characters are all in [[a-z0-9-]]. Nothing
    is said about hyphens at the ends: they are not trimmed. *)
Theorem sanitize_folder_name_lower_no_space (unicode_lower : pystr -> pystr)
    (s : pystr) :
  let folder := sanitize_folder_name unicode_lower s in
  lower unicode_lower folder = folder
  /\ strip folder = folder
  /\ Forall (fun c => is_space c = false) folder
  /\ Forall (fun c => slug_char c = true) folder.
Proof.
  intros folder. pose proof (sanitize_folder_name_chars unicode_lower s) as Hchars.
  fold folder in Hchars.
  assert (Hspace : Forall (fun c => is_space c = false) folder).
  { eapply Forall_impl; [exact Hchars|]. intros c. apply slug_char_not_space. }
  repeat split; try assumption.
  - rewrite lower_ascii.
    + apply map_fixed. eapply Forall_impl; [exact Hchars|].
      intros c. apply ascii_lower_slug.
    + eapply Forall_impl; [exact Hchars|]. intros c. apply slug_char_ascii.
  - apply strip_no_space. exact Hspace.
Qed.

(** C3 as the specification states it fails: the folder name ["-a-"] comes
    back unchanged, with a hyphen at both ends. *)
Lemma sanitize_folder_name_keeps_hyphens :
  sanitize_folder_name ascii_only (u "-a-") = u "-a-"
  /\ head (sanitize_folder_name ascii_only (u "-a-")) = Some HYPHEN
  /\ last (sanitize_folder_name ascii_only (u "-a-")) = Some HYPHEN.
Proof. repeat split; reflexivity. Qed.

(** Whitespace at the ends is not trimmed either: the substitution that
    precedes [strip()] has already turned it into hyphens. *)
Example sanitize_folder_name_outer_spaces :
  sanitize_folder_name ascii_only (u " a ") = u "-a-".
Proof. reflexivity. Qed.

(** ** The categorizer *)

Lemma first_match_label_at (text : pystr) (earlier : list (list pystr * pystr))
    (rule : list pystr * pystr) (later : list (list pystr * pystr)) :
  Forall (fun r => rule_matches text r = false) earlier ->
  rule_matches text rule = true ->
  first_match_label (earlier ++ rule :: later) text = snd rule.
Proof.
  intros Hearlier Hrule.
  induction Hearlier as [|r rs Hr _ IH]; simpl.
  - rewrite Hrule. reflexivity.
  - rewrite Hr. exact IH.
Qed.

Lemma first_match_label_none (text : pystr) (rules : list (list pystr * pystr)) :
  Forall (fun r => rule_matches text r = false) rules ->
  first_match_label rules text = u "other-resources".
Proof.
  induction 1 as [|r rs Hr _ IH]; simpl; [reflexivity|].
  rewrite Hr. exact IH.
Qed.

Lemma categorize_section_rules (unicode_lower : pystr -> pystr)
    (link_text link_url nearby_text : pystr) :
  categorize_section unicode_lower link_text link_url nearby_text
  = first_match_label category_rules
      (categorizer_text unicode_lower link_text link_url nearby_text).
Proof.
  unfold categorize_section, categorizer_text, category_rules.
  cbn [first_match_label rule_matches fst snd]. reflexivity.
Qed.

(** C6. [categorize_section] is first-match-wins over the fixed ordered rule
    list: it returns the label of the first rule one of whose keywords
    occurs in the lower-cased concatenation, whatever the rules listed
    after it would say, and ["other-resources"] when no rule has a keyword
    in it. *)
Theorem categorize_section_first_match (unicode_lower : pystr -> pystr)
    (link_text link_url nearby_text : pystr) :
  let text := categorizer_text unicode_lower link_text link_url nearby_text in
  let label := categorize_section unicode_lower link_text link_url nearby_text in
  label = first_match_label category_rules text
  /\ (forall earlier rule later,
        category_rules = earlier ++ rule :: later ->
        Forall (fun r => rule_matches text r = false) earlier ->
        rule_matches text rule = true ->
        label = snd rule)
  /\ (Forall (fun r => rule_matches text r = false) category_rules ->
      label = u "other-resources").
Proof.
  intros text label. unfold label, text. rewrite categorize_section_rules.
  split; [reflexivity | split].
  - intros earlier rule later -> Hearlier Hrule.
    apply first_match_label_at; assumption.
  - apply first_match_label_none.
Qed.

(** A link whose text has a keyword of the first rule (["cws manual"]) and
    one of the third (["practice"]) goes to the first; the fallback of the
    repository's test goes to the default. *)
Lemma categorize_section_first_match_witness :
  (rule_matches
     (categorizer_text ascii_only (u "CWS Manual") (u "practice.pdf") (u ""))
     (practice_keywords, u "child-welfare-practice-resources") = true
   /\ categorize_section ascii_only (u "CWS Manual") (u "practice.pdf") (u "")
      = u "child-welfare-manuals")
  /\ categorize_section ascii_only (u "Unknown Document") (u "unknown.pdf")
       (u "random text") = u "other-resources".
Proof.
  split; [split|].
  - vm_compute. reflexivity.
  - apply (proj1 (proj2 (categorize_section_first_match ascii_only
             (u "CWS Manual") (u "practice.pdf") (u "")))
             [] (manual_keywords, u "child-welfare-manuals")
             (tail category_rules)).
    + reflexivity.
    + constructor.
    + vm_compute. reflexivity.
  - apply (proj2 (proj2 (categorize_section_first_match ascii_only
             (u "Unknown Document") (u "unknown.pdf") (u "random text")))).
    repeat constructor.
Defined.

(** C2. On the anchor text ["CPS Assessment"], the URL ["cps.pdf"] and the
    context ["child welfare"] the categorizer finds no keyword at all (the
    first rule wants ["cps-assessments"], with a hyphen and a plural) and
    answers ["other-resources"], not the ["child-welfare-manuals"] that
    [run_tests.py] asserts for this very call. *)
Theorem categorize_cps_assessment (unicode_lower : pystr -> pystr) :
  categorize_section unicode_lower (u "CPS Assessment") (u "cps.pdf")
    (u "child welfare") = u "other-resources"
  /\ categorize_section unicode_lower (u "CPS Assessment") (u "cps.pdf")
       (u "child welfare") <> u "child-welfare-manuals".
Proof.
  assert (H : categorize_section unicode_lower (u "CPS Assessment") (u "cps.pdf")
                (u "child welfare") = u "other-resources") by reflexivity.
  split; [exact H|]. rewrite H. discriminate.
Qed.

(** The repository's own checks of the pure helpers, replayed
    ([tests/test_pdf_processor.py], [run_tests.py]). *)
Example sanitize_filename_plain :
  sanitize_filename ascii_only (u "test-file.pdf") = u "test-file.pdf".
Proof. reflexivity. Qed.

Example sanitize_filename_special :
  sanitize_filename ascii_only (u "test@file#.pdf") = u "test_file_.pdf".
Proof. reflexivity. Qed.

Example sanitize_filename_runs :
  sanitize_filename ascii_only (u "test___file.pdf") = u "test_file.pdf".
Proof. reflexivity. Qed.

Example sanitize_folder_name_spaces :
  sanitize_folder_name ascii_only (u "child   welfare---manual")
  = u "child-welfare-manual".
Proof. reflexivity. Qed.

Example categorize_manual :
  categorize_section ascii_only (u "CPS Assessment Manual")
    (u "cps-assessments.pdf") (u "child welfare manual") = u "child-welfare-manuals".
Proof. reflexivity. Qed.

Example categorize_adoptions :
  categorize_section ascii_only (u "Adoption Services") (u "adoptions.pdf")
    (u "adoption procedures") = u "child-welfare-manuals".
Proof. reflexivity. Qed.

Example categorize_safe_sleep :
  categorize_section ascii_only (u "Safe Sleep Guidelines") (u "safe-sleep.pdf")
    (u "SIDS prevention") = u "safe-sleep-resources".
Proof. reflexivity. Qed.

(** Two expectations of [tests/test_pdf_processor.py] that the code does not
    meet: it deletes the characters a folder name may not have (the test
    wants ['child-welfare']), and it collapses the underscores that replace
    the characters a file name may not have (the test wants
    ['test_file___.pdf']). *)
Example sanitize_folder_name_special :
  sanitize_folder_name ascii_only (u "child@welfare#") = u "childwelfare".
Proof. reflexivity. Qed.

Example sanitize_filename_several_special :
  sanitize_filename ascii_only (u "test file@#$.pdf") = u "test_file_.pdf".
Proof. reflexivity. Qed.

(** ** The monad's equations *)

Section MonadFacts.
Context {S A B : Type}.

Lemma bind_returns (m : M S A) (k : A -> M S B) (s s' : S) (a : A) :
  m s = (inr a, s') -> bind m k s = k a s'.
Proof. unfold bind. intros ->. reflexivity. Qed.

Lemma bind_raises (m : M S A) (k : A -> M S B) (s s' : S) (e : exc) :
  m s = (inl e, s') -> bind m k s = (inl e, s').
Proof. unfold bind. intros ->. reflexivity. Qed.

Lemma try_except_returns (m : M S A) (handler : exc -> M S A) (s s' : S) (a : A) :
  m s = (inr a, s') -> try_except m handler s = (inr a, s').
Proof. unfold try_except. intros ->. reflexivity. Qed.

Lemma try_except_raises (m : M S A) (handler : exc -> M S A) (s s' : S) (e : exc) :
  m s = (inl e, s') -> try_except m handler s = handler e s'.
Proof. unfold try_except. intros ->. reflexivity. Qed.

End MonadFacts.

(** ** The world's operations *)

Section ProcessorFacts.
Context (E : Env).

Lemma now_returns (s : Sys E) :
  exists stamp w, now E s = (inr stamp, same_world w s).
Proof.
  unfold now. destruct (now_isoformat E (world s)) as [stamp w]. eauto.
Qed.

(** [download_pdf], case by case. *)
Lemma download_pdf_cases (url : pystr) (s : Sys E) :
  match session_get E url (world s) with
  | (inl e, w) => download_pdf E url s = (inl e, same_world w s)
  | (inr response, w) =>
      match raise_for_status_exc response with
      | Some e => download_pdf E url s = (inl e, same_world w s)
      | None =>
          let content_type := content_type_of E response in
          if bytes_startswith PDF_MAGIC (content response)
             || contains (u "pdf") content_type
          then download_pdf E url s
               = (inr (content response, content_type), same_world w s)
          else download_pdf E url s
               = (inl (invalid_file_type content_type), same_world w s)
      end
  end.
Proof.
  unfold download_pdf, try_except, bind, get_url, raise_for_status, same_world.
  destruct (session_get E url (world s)) as [[e | response] w]; [reflexivity|].
  destruct (raise_for_status_exc response) as [e|]; [reflexivity|].
  cbn beta iota zeta.
  unfold ret at 1. cbn beta iota.
  destruct (bytes_startswith PDF_MAGIC (content response));
    destruct (contains (u "pdf") (content_type_of E response)); reflexivity.
Qed.

Lemma download_pdf_keeps_objects (url : pystr) (s s' : Sys E) r :
  download_pdf E url s = (r, s') -> s3_written s' = s3_written s.
Proof.
  intros H. pose proof (download_pdf_cases url s) as Hc.
  destruct (session_get E url (world s)) as [[e | response] w].
  - rewrite Hc in H. inversion H. reflexivity.
  - destruct (raise_for_status_exc response).
    + rewrite Hc in H. inversion H. reflexivity.
    + cbn zeta in Hc.
      destruct (bytes_startswith PDF_MAGIC (content response)
                || contains (u "pdf") (content_type_of E response));
        rewrite Hc in H; inversion H; reflexivity.
Qed.

(** [upload_to_s3] either writes exactly one object, the request above, and
    returns its key, or raises and writes nothing. *)
Lemma upload_to_s3_cases (content : bytes) (filename section : pystr) (s : Sys E) :
  exists upload_date last_updated w,
    let request := put_request E content filename section upload_date last_updated in
    upload_to_s3 E content filename section s
    = (inr {| UploadResult.success := true;
              UploadResult.key := s3_key_of E filename section;
              UploadResult.bucket := bucket_name E |},
       {| world := w; s3_written := s3_written s ++ [request] |})
    \/ exists e, upload_to_s3 E content filename section s = (inl e, same_world w s).
Proof.
  unfold upload_to_s3, try_except, bind, now, s3_put_object, same_world.
  destruct (now_isoformat E (world s)) as [upload_date w1]. cbn [world s3_written].
  destruct (now_isoformat E w1) as [last_updated w2]. cbn [world s3_written].
  fold (put_request E content filename section upload_date last_updated).
  destruct (put_object E (put_request E content filename section upload_date last_updated) w2)
    as [[e|] w3] eqn:Hput; exists upload_date, last_updated, w3; cbn zeta.
  - right. exists e. reflexivity.
  - left. reflexivity.
Qed.

End ProcessorFacts.

(** ** One turn of the loop *)

Section LoopFacts.
Context (E : Env).

Lemma process_one_ok (pdf_link : PdfLink.t) (f f' : Frame E) :
  process_one E pdf_link f = (inr tt, f') ->
  exists content content_type s1 upload_result s2 stamp w entry,
    download_pdf E (PdfLink.url pdf_link) (sys f) = (inr (content, content_type), s1)
    /\ upload_to_s3 E content (original_filename_of E pdf_link)
         (section_of E pdf_link) s1 = (inr upload_result, s2)
    /\ sys f' = same_world w s2
    /\ results f' = results f ++ [entry]
    /\ errors f' = errors f
    /\ section_counts f' = counted (section_of E pdf_link) (section_counts f)
    /\ entry =
       {| ResultEntry.original_url := PdfLink.url pdf_link;
          ResultEntry.filename := original_filename_of E pdf_link;
          ResultEntry.link_text := PdfLink.text pdf_link;
          ResultEntry.section := section_of E pdf_link;
          ResultEntry.s3_key := UploadResult.key upload_result;
          ResultEntry.size := length content;
          ResultEntry.content_type := content_type;
          ResultEntry.timestamp := stamp |}.
Proof.
  unfold process_one, bind, count_section, modify, lift, results_append.
  cbn [sys results errors section_counts].
  destruct (download_pdf E (PdfLink.url pdf_link) (sys f))
    as [[e | [content content_type]] s1] eqn:Hdown; [discriminate|].
  cbn [sys results errors section_counts].
  destruct (upload_to_s3 E content (original_filename_of E pdf_link)
              (section_of E pdf_link) s1) as [[e | upload_result] s2] eqn:Hup;
    [discriminate|].
  cbn [sys results errors section_counts].
  destruct (now_returns E s2) as (stamp & w & Hnow). rewrite Hnow.
  cbn [sys results errors section_counts].
  intros H. inversion H; subst f'; clear H.
  exists content, content_type, s1, upload_result, s2, stamp, w.
  eexists. repeat split; first [reflexivity | assumption].
Qed.

Lemma process_one_raises (pdf_link : PdfLink.t) (f f1 : Frame E) (e : exc) :
  process_one E pdf_link f = (inl e, f1) ->
  results f1 = results f
  /\ errors f1 = errors f
  /\ section_counts f1 = counted (section_of E pdf_link) (section_counts f)
  /\ ((download_pdf E (PdfLink.url pdf_link) (sys f) = (inl e, sys f1))
      \/ exists content content_type s1,
           download_pdf E (PdfLink.url pdf_link) (sys f)
           = (inr (content, content_type), s1)
           /\ upload_to_s3 E content (original_filename_of E pdf_link)
                (section_of E pdf_link) s1 = (inl e, sys f1)).
Proof.
  unfold process_one, bind, count_section, modify, lift, results_append.
  cbn [sys results errors section_counts].
  destruct (download_pdf E (PdfLink.url pdf_link) (sys f))
    as [[e' | [content content_type]] s1] eqn:Hdown.
  - intros H. inversion H; subst; clear H. cbn. auto.
  - cbn [sys results errors section_counts].
    destruct (upload_to_s3 E content (original_filename_of E pdf_link)
                (section_of E pdf_link) s1) as [[e' | upload_result] s2] eqn:Hup.
    + intros H. inversion H; subst; clear H. cbn.
      repeat split. right. eauto.
    + cbn [sys results errors section_counts].
      destruct (now_returns E s2) as (stamp & w & Hnow). rewrite Hnow.
      discriminate.
Qed.

(** A turn never raises; it counts the link's section, and it appends
    either one result or one error entry that names the link. *)
Lemma turn_cases (pdf_link : PdfLink.t) (f : Frame E) :
  exists f',
    turn E pdf_link f = (inr tt, f')
    /\ section_counts f' = counted (section_of E pdf_link) (section_counts f)
    /\ ((exists entry,
           process_one E pdf_link f = (inr tt, f')
           /\ results f' = results f ++ [entry]
           /\ errors f' = errors f
           /\ ResultEntry.original_url entry = PdfLink.url pdf_link
           /\ ResultEntry.link_text entry = PdfLink.text pdf_link)
        \/ (exists e f1,
              process_one E pdf_link f = (inl e, f1)
              /\ sys f' = sys f1
              /\ results f' = results f
              /\ errors f' = errors f ++
                   [{| ErrorEntry.url := PdfLink.url pdf_link;
                       ErrorEntry.link_text := PdfLink.text pdf_link;
                       ErrorEntry.error := str_of_exc e |}])).
Proof.
  unfold turn, try_except.
  destruct (process_one E pdf_link f) as [[e | []] f1] eqn:Hone.
  - destruct (process_one_raises _ _ _ _ Hone) as (Hres & Herr & Hcount & _).
    unfold record_error, errors_append, modify.
    eexists. split; [reflexivity|]. cbn [sys results errors section_counts].
    split; [exact Hcount|]. right. exists e, f1.
    rewrite Hres, Herr. repeat split; reflexivity.
  - destruct (process_one_ok _ _ _ Hone)
      as (content & content_type & s1 & up & s2 & stamp & w & entry
          & _ & _ & _ & Hres & Herr & Hcount & ->).
    exists f1. split; [reflexivity|]. split; [exact Hcount|].
    left. eexists. repeat split; try eassumption; reflexivity.
Qed.

End LoopFacts.

(** ** Section counters *)

Lemma sum_values_empty : sum_values ∅ = 0.
Proof. apply map_fold_empty. Qed.

Lemma sum_values_insert_fresh (counts : gmap pystr nat) (section : pystr) (n : nat) :
  counts !! section = None ->
  sum_values (<[section := n]> counts) = n + sum_values counts.
Proof.
  intros Hfresh. unfold sum_values.
  apply (map_fold_insert_L (fun _ count acc => count + acc)); [|exact Hfresh].
  intros. lia.
Qed.

Lemma sum_values_delete (counts : gmap pystr nat) (section : pystr) (n : nat) :
  counts !! section = Some n ->
  sum_values counts = n + sum_values (delete section counts).
Proof.
  intros Hin. unfold sum_values.
  apply (map_fold_delete_L (fun _ count acc => count + acc)); [|exact Hin].
  intros. lia.
Qed.

(** Counting one more link raises the sum of the counters by one. *)
Lemma sum_values_counted (counts : gmap pystr nat) (section : pystr) :
  sum_values (counted section counts) = sum_values counts + 1.
Proof.
  unfold counted. destruct (counts !! section) as [n|] eqn:Hlook; simpl.
  - rewrite <- insert_delete_eq.
    rewrite sum_values_insert_fresh by apply lookup_delete_eq.
    rewrite (sum_values_delete counts section n Hlook). lia.
  - rewrite sum_values_insert_fresh by exact Hlook. lia.
Qed.

(** ** The loop *)

Section RunFacts.
Context (E : Env).

Lemma process_loop_cons (pdf_link : PdfLink.t) (rest : list PdfLink.t)
    (f f1 : Frame E) :
  turn E pdf_link f = (inr tt, f1) ->
  process_loop E (pdf_link :: rest) f = process_loop E rest f1.
Proof.
  intros Hturn. unfold process_loop. cbn [for_each]. unfold bind at 1.
  rewrite Hturn. reflexivity.
Qed.

(** The loop never raises. It visits every link: each one adds one to the
    section counters and leaves one entry, in [results] or in [errors]. *)
Lemma process_loop_cases (pdf_links : list PdfLink.t) (f : Frame E) :
  exists f' new_results new_errors,
    process_loop E pdf_links f = (inr tt, f')
    /\ results f' = results f ++ new_results
    /\ errors f' = errors f ++ new_errors
    /\ length new_results + length new_errors = length pdf_links
    /\ sum_values (section_counts f')
       = sum_values (section_counts f) + length pdf_links
    /\ Forall (fun pdf_link =>
                 succeeded_in new_results pdf_link \/ failed_in new_errors pdf_link)
         pdf_links.
Proof.
  revert f. induction pdf_links as [|pdf_link rest IH]; intros f.
  - exists f, [], []. rewrite !app_nil_r. repeat split; try reflexivity.
    + simpl. lia.
    + constructor.
  - destruct (turn_cases E pdf_link f) as (f1 & Hturn & Hcount & Hentry).
    destruct (IH f1) as (f' & rs & es & Hloop & Hres & Herr & Hlen & Hsum & Hall).
    rewrite (process_loop_cons _ _ _ _ Hturn).
    rewrite Hcount, sum_values_counted in Hsum.
    destruct Hentry as [(entry & _ & Hres1 & Herr1 & Hurl & Htext)
                       | (e & f0 & _ & _ & Hres1 & Herr1)].
    + exists f', (entry :: rs), es.
      rewrite Hres, Herr, Hres1, Herr1, <- app_assoc.
      repeat split; try reflexivity; try assumption.
      * simpl. lia.
      * simpl. lia.
      * constructor.
        -- left. apply Exists_cons_hd. auto.
        -- eapply Forall_impl; [exact Hall|].
           intros l [Hl | Hl]; [left; apply Exists_cons_tl; exact Hl | right; exact Hl].
    + eexists f', rs, (_ :: es).
      rewrite Hres, Herr, Hres1, Herr1, <- app_assoc.
      repeat split; try reflexivity; try assumption.
      * simpl. lia.
      * simpl. lia.
      * constructor.
        -- right. apply Exists_cons_hd. split; reflexivity.
        -- eapply Forall_impl; [exact Hall|].
           intros l [Hl | Hl]; [left; exact Hl | right; apply Exists_cons_tl; exact Hl].
Qed.

Lemma errors_list_run_result (url : pystr) (pdf_links : list PdfLink.t)
    (f : Frame E) (stamp : pystr) :
  ProcessResult.errors_list (run_result E url pdf_links f stamp) = errors f.
Proof.
  unfold ProcessResult.errors_list, run_result. cbn.
  destruct (errors f); reflexivity.
Qed.

(** [process_pdfs], case by case on what discovery gives. *)
Lemma process_pdfs_cases (url : pystr) (s : Sys E) :
  match discover_pdf_links E url s with
  | (inl e, s1) =>
      exists stamp w,
        process_pdfs E url s = (inr (failure_result e stamp), same_world w s1)
  | (inr [], s1) => process_pdfs E url s = (inr no_links_result, s1)
  | (inr ((_ :: _) as pdf_links), s1) =>
      exists f' stamp w,
        process_loop E pdf_links (fresh_frame E s1) = (inr tt, f')
        /\ process_pdfs E url s
           = (inr (run_result E url pdf_links f' stamp), same_world w (sys f'))
  end.
Proof.
  unfold process_pdfs.
  destruct (discover_pdf_links E url s) as [[e | [|pdf_link rest]] s1] eqn:Hdisc.
  - destruct (now_returns E s1) as (stamp & w & Hnow). exists stamp, w.
    erewrite try_except_raises by (apply bind_raises; exact Hdisc).
    erewrite bind_returns by exact Hnow. reflexivity.
  - apply try_except_returns. erewrite bind_returns by exact Hdisc. reflexivity.
  - destruct (process_loop_cases (pdf_link :: rest) (fresh_frame E s1))
      as (f' & _ & _ & Hloop & _).
    destruct (now_returns E (sys f')) as (stamp & w & Hnow).
    exists f', stamp, w. split; [exact Hloop|].
    apply try_except_returns. erewrite bind_returns by exact Hdisc.
    cbn [is_nil]. unfold with_locals.
    rewrite (bind_returns (process_loop E (pdf_link :: rest)) _ _ _ _ Hloop).
    unfold bind, get, lift. rewrite Hnow. reflexivity.
Qed.

End RunFacts.

(** ** The claims about the downloader and the uploader *)

(** C7, as amended. Of a payload that was fetched (the request went through
    and the status is not an error), [download_pdf] accepts exactly those
    whose body begins with [%PDF] or whose declared content type, folded to
    lower case (and empty when the header is missing), contains ["pdf"]: the
    test on the content type ignores case. An accepted payload comes back as
    the raw bytes with the lower-cased content type, not with the header as
    it was sent; a rejected one raises a [ValueError] whose message ends
    with the lower-cased content type. *)
Theorem download_pdf_validation (E : Env) (url : pystr) (s : Sys E)
    (response : Response) (w : World E) :
  session_get E url (world s) = (inr response, w) ->
  raise_for_status_exc response = None ->
  let declared :=
    lower (unicode_lower E) (default [] (header_content_type response)) in
  let looks_like_pdf :=
    bytes_startswith PDF_MAGIC (content response) = true
    \/ contains (u "pdf") declared = true in
  ((exists payload s', download_pdf E url s = (inr payload, s')) <-> looks_like_pdf)
  /\ (looks_like_pdf ->
      download_pdf E url s = (inr (content response, declared), same_world w s))
  /\ (~ looks_like_pdf ->
      download_pdf E url s
      = (inl (ValueError (u "Invalid file type. Expected PDF, got: " ++ declared)),
         same_world w s)).
Proof.
  intros Hget Hstatus declared looks_like_pdf.
  pose proof (download_pdf_cases E url s) as Hcases.
  rewrite Hget, Hstatus in Hcases. cbn zeta in Hcases.
  unfold content_type_of in Hcases. fold declared in Hcases.
  assert (Hbool : bytes_startswith PDF_MAGIC (content response)
                  || contains (u "pdf") declared = true <-> looks_like_pdf)
    by apply orb_true_iff.
  destruct (bytes_startswith PDF_MAGIC (content response)
            || contains (u "pdf") declared).
  - assert (Hyes : looks_like_pdf) by (apply Hbool; reflexivity).
    split; [|split].
    + split; [intros _; exact Hyes | intros _; eauto].
    + intros _. exact Hcases.
    + intros Hno. contradiction.
  - assert (Hno : ~ looks_like_pdf) by (intros H; apply Hbool in H; discriminate).
    split; [|split].
    + split; [|intros H; contradiction].
      intros (payload & s' & Hok). rewrite Hcases in Hok. discriminate.
    + intros H. contradiction.
    + intros _. exact Hcases.
Qed.

(** In the demo world the first PDF is accepted on its signature alone and
    the HTML page, fetched as if it were a PDF, is refused. *)
Lemma download_pdf_validation_witness :
  download_pdf Demo.env Demo.first_pdf Demo.start
  = (inr (Demo.pdf_body, u "binary/octet-stream"), Demo.start)
  /\ download_pdf Demo.env Demo.page Demo.start
     = (inl (ValueError (u "Invalid file type. Expected PDF, got: text/html")),
        Demo.start).
Proof.
  split.
  - apply (proj1 (proj2 (download_pdf_validation Demo.env Demo.first_pdf Demo.start
             (Demo.ok_response (u "Binary/Octet-Stream") Demo.pdf_body) tt
             eq_refl eq_refl))).
    left. reflexivity.
  - apply (proj2 (proj2 (download_pdf_validation Demo.env Demo.page Demo.start
             (Demo.ok_response (u "text/html") Demo.html_body) tt
             eq_refl eq_refl))).
    intros [H | H]; vm_compute in H; discriminate.
Defined.

(** C7 as it was stated does not hold. A server answers with the three
    bytes [<a>] and the header [Content-Type: Application/PDF]. The body
    does not begin with [%PDF] and the declared content type does not
    contain ["pdf"], yet [download_pdf] accepts the payload, and the content
    type it returns is ["application/pdf"], which is not the declared
    one. *)
Lemma download_pdf_accepts_capitals :
  session_get DemoMore.capitals_env Demo.first_pdf (world DemoMore.capitals_start)
  = (inr {| raise_for_status_exc := None;
            header_content_type := Some (u "Application/PDF");
            content := Demo.html_body |}, tt)
  /\ bytes_startswith PDF_MAGIC Demo.html_body = false
  /\ contains (u "pdf") (u "Application/PDF") = false
  /\ download_pdf DemoMore.capitals_env Demo.first_pdf DemoMore.capitals_start
     = (inr (Demo.html_body, u "application/pdf"), DemoMore.capitals_start)
  /\ u "application/pdf" <> u "Application/PDF".
Proof.
  split_and!; [reflexivity | reflexivity | reflexivity | reflexivity |].
  intros H. vm_compute in H. discriminate.
Qed.

Lemma upload_to_s3_writes (E : Env) (content : bytes) (filename section : pystr)
    (s s' : Sys E) (upload_result : UploadResult.t) :
  upload_to_s3 E content filename section s = (inr upload_result, s') ->
  exists upload_date last_updated,
    s3_written s' = s3_written s
                    ++ [put_request E content filename section upload_date last_updated]
    /\ UploadResult.key upload_result = s3_key_of E filename section.
Proof.
  intros Hup.
  destruct (upload_to_s3_cases E content filename section s)
    as (upload_date & last_updated & w & [Hok | [e Hfail]]).
  - cbn zeta in Hok. rewrite Hok in Hup. inversion Hup; subst.
    exists upload_date, last_updated. split; reflexivity.
  - rewrite Hfail in Hup. discriminate.
Qed.

(** A successful [upload_to_s3] has read the clock twice and written the
    request made of its arguments and of the two stamps. *)
Lemma upload_to_s3_request (E : Env) (content : bytes) (filename section : pystr)
    (s s' : Sys E) (upload_result : UploadResult.t) :
  upload_to_s3 E content filename section s = (inr upload_result, s') ->
  exists upload_date w1 last_updated w2,
    now_isoformat E (world s) = (upload_date, w1)
    /\ now_isoformat E w1 = (last_updated, w2)
    /\ s3_written s' = s3_written s
                       ++ [put_request E content filename section upload_date last_updated]
    /\ upload_result = {| UploadResult.success := true;
                          UploadResult.key := s3_key_of E filename section;
                          UploadResult.bucket := bucket_name E |}.
Proof.
  unfold upload_to_s3, try_except, bind, now, s3_put_object.
  destruct (now_isoformat E (world s)) as [upload_date w1] eqn:Hfirst.
  cbn [world s3_written].
  destruct (now_isoformat E w1) as [last_updated w2] eqn:Hsecond.
  cbn [world s3_written].
  fold (put_request E content filename section upload_date last_updated).
  destruct (put_object E (put_request E content filename section upload_date last_updated) w2)
    as [[e|] w3]; unfold ret, raise; cbn [world s3_written];
    intros H; inversion H; subst.
  exists upload_date, w1, last_updated, w2.
  split_and!; [reflexivity | exact Hsecond | reflexivity | reflexivity].
Qed.

(** C10. A successful [upload_to_s3] writes one object and the whole of it
    is fixed by the arguments and by two readings of the clock: the bucket
    of the processor, the key ["ncdhhs-pdfs/"], sanitized section, ["/"],
    sanitized file name, the bytes, the constant content type
    ["application/pdf"], and the five metadata entries. In a turn of the
    loop that succeeds, the stored object is that one, made of the bytes
    [download_pdf] returned, of the file name and the section the link
    gives, and of the clock; the content type [download_pdf] observed is in
    no field of it, and is the [content_type] of the result entry, whose
    other fields do not hold it either. *)
Theorem upload_content_type_constant (E : Env) :
  (forall content filename section (s s' : Sys E) upload_result,
     upload_to_s3 E content filename section s = (inr upload_result, s') ->
     exists upload_date w1 last_updated w2,
       now_isoformat E (world s) = (upload_date, w1)
       /\ now_isoformat E w1 = (last_updated, w2)
       /\ s3_written s'
          = s3_written s
            ++ [{| Bucket := bucket_name E;
                   Key := u "ncdhhs-pdfs/"
                          ++ sanitize_folder_name (unicode_lower E) section
                          ++ u "/" ++ sanitize_filename (unicode_lower E) filename;
                   Body := content;
                   ContentType := u "application/pdf";
                   Metadata := [(u "upload-date", upload_date);
                                (u "original-name", filename);
                                (u "source", u "ncdhhs-policies");
                                (u "section", section);
                                (u "last-updated", last_updated)] |}]
       /\ UploadResult.key upload_result
          = u "ncdhhs-pdfs/" ++ sanitize_folder_name (unicode_lower E) section
            ++ u "/" ++ sanitize_filename (unicode_lower E) filename)
  /\ (forall pdf_link (f f' : Frame E),
        process_one E pdf_link f = (inr tt, f') ->
        let filename := original_filename_of E pdf_link in
        let section := section_of E pdf_link in
        let key := u "ncdhhs-pdfs/" ++ sanitize_folder_name (unicode_lower E) section
                   ++ u "/" ++ sanitize_filename (unicode_lower E) filename in
        exists content observed s1 upload_date w1 last_updated w2 stamp,
          download_pdf E (PdfLink.url pdf_link) (sys f) = (inr (content, observed), s1)
          /\ now_isoformat E (world s1) = (upload_date, w1)
          /\ now_isoformat E w1 = (last_updated, w2)
          /\ s3_written (sys f')
             = s3_written (sys f)
               ++ [{| Bucket := bucket_name E;
                      Key := key;
                      Body := content;
                      ContentType := u "application/pdf";
                      Metadata := [(u "upload-date", upload_date);
                                   (u "original-name", filename);
                                   (u "source", u "ncdhhs-policies");
                                   (u "section", section);
                                   (u "last-updated", last_updated)] |}]
          /\ results f'
             = results f
               ++ [{| ResultEntry.original_url := PdfLink.url pdf_link;
                      ResultEntry.filename := filename;
                      ResultEntry.link_text := PdfLink.text pdf_link;
                      ResultEntry.section := section;
                      ResultEntry.s3_key := key;
                      ResultEntry.size := length content;
                      ResultEntry.content_type := observed;
                      ResultEntry.timestamp := stamp |}]).
Proof.
  split.
  - intros content filename section s s' upload_result Hup.
    destruct (upload_to_s3_request E _ _ _ _ _ _ Hup)
      as (upload_date & w1 & last_updated & w2 & Hfirst & Hsecond & Hwritten & ->).
    exists upload_date, w1, last_updated, w2.
    split_and!; [exact Hfirst | exact Hsecond | exact Hwritten | reflexivity].
  - intros pdf_link f f' Hone filename section key.
    destruct (process_one_ok E _ _ _ Hone)
      as (content & observed & s1 & up & s2 & stamp & w & entry
          & Hdown & Hup & Hsys & Hres & _ & _ & ->).
    destruct (upload_to_s3_request E _ _ _ _ _ _ Hup)
      as (upload_date & w1 & last_updated & w2 & Hfirst & Hsecond & Hwritten & ->).
    exists content, observed, s1, upload_date, w1, last_updated, w2, stamp.
    split_and!; [exact Hdown | exact Hfirst | exact Hsecond | | exact Hres].
    rewrite Hsys. cbn [same_world s3_written]. rewrite Hwritten.
    rewrite (download_pdf_keeps_objects E _ _ _ _ Hdown). reflexivity.
Qed.

(** The demo's first PDF arrives as ["binary/octet-stream"]: the result
    entry says so, and the stored object, which says ["application/pdf"],
    has the key and the metadata of the link. *)
Lemma upload_content_type_constant_witness :
  s3_written (snd (upload_to_s3 Demo.env Demo.pdf_body (u "Test File.pdf")
                     (u "child welfare") Demo.start))
  = [{| Bucket := u "test-bucket";
        Key := u "ncdhhs-pdfs/child-welfare/test_file.pdf";
        Body := Demo.pdf_body;
        ContentType := u "application/pdf";
        Metadata := [(u "upload-date", u "2024-01-01T00:00:00");
                     (u "original-name", u "Test File.pdf");
                     (u "source", u "ncdhhs-policies");
                     (u "section", u "child welfare");
                     (u "last-updated", u "2024-01-01T00:00:00")] |}]
  /\ (exists f',
        process_one Demo.env Demo.first_link (fresh_frame Demo.env Demo.start)
        = (inr tt, f')
        /\ s3_written (sys f')
           = [{| Bucket := u "test-bucket";
                 Key := u "ncdhhs-pdfs/other-resources/test1.pdf";
                 Body := Demo.pdf_body;
                 ContentType := u "application/pdf";
                 Metadata := [(u "upload-date", u "2024-01-01T00:00:00");
                              (u "original-name", u "test1.pdf");
                              (u "source", u "ncdhhs-policies");
                              (u "section", u "other-resources");
                              (u "last-updated", u "2024-01-01T00:00:00")] |}]
        /\ ResultEntry.content_type <$> results f' = [u "binary/octet-stream"]).
Proof.
  split.
  - destruct (proj1 (upload_content_type_constant Demo.env)
                Demo.pdf_body (u "Test File.pdf") (u "child welfare") Demo.start
                _ _ eq_refl)
      as (upload_date & w1 & last_updated & w2 & Hfirst & Hsecond & Hwritten & _).
    vm_compute in Hfirst. inversion Hfirst; subst.
    vm_compute in Hsecond. inversion Hsecond; subst.
    refine (eq_trans Hwritten _). vm_compute. reflexivity.
  - eexists. split; [reflexivity|].
    destruct (proj2 (upload_content_type_constant Demo.env)
                Demo.first_link (fresh_frame Demo.env Demo.start) _ eq_refl)
      as (content & observed & s1 & upload_date & w1 & last_updated & w2 & stamp
          & Hdown & Hfirst & Hsecond & Hwritten & Hres).
    vm_compute in Hdown. inversion Hdown; subst.
    vm_compute in Hfirst. inversion Hfirst; subst.
    vm_compute in Hsecond. inversion Hsecond; subst.
    split.
    + refine (eq_trans Hwritten _). vm_compute. reflexivity.
    + refine (eq_trans (f_equal (fmap ResultEntry.content_type) Hres) _).
      vm_compute. reflexivity.
Defined.

(** ** The claims about a whole run *)

(** [process_pdfs] always returns a dict: nothing escapes its outer [try]. *)
Lemma process_pdfs_returns (E : Env) (url : pystr) (s : Sys E) :
  exists r s', process_pdfs E url s = (inr r, s').
Proof.
  pose proof (process_pdfs_cases E url s) as Hcases.
  destruct (discover_pdf_links E url s) as [[e | [|pdf_link rest]] s1].
  - destruct Hcases as (stamp & w & ->). eauto.
  - rewrite Hcases. eauto.
  - destruct Hcases as (f' & stamp & w & _ & ->). eauto.
Qed.

(** C9. When discovery finds no link, [process_pdfs] stops there with a
    success: [success] is true, [summary.total] is 0, [results] is empty, a
    message explains and there is no error. When discovery itself raises,
    the dict has [success] false and the exception's message under
    [error]. *)
Theorem process_pdfs_no_links_or_no_discovery (E : Env) (url : pystr) (s : Sys E) :
  (forall s1,
     discover_pdf_links E url s = (inr [], s1) ->
     exists r,
       process_pdfs E url s = (inr r, s1)
       /\ ProcessResult.success r = true
       /\ Summary.total <$> ProcessResult.summary r = Some 0
       /\ ProcessResult.results r = Some []
       /\ ProcessResult.message r
          = Some (u "No PDF links found on the specified page")
       /\ ProcessResult.error r = None
       /\ ProcessResult.errors_list r = [])
  /\ (forall e s1,
        discover_pdf_links E url s = (inl e, s1) ->
        exists r s',
          process_pdfs E url s = (inr r, s')
          /\ ProcessResult.success r = false
          /\ ProcessResult.error r = Some (str_of_exc e)
          /\ ProcessResult.summary r = None
          /\ ProcessResult.results r = None).
Proof.
  pose proof (process_pdfs_cases E url s) as Hcases.
  split.
  - intros s1 Hdisc. rewrite Hdisc in Hcases.
    exists no_links_result. split; [exact Hcases|]. repeat split.
  - intros e s1 Hdisc. rewrite Hdisc in Hcases.
    destruct Hcases as (stamp & w & Hrun).
    eexists _, _. split; [exact Hrun|]. repeat split.
Qed.

(** The demo's empty page and the demo's silent host. *)
Lemma process_pdfs_no_links_or_no_discovery_witness :
  (exists r,
     process_pdfs Demo.env Demo.empty_page Demo.start = (inr r, Demo.start)
     /\ ProcessResult.success r = true
     /\ Summary.total <$> ProcessResult.summary r = Some 0)
  /\ (exists r s',
        process_pdfs Demo.env Demo.down_page Demo.start = (inr r, s')
        /\ ProcessResult.success r = false
        /\ ProcessResult.error r = Some (u "Read timed out.")).
Proof.
  split.
  - destruct (proj1 (process_pdfs_no_links_or_no_discovery Demo.env
                       Demo.empty_page Demo.start) Demo.start eq_refl)
      as (r & Hrun & Hsuccess & Htotal & _).
    exists r. auto.
  - destruct (proj2 (process_pdfs_no_links_or_no_discovery Demo.env
                       Demo.down_page Demo.start)
                (ExternalError (u "Read timed out.")) Demo.start eq_refl)
      as (r & s' & Hrun & Hsuccess & Herror & _).
    exists r, s'. auto.
Defined.

(** What a successful dict says, in terms of the frame the loop ended in. *)
Lemma process_pdfs_success (E : Env) (url : pystr) (s s' : Sys E)
    (r : ProcessResult.t) :
  process_pdfs E url s = (inr r, s') ->
  ProcessResult.success r = true ->
  exists pdf_links s1,
    discover_pdf_links E url s = (inr pdf_links, s1)
    /\ ((pdf_links = [] /\ r = no_links_result)
        \/ exists f' stamp,
             process_loop E pdf_links (fresh_frame E s1) = (inr tt, f')
             /\ r = run_result E url pdf_links f' stamp).
Proof.
  intros Hrun Hsuccess.
  pose proof (process_pdfs_cases E url s) as Hcases.
  destruct (discover_pdf_links E url s) as [[e | [|pdf_link rest]] s1].
  - destruct Hcases as (stamp & w & Hfail). rewrite Hfail in Hrun.
    injection Hrun as Hr _. subst r. discriminate.
  - rewrite Hcases in Hrun. injection Hrun as Hr _. subst r.
    exists [], s1. split; [reflexivity|]. left. split; reflexivity.
  - destruct Hcases as (f' & stamp & w & Hloop & Hok). rewrite Hok in Hrun.
    injection Hrun as Hr _. subst r.
    exists (pdf_link :: rest), s1. split; [reflexivity|]. right. eauto.
Qed.

(** C5. In every dict [process_pdfs] returns with [success] true,
    [summary.total] is the number of links discovery found,
    [summary.successful] is the length of [results], [summary.failed] is the
    length of the errors list, and [total = successful + failed]. *)
Theorem summary_counts (E : Env) (url : pystr) (s s' : Sys E)
    (r : ProcessResult.t) :
  process_pdfs E url s = (inr r, s') ->
  ProcessResult.success r = true ->
  exists pdf_links s1 summary entries,
    discover_pdf_links E url s = (inr pdf_links, s1)
    /\ ProcessResult.summary r = Some summary
    /\ ProcessResult.results r = Some entries
    /\ Summary.total summary = length pdf_links
    /\ Summary.successful summary = length entries
    /\ Summary.failed summary = length (ProcessResult.errors_list r)
    /\ Summary.total summary = Summary.successful summary + Summary.failed summary.
Proof.
  intros Hrun Hsuccess.
  destruct (process_pdfs_success E _ _ _ _ Hrun Hsuccess)
    as (pdf_links & s1 & Hdisc & [[-> ->] | (f' & stamp & Hloop & ->)]).
  - exists [], s1. eexists _, _. split; [exact Hdisc|]. repeat split.
  - exists pdf_links, s1. eexists _, _. split; [exact Hdisc|].
    rewrite errors_list_run_result. cbn.
    repeat split.
    destruct (process_loop_cases E pdf_links (fresh_frame E s1))
      as (f'' & rs & es & Hloop' & Hres & Herr & Hlen & _).
    rewrite Hloop in Hloop'. inversion Hloop'; subst f''.
    rewrite Hres, Herr. cbn. lia.
Qed.

(** The demo page: two links found, one stored, one failed. *)
Lemma summary_counts_witness :
  exists summary,
    process_pdfs Demo.env Demo.page Demo.start = (inr Demo.page_dict, Demo.page_end)
    /\ ProcessResult.summary Demo.page_dict = Some summary
    /\ Summary.total summary = 2
    /\ Summary.successful summary = 1
    /\ Summary.failed summary = 1
    /\ Summary.total summary = Summary.successful summary + Summary.failed summary.
Proof.
  assert (Hrun : process_pdfs Demo.env Demo.page Demo.start
                 = (inr Demo.page_dict, Demo.page_end))
    by (vm_compute; reflexivity).
  destruct (summary_counts Demo.env Demo.page Demo.start Demo.page_end
              Demo.page_dict Hrun eq_refl)
    as (pdf_links & s1 & summary & entries & _ & Hsummary & _ & _ & _ & _ & Hsum).
  exists summary. split; [exact Hrun|]. split; [exact Hsummary|].
  vm_compute in Hsummary. inversion Hsummary; subst summary.
  repeat split.
Defined.

(** C1, as amended. In every dict [process_pdfs] returns with [success]
    true, the per-category counts add up to [summary.total], that is to
    [successful + failed]: a link is counted when it is categorized, before
    its download, so the sum is [summary.successful] exactly when nothing
    failed. *)
Theorem sections_sum_is_total (E : Env) (url : pystr) (s s' : Sys E)
    (r : ProcessResult.t) :
  process_pdfs E url s = (inr r, s') ->
  ProcessResult.success r = true ->
  exists summary,
    ProcessResult.summary r = Some summary
    /\ sum_values (Summary.sections summary) = Summary.total summary
    /\ sum_values (Summary.sections summary)
       = Summary.successful summary + Summary.failed summary
    /\ (sum_values (Summary.sections summary) = Summary.successful summary
        <-> Summary.failed summary = 0).
Proof.
  intros Hrun Hsuccess.
  destruct (process_pdfs_success E _ _ _ _ Hrun Hsuccess)
    as (pdf_links & s1 & Hdisc & [[-> ->] | (f' & stamp & Hloop & ->)]).
  - eexists. split; [reflexivity|]. cbn. rewrite sum_values_empty.
    repeat split; reflexivity.
  - eexists. split; [reflexivity|]. cbn.
    destruct (process_loop_cases E pdf_links (fresh_frame E s1))
      as (f'' & rs & es & Hloop' & Hres & Herr & Hlen & Hsum & _).
    rewrite Hloop in Hloop'. inversion Hloop'; subst f''.
    rewrite Hsum, Hres, Herr. cbn. rewrite sum_values_empty.
    repeat split; lia.
Qed.

Lemma sections_sum_is_total_witness :
  exists summary,
    ProcessResult.summary Demo.page_dict = Some summary
    /\ sum_values (Summary.sections summary) = Summary.total summary.
Proof.
  assert (Hrun : process_pdfs Demo.env Demo.page Demo.start
                 = (inr Demo.page_dict, Demo.page_end))
    by (vm_compute; reflexivity).
  destruct (sections_sum_is_total Demo.env Demo.page Demo.start Demo.page_end
              Demo.page_dict Hrun eq_refl)
    as (summary & Hsummary & Htotal & _).
  exists summary. split; assumption.
Defined.

(** C1 as the specification states it fails. On the demo page the second
    link is categorized and then times out: the run succeeds with one
    document stored, and the category counts add up to two. *)
Lemma sections_sum_exceeds_successful :
  exists r s' summary,
    process_pdfs Demo.env Demo.page Demo.start = (inr r, s')
    /\ ProcessResult.success r = true
    /\ ProcessResult.summary r = Some summary
    /\ Summary.successful summary = 1
    /\ sum_values (Summary.sections summary) = 2
    /\ sum_values (Summary.sections summary) <> Summary.successful summary.
Proof.
  exists Demo.page_dict, Demo.page_end.
  eexists. split; [vm_compute; reflexivity|]. split; [reflexivity|].
  split; [reflexivity|]. split; [reflexivity|].
  split; [vm_compute; reflexivity | vm_compute; discriminate].
Qed.

(** ** A failing item *)

Lemma process_one_download_fails (E : Env) (pdf_link : PdfLink.t) (f : Frame E)
    (e : exc) (s1 : Sys E) :
  download_pdf E (PdfLink.url pdf_link) (sys f) = (inl e, s1) ->
  process_one E pdf_link f
  = (inl e, {| sys := s1; results := results f; errors := errors f;
               section_counts := counted (section_of E pdf_link) (section_counts f) |}).
Proof.
  intros Hdown. unfold process_one, bind, count_section, modify, lift.
  cbn [sys results errors section_counts]. rewrite Hdown. reflexivity.
Qed.

Lemma process_one_upload_fails (E : Env) (pdf_link : PdfLink.t) (f : Frame E)
    (content : bytes) (content_type : pystr) (e : exc) (s1 s2 : Sys E) :
  download_pdf E (PdfLink.url pdf_link) (sys f) = (inr (content, content_type), s1) ->
  upload_to_s3 E content (original_filename_of E pdf_link) (section_of E pdf_link) s1
  = (inl e, s2) ->
  process_one E pdf_link f
  = (inl e, {| sys := s2; results := results f; errors := errors f;
               section_counts := counted (section_of E pdf_link) (section_counts f) |}).
Proof.
  intros Hdown Hup. unfold process_one, bind, count_section, modify, lift.
  cbn [sys results errors section_counts]. rewrite Hdown.
  cbn [sys results errors section_counts]. rewrite Hup. reflexivity.
Qed.

Lemma item_fails_process_one (E : Env) (pdf_link : PdfLink.t) (f : Frame E)
    (e : exc) :
  item_fails E pdf_link f e ->
  exists s1,
    process_one E pdf_link f
    = (inl e, {| sys := s1; results := results f; errors := errors f;
                 section_counts :=
                   counted (section_of E pdf_link) (section_counts f) |}).
Proof.
  intros [(s1 & Hdown) | (content & content_type & s1 & s2 & Hdown & Hup)].
  - exists s1. apply process_one_download_fails. exact Hdown.
  - exists s2. eapply process_one_upload_fails; eassumption.
Qed.

Lemma turn_raises (E : Env) (pdf_link : PdfLink.t) (f f0 : Frame E) (e : exc) :
  process_one E pdf_link f = (inl e, f0) ->
  turn E pdf_link f
  = (inr tt, {| sys := sys f0; results := results f0;
                errors := errors f0 ++ [error_entry pdf_link e];
                section_counts := section_counts f0 |}).
Proof.
  intros Hone. unfold turn. rewrite (try_except_raises _ _ _ _ _ Hone).
  reflexivity.
Qed.

(** C8. When the download or the upload of one link raises, the turn ends
    normally with one more error entry, made of the link's URL, its anchor
    text and the exception's message, and the loop goes on with the links
    that remain, each of which ends up in [results] or in [errors]. A whole
    run whose discovery succeeds therefore returns [success] true whatever
    fails inside the loop, with every discovered link accounted for. *)
Theorem failed_item_recorded_run_continues (E : Env) :
  (forall pdf_link rest (f : Frame E) e,
     item_fails E pdf_link f e ->
     exists f1 f' later_results later_errors,
       turn E pdf_link f = (inr tt, f1)
       /\ results f1 = results f
       /\ errors f1 = errors f ++ [error_entry pdf_link e]
       /\ process_loop E (pdf_link :: rest) f = process_loop E rest f1
       /\ process_loop E rest f1 = (inr tt, f')
       /\ results f' = results f ++ later_results
       /\ errors f' = errors f ++ error_entry pdf_link e :: later_errors
       /\ length later_results + length later_errors = length rest
       /\ Forall (fun later =>
                    succeeded_in later_results later \/ failed_in later_errors later)
            rest)
  /\ (forall url (s : Sys E) pdf_links s1,
        discover_pdf_links E url s = (inr pdf_links, s1) ->
        exists r s' entries,
          process_pdfs E url s = (inr r, s')
          /\ ProcessResult.success r = true
          /\ ProcessResult.results r = Some entries
          /\ length entries + length (ProcessResult.errors_list r) = length pdf_links
          /\ Forall (fun pdf_link =>
                       succeeded_in entries pdf_link
                       \/ failed_in (ProcessResult.errors_list r) pdf_link)
               pdf_links).
Proof.
  split.
  - intros pdf_link rest f e Hfails.
    destruct (item_fails_process_one E _ _ _ Hfails) as (s1 & Hone).
    pose proof (turn_raises E _ _ _ _ Hone) as Hturn.
    cbn [sys results errors section_counts] in Hturn.
    match type of Hturn with _ = (_, ?frame) => set (f1 := frame) in * end.
    destruct (process_loop_cases E rest f1)
      as (f' & rs & es & Hloop & Hres & Herr & Hlen & _ & Hall).
    exists f1, f', rs, es.
    split; [exact Hturn|]. split; [reflexivity|]. split; [reflexivity|].
    split; [apply process_loop_cons; exact Hturn|]. split; [exact Hloop|].
    split; [exact Hres|]. split.
    + rewrite Herr. unfold f1. cbn [errors]. rewrite <- app_assoc. reflexivity.
    + split; assumption.
  - intros url s pdf_links s1 Hdisc.
    pose proof (process_pdfs_cases E url s) as Hcases.
    rewrite Hdisc in Hcases. destruct pdf_links as [|pdf_link rest].
    + exists no_links_result, s1, []. split; [exact Hcases|].
      repeat split. constructor.
    + destruct Hcases as (f' & stamp & w & Hloop & Hrun).
      destruct (process_loop_cases E (pdf_link :: rest) (fresh_frame E s1))
        as (f'' & rs & es & Hloop' & Hres & Herr & Hlen & _ & Hall).
      rewrite Hloop in Hloop'. inversion Hloop'; subst f''.
      cbn [fresh_frame results errors app] in Hres, Herr.
      eexists _, _, (results f'). split; [exact Hrun|].
      rewrite errors_list_run_result.
      split; [reflexivity|]. split; [reflexivity|].
      rewrite Hres, Herr. split; assumption.
Qed.

(** In the demo world, with the link that times out put first: its error
    is recorded and the other link is still fetched and stored; and the
    run over the demo page succeeds with both links accounted for. *)
Lemma failed_item_recorded_run_continues_witness :
  (exists f',
     process_loop Demo.env [Demo.second_link; Demo.first_link]
       (fresh_frame Demo.env Demo.start) = (inr tt, f')
     /\ length (results f') = 1
     /\ errors f' = [{| ErrorEntry.url := Demo.second_pdf;
                        ErrorEntry.link_text := u "PDF Document";
                        ErrorEntry.error := u "Read timed out." |}])
  /\ (exists r s',
        process_pdfs Demo.env Demo.page Demo.start = (inr r, s')
        /\ ProcessResult.success r = true
        /\ length (ProcessResult.errors_list r) = 1).
Proof.
  split.
  - destruct (proj1 (failed_item_recorded_run_continues Demo.env)
                Demo.second_link [Demo.first_link] (fresh_frame Demo.env Demo.start)
                (ExternalError (u "Read timed out."))
                (or_introl (ex_intro _ Demo.start eq_refl)))
      as (f1 & f' & rs & es & Hturn & _ & _ & Hcons & Hloop & Hres & Herr & Hlen & _).
    exists f'. split; [rewrite Hcons; exact Hloop|].
    vm_compute in Hturn. inversion Hturn; subst f1.
    vm_compute in Hloop. inversion Hloop; subst f'.
    split; reflexivity.
  - destruct (proj2 (failed_item_recorded_run_continues Demo.env)
                Demo.page Demo.start [Demo.first_link; Demo.second_link] Demo.start
                eq_refl)
      as (r & s' & entries & Hrun & Hsuccess & _).
    exists r, s'. split; [exact Hrun|]. split; [exact Hsuccess|].
    vm_compute in Hrun. inversion Hrun. reflexivity.
Defined.

(** Discovery on the demo page: the [.txt] anchor is skipped, the second
    anchor to [test1.pdf] is a duplicate, the empty anchor text gets the
    placeholder. *)
Example discover_demo_page :
  discover_pdf_links Demo.env Demo.page Demo.start
  = (inr [Demo.first_link; Demo.second_link], Demo.start).
Proof. reflexivity. Qed.

(** * Further properties of the code *)

(** ** Substrings *)

Lemma startswith_spec (needle hay : pystr) :
  startswith needle hay = true <-> exists post, hay = needle ++ post.
Proof.
  revert hay. induction needle as [|a n IH]; intros hay; simpl.
  - split; [intros _; exists hay; reflexivity | reflexivity].
  - destruct hay as [|b h].
    + split; [discriminate | intros [post Hpost]; discriminate].
    + rewrite andb_true_iff, N.eqb_eq, IH. split.
      * intros [-> [post ->]]. exists post. reflexivity.
      * intros [post Hpost]. injection Hpost as -> ->. eauto.
Qed.

Lemma contains_spec (needle hay : pystr) :
  contains needle hay = true <-> exists pre post, hay = pre ++ needle ++ post.
Proof.
  induction hay as [|b h IH].
  - simpl. rewrite orb_false_r, startswith_spec. split.
    + intros [post Hpost]. exists [], post. exact Hpost.
    + intros (pre & post & Hhay).
      destruct pre as [|? ?]; [|discriminate]. exists post. exact Hhay.
  - change (contains needle (b :: h))
      with (startswith needle (b :: h) || contains needle h).
    rewrite orb_true_iff, startswith_spec, IH. split.
    + intros [[post Hpost] | (pre & post & ->)].
      * exists [], post. exact Hpost.
      * exists (b :: pre), post. reflexivity.
    + intros (pre & post & Hhay). destruct pre as [|c pre].
      * left. exists post. exact Hhay.
      * right. injection Hhay as -> ->. eauto.
Qed.

Lemma endswith_spec (needle hay : pystr) :
  endswith needle hay = true <-> exists pre, hay = pre ++ needle.
Proof.
  unfold endswith. rewrite startswith_spec. split.
  - intros [post Hpost]. exists (rev post).
    rewrite <- (rev_involutive hay), Hpost, rev_app_distr, rev_involutive.
    reflexivity.
  - intros [pre ->]. exists (rev pre). apply rev_app_distr.
Qed.

(** [a in b] and [b in c] give [a in c]. *)
Lemma contains_trans (a b c : pystr) :
  contains a b = true -> contains b c = true -> contains a c = true.
Proof.
  rewrite !contains_spec.
  intros (pre1 & post1 & ->) (pre2 & post2 & ->).
  exists (pre2 ++ pre1), (post1 ++ post2).
  rewrite <- !app_assoc. reflexivity.
Qed.

Lemma endswith_contains (needle hay : pystr) :
  endswith needle hay = true -> contains needle hay = true.
Proof.
  rewrite endswith_spec, contains_spec. intros [pre ->].
  exists pre, []. rewrite app_nil_r. reflexivity.
Qed.

Lemma contains_app_r (needle pre hay : pystr) :
  contains needle hay = true -> contains needle (pre ++ hay) = true.
Proof.
  rewrite !contains_spec. intros (p & q & ->).
  exists (pre ++ p), q. rewrite <- app_assoc. reflexivity.
Qed.

Lemma contains_app_l (needle hay post : pystr) :
  contains needle hay = true -> contains needle (hay ++ post) = true.
Proof.
  rewrite !contains_spec. intros (p & q & ->).
  exists p, (q ++ post). rewrite <- !app_assoc. reflexivity.
Qed.

(** X10. The test discovery applies to an [href],
    [href.endswith('.pdf') or '.pdf' in href], is the substring test alone:
    whatever ends with [.pdf] contains it. *)
Theorem is_pdf_href_is_substring_test (href : pystr) :
  is_pdf_href href = contains (u ".pdf") href.
Proof.
  unfold is_pdf_href.
  destruct (endswith (u ".pdf") href) eqn:Hend; [|reflexivity].
  rewrite (endswith_contains _ _ Hend). reflexivity.
Qed.

(** ** More on the two [re.sub] shapes *)

Section RegexMore.
Variable cls : codepoint -> bool.

Lemma re_sub_char_length (r : codepoint) (s : pystr) :
  length (re_sub_char cls [r] s) = length s.
Proof.
  unfold re_sub_char. induction s as [|c t IH]; simpl; [reflexivity|].
  rewrite length_app, IH. destruct (cls c); reflexivity.
Qed.

Lemma re_sub_char_delete_length (s : pystr) :
  length (re_sub_char cls [] s) <= length s.
Proof.
  unfold re_sub_char. induction s as [|c t IH]; simpl; [lia|].
  rewrite length_app. destruct (cls c); simpl; lia.
Qed.

Lemma re_sub_plus_from_length (r : codepoint) (s : pystr) (in_run : bool) :
  length (re_sub_plus_from in_run cls [r] s) <= length s.
Proof.
  revert in_run. induction s as [|c t IH]; intros in_run; simpl; [lia|].
  destruct (cls c).
  - rewrite length_app. specialize (IH true). destruct in_run; simpl; lia.
  - simpl. specialize (IH false). lia.
Qed.

Lemma re_sub_plus_nonempty (r c : codepoint) (t : pystr) :
  re_sub_plus cls [r] (c :: t) <> [].
Proof.
  unfold re_sub_plus. simpl. destruct (cls c); simpl; discriminate.
Qed.

(** After a run has been replaced the output goes on with a character that
    is not of the class. *)
Lemma re_sub_plus_from_in_run_head (r : codepoint) (s : pystr) :
  match re_sub_plus_from true cls [r] s with
  | [] => True
  | c :: _ => cls c = false
  end.
Proof.
  induction s as [|c t IH]; simpl; [exact I|].
  destruct (cls c) eqn:Hc; [exact IH | exact Hc].
Qed.

Lemma no_run_cons_other (c : codepoint) (s : pystr) :
  cls c = false -> no_run cls s = true -> no_run cls (c :: s) = true.
Proof.
  intros Hc Hs. simpl. destruct s as [|b t]; [reflexivity|].
  rewrite Hc. simpl. exact Hs.
Qed.

(** Collapsing the runs of a class into one character of that class leaves
    no two adjacent characters of the class. *)
Lemma re_sub_plus_from_no_run (r : codepoint) (s : pystr) (in_run : bool) :
  no_run cls (re_sub_plus_from in_run cls [r] s) = true.
Proof.
  revert in_run. induction s as [|c t IH]; intros in_run; [reflexivity|].
  simpl. destruct (cls c) eqn:Hc.
  - destruct in_run; [apply IH|].
    change ([r] ++ re_sub_plus_from true cls [r] t)
      with (r :: re_sub_plus_from true cls [r] t).
    pose proof (re_sub_plus_from_in_run_head r t) as Hhead.
    specialize (IH true).
    destruct (re_sub_plus_from true cls [r] t) as [|b t'] eqn:Hout; [reflexivity|].
    change (negb (cls r && cls b) && no_run cls (b :: t') = true).
    rewrite Hhead, andb_false_r. exact IH.
  - apply no_run_cons_other; [exact Hc | apply IH].
Qed.

Lemma no_run_map (h : codepoint -> codepoint) (s : pystr) :
  (forall c, cls (h c) = cls c) ->
  no_run cls (map h s) = no_run cls s.
Proof.
  intros Hcls. induction s as [|a t IH]; [reflexivity|].
  destruct t as [|b t']; [reflexivity|].
  change (negb (cls (h a) && cls (h b)) && no_run cls (map h (b :: t'))
          = negb (cls a && cls b) && no_run cls (b :: t')).
  rewrite !Hcls, IH. reflexivity.
Qed.

Lemma re_sub_char_map (h : codepoint -> codepoint) (r : codepoint) (s : pystr) :
  (forall c, cls (h c) = cls c) -> h r = r ->
  re_sub_char cls [r] (map h s) = map h (re_sub_char cls [r] s).
Proof.
  intros Hcls Hr. unfold re_sub_char.
  induction s as [|c t IH]; [reflexivity|].
  simpl. rewrite Hcls, IH, map_app. destruct (cls c); simpl; [rewrite Hr|]; reflexivity.
Qed.

Lemma re_sub_char_delete_map (h : codepoint -> codepoint) (s : pystr) :
  (forall c, cls (h c) = cls c) ->
  re_sub_char cls [] (map h s) = map h (re_sub_char cls [] s).
Proof.
  intros Hcls. unfold re_sub_char.
  induction s as [|c t IH]; [reflexivity|].
  simpl. rewrite Hcls, IH, map_app. destruct (cls c); reflexivity.
Qed.

Lemma re_sub_char_delete_all (s : pystr) :
  Forall (fun c => cls c = true) s -> re_sub_char cls [] s = [].
Proof.
  unfold re_sub_char. induction 1 as [|c t Hc _ IH]; simpl; [reflexivity|].
  rewrite Hc, IH. reflexivity.
Qed.

Lemma re_sub_char_app (repl s t : pystr) :
  re_sub_char cls repl (s ++ t) = re_sub_char cls repl s ++ re_sub_char cls repl t.
Proof. unfold re_sub_char. apply flat_map_app. Qed.

(** A character that is not of the class ends whatever run precedes it. *)
Lemma re_sub_plus_from_app_other (repl s t : pystr) (c : codepoint) (in_run : bool) :
  cls c = false ->
  re_sub_plus_from in_run cls repl (s ++ c :: t)
  = re_sub_plus_from in_run cls repl s ++ c :: re_sub_plus_from false cls repl t.
Proof.
  intros Hc. revert in_run. induction s as [|a s' IH]; intros in_run; simpl.
  - rewrite Hc. reflexivity.
  - destruct (cls a); rewrite IH; [rewrite <- app_assoc|]; reflexivity.
Qed.

End RegexMore.

Lemma map_ascii_lower_idem (s : pystr) :
  map ascii_lower (map ascii_lower s) = map ascii_lower s.
Proof.
  rewrite map_map. apply map_ext. intros c.
  lower_cases c; [|rewrite ascii_lower_not_upper by assumption; reflexivity].
  apply ascii_lower_not_upper. char_classes.
Qed.

Lemma filename_char_lower (c : codepoint) :
  filename_char (ascii_lower c) = filename_char c.
Proof.
  lower_cases c; [|reflexivity].
  assert (H1 : filename_char (c + 32)%N = true) by char_classes.
  assert (H2 : filename_char c = true) by char_classes.
  rewrite H1, H2. reflexivity.
Qed.

Lemma is_space_lower (c : codepoint) : is_space (ascii_lower c) = is_space c.
Proof.
  lower_cases c; [|reflexivity].
  assert (H1 : is_space (c + 32)%N = false) by char_classes.
  assert (H2 : is_space c = false) by char_classes.
  rewrite H1, H2. reflexivity.
Qed.

Lemma folder_char_lower (c : codepoint) :
  folder_char (ascii_lower c) = folder_char c.
Proof.
  lower_cases c; [|reflexivity].
  assert (H1 : folder_char (c + 32)%N = true) by char_classes.
  assert (H2 : folder_char c = true) by char_classes.
  rewrite H1, H2. reflexivity.
Qed.

(** ** More on the sanitizers *)

Section SanitizeMore.
Variable unicode_lower : pystr -> pystr.

Local Abbreviation is_underscore := (fun c : codepoint => (c =? UNDERSCORE)%N).
Local Abbreviation is_hyphen := (fun c : codepoint => (c =? HYPHEN)%N).
Local Abbreviation no_name_char := (fun c : codepoint => negb (filename_char c)).
Local Abbreviation no_folder_char := (fun c : codepoint => negb (folder_char c)).

Lemma raw_filename_lower (x : pystr) :
  raw_filename (map ascii_lower x) = map ascii_lower (raw_filename x).
Proof.
  unfold raw_filename, re_sub_plus.
  rewrite (re_sub_char_map no_name_char ascii_lower UNDERSCORE)
    by (try reflexivity; intros c; rewrite filename_char_lower; reflexivity).
  apply (re_sub_plus_from_map is_underscore ascii_lower UNDERSCORE);
    [apply ascii_lower_underscore | reflexivity].
Qed.

Lemma raw_folder_name_lower (x : pystr) :
  raw_folder_name (map ascii_lower x) = map ascii_lower (raw_folder_name x).
Proof.
  unfold raw_folder_name, re_sub_plus.
  rewrite (re_sub_char_delete_map no_folder_char ascii_lower)
    by (intros c; rewrite folder_char_lower; reflexivity).
  rewrite (re_sub_plus_from_map is_space ascii_lower HYPHEN)
    by (try reflexivity; apply is_space_lower).
  apply (re_sub_plus_from_map is_hyphen ascii_lower HYPHEN);
    [apply ascii_lower_hyphen | reflexivity].
Qed.

Lemma sanitize_filename_app_pdf (x : pystr) :
  sanitize_filename unicode_lower (x ++ u ".pdf")
  = sanitize_filename unicode_lower x ++ u ".pdf".
Proof.
  rewrite !sanitize_filename_unfold. unfold raw_filename, re_sub_plus.
  rewrite re_sub_char_app.
  change (re_sub_char no_name_char (u "_") (u ".pdf")) with (DOT :: u "pdf").
  rewrite (re_sub_plus_from_app_other is_underscore) by reflexivity.
  rewrite map_app. reflexivity.
Qed.

End SanitizeMore.

(** X1. Whatever it is given, [sanitize_filename] returns a name made of
    [[a-z0-9._-]] only, in which no two underscores are adjacent. *)
Theorem sanitize_filename_alphabet (unicode_lower : pystr -> pystr) (x : pystr) :
  Forall (fun c => stored_name_char c = true) (sanitize_filename unicode_lower x)
  /\ no_run (fun c => (c =? UNDERSCORE)%N) (sanitize_filename unicode_lower x) = true.
Proof.
  split; [apply sanitize_filename_chars|].
  rewrite sanitize_filename_unfold.
  rewrite no_run_map by apply ascii_lower_underscore.
  unfold raw_filename, re_sub_plus. apply re_sub_plus_from_no_run.
Qed.

(** X2. [sanitize_filename] never lengthens a name, and it returns the empty
    name for the empty name only: a name without one valid character still
    comes back as one underscore. *)
Theorem sanitize_filename_length (unicode_lower : pystr -> pystr) (x : pystr) :
  length (sanitize_filename unicode_lower x) <= length x
  /\ (sanitize_filename unicode_lower x = [] <-> x = []).
Proof.
  rewrite sanitize_filename_unfold. unfold raw_filename.
  change (u "_") with [UNDERSCORE]. split.
  - rewrite length_map. unfold re_sub_plus.
    etransitivity; [apply re_sub_plus_from_length|].
    rewrite re_sub_char_length. reflexivity.
  - split; [|intros ->; reflexivity].
    destruct x as [|c t]; [reflexivity|]. intros Hempty.
    apply map_eq_nil in Hempty. exfalso. revert Hempty.
    unfold re_sub_char. cbn [flat_map].
    destruct (negb (filename_char c)); cbn [app];
      apply (re_sub_plus_nonempty (fun c => (c =? UNDERSCORE)%N)).
Qed.

(** X3. A name that is already made of [[a-z0-9.-]] goes through
    [sanitize_filename] unchanged. *)
Theorem sanitize_filename_plain_name (unicode_lower : pystr -> pystr) (x : pystr) :
  Forall (fun c => plain_name_char c = true) x ->
  sanitize_filename unicode_lower x = x.
Proof.
  intros Hplain. rewrite sanitize_filename_unfold. unfold raw_filename, re_sub_plus.
  rewrite re_sub_char_id.
  - rewrite re_sub_plus_from_none.
    + apply map_fixed. eapply Forall_impl; [exact Hplain|].
      intros c Hc. apply ascii_lower_stored_name.
      unfold plain_name_char in Hc. char_classes.
    + eapply Forall_impl; [exact Hplain|].
      intros c Hc. unfold plain_name_char in Hc. char_classes.
  - eapply Forall_impl; [exact Hplain|].
    intros c Hc Hn. apply negb_true_iff in Hn.
    unfold plain_name_char in Hc. char_classes.
Qed.

Lemma sanitize_filename_plain_name_witness :
  sanitize_filename ascii_only (u "report-2024.v2.pdf") = u "report-2024.v2.pdf".
Proof.
  apply (sanitize_filename_plain_name ascii_only (u "report-2024.v2.pdf")).
  repeat constructor.
Defined.

(** X4. Neither sanitizer sees the case of ASCII letters, so neither does
    the object key: two file names or two sections that differ only there
    are stored under the same key. *)
Theorem sanitizers_ignore_ascii_case (E : Env) (filename section : pystr) :
  sanitize_filename (unicode_lower E) (map ascii_lower filename)
  = sanitize_filename (unicode_lower E) filename
  /\ sanitize_folder_name (unicode_lower E) (map ascii_lower section)
     = sanitize_folder_name (unicode_lower E) section
  /\ s3_key_of E (map ascii_lower filename) (map ascii_lower section)
     = s3_key_of E filename section.
Proof.
  assert (Hfile : sanitize_filename (unicode_lower E) (map ascii_lower filename)
                  = sanitize_filename (unicode_lower E) filename).
  { rewrite !sanitize_filename_unfold, raw_filename_lower.
    apply map_ascii_lower_idem. }
  assert (Hfolder : sanitize_folder_name (unicode_lower E) (map ascii_lower section)
                    = sanitize_folder_name (unicode_lower E) section).
  { rewrite !sanitize_folder_name_unfold, raw_folder_name_lower.
    apply map_ascii_lower_idem. }
  split; [exact Hfile|]. split; [exact Hfolder|].
  unfold s3_key_of. rewrite Hfile, Hfolder. reflexivity.
Qed.

(** X5. [sanitize_folder_name] never lengthens a name and leaves no two
    adjacent hyphens in it. *)
Theorem sanitize_folder_name_hyphens (unicode_lower : pystr -> pystr) (x : pystr) :
  length (sanitize_folder_name unicode_lower x) <= length x
  /\ no_run (fun c => (c =? HYPHEN)%N) (sanitize_folder_name unicode_lower x) = true.
Proof.
  rewrite sanitize_folder_name_unfold. unfold raw_folder_name, re_sub_plus. split.
  - rewrite length_map.
    etransitivity; [apply re_sub_plus_from_length|].
    etransitivity; [apply re_sub_plus_from_length|].
    apply re_sub_char_delete_length.
  - rewrite no_run_map by apply ascii_lower_hyphen.
    apply re_sub_plus_from_no_run.
Qed.

(** X6. A section name without one letter, digit, whitespace or hyphen is
    sanitized to the empty folder name, and the key then has an empty
    folder: ["ncdhhs-pdfs//"] and the file name. *)
Theorem sanitize_folder_name_nothing_left (E : Env) (filename section : pystr) :
  Forall (fun c => folder_char c = false) section ->
  sanitize_folder_name (unicode_lower E) section = []
  /\ s3_key_of E filename section
     = u "ncdhhs-pdfs//" ++ sanitize_filename (unicode_lower E) filename.
Proof.
  intros Hnone.
  assert (Hempty : sanitize_folder_name (unicode_lower E) section = []).
  { rewrite sanitize_folder_name_unfold. unfold raw_folder_name.
    rewrite re_sub_char_delete_all; [reflexivity|].
    eapply Forall_impl; [exact Hnone|]. intros c ->. reflexivity. }
  split; [exact Hempty|]. unfold s3_key_of. rewrite Hempty. reflexivity.
Qed.

Lemma sanitize_folder_name_nothing_left_witness :
  sanitize_folder_name (unicode_lower Demo.env) (u "@#$%") = []
  /\ s3_key_of Demo.env (u "a.pdf") (u "@#$%") = u "ncdhhs-pdfs//a.pdf".
Proof.
  apply (sanitize_folder_name_nothing_left Demo.env (u "a.pdf") (u "@#$%")).
  repeat constructor.
Defined.

(** ** More on the categorizer *)

Lemma first_match_label_range (rules : list (list pystr * pystr)) (text : pystr) :
  In (first_match_label rules text) (map snd rules ++ [u "other-resources"]).
Proof.
  induction rules as [|rule later IH]; simpl.
  - left. reflexivity.
  - destruct (rule_matches text rule); [left; reflexivity | right; exact IH].
Qed.

Lemma categorize_section_label (unicode_lower : pystr -> pystr)
    (link_text link_url nearby_text : pystr) :
  In (categorize_section unicode_lower link_text link_url nearby_text)
    category_labels.
Proof.
  rewrite categorize_section_rules. apply first_match_label_range.
Qed.

Lemma category_labels_are_folders (unicode_lower : pystr -> pystr) (label : pystr) :
  In label category_labels -> sanitize_folder_name unicode_lower label = label.
Proof.
  intros Hrange. cbn in Hrange.
  repeat (destruct Hrange as [<- | Hrange]; [reflexivity|]).
  contradiction.
Qed.

(** X7. [categorize_section] answers with one of the eight labels, whatever
    the three texts are. *)
Theorem categorize_section_range (unicode_lower : pystr -> pystr)
    (link_text link_url nearby_text : pystr) :
  In (categorize_section unicode_lower link_text link_url nearby_text)
    [u "child-welfare-manuals"; u "child-welfare-appendices";
     u "child-welfare-practice-resources"; u "safe-sleep-resources";
     u "disaster-preparedness"; u "path-sdm-tools-manuals";
     u "administrative-manuals"; u "other-resources"].
Proof.
  rewrite categorize_section_rules.
  exact (first_match_label_range category_rules _).
Qed.

(** X8. Every label the categorizer can give is a folder name as it stands:
    [sanitize_folder_name] leaves it unchanged, so a document filed under a
    label is stored under ["ncdhhs-pdfs/"], that very label, ["/"] and its
    sanitized file name. *)
Theorem category_label_is_folder (E : Env) (link_text link_url nearby_text filename : pystr) :
  let label := categorize_section (unicode_lower E) link_text link_url nearby_text in
  sanitize_folder_name (unicode_lower E) label = label
  /\ s3_key_of E filename label
     = u "ncdhhs-pdfs/" ++ label ++ u "/" ++ sanitize_filename (unicode_lower E) filename.
Proof.
  intros label.
  assert (Hfolder : sanitize_folder_name (unicode_lower E) label = label)
    by (apply category_labels_are_folders, categorize_section_label).
  split; [exact Hfolder|]. unfold s3_key_of. rewrite Hfolder. reflexivity.
Qed.

Lemma practice_keywords_pruned (text : pystr) :
  any_keyword_in practice_keywords text
  = any_keyword_in
      [u "practice"; u "resource"; u "guidance"; u "lgbtq"; u "fatality";
       u "discipline"; u "substance"; u "safety"; u "firearm";
       u "capp"; u "cmep"; u "reasonable"; u "prudent"; u "youth-in-transition"]
      text.
Proof.
  unfold any_keyword_in, practice_keywords. cbn [existsb].
  destruct (contains (u "circles-of-safety") text) eqn:Hbig; [|reflexivity].
  assert (Hsafety : contains (u "safety") text = true)
    by (eapply contains_trans; [|exact Hbig]; reflexivity).
  rewrite Hsafety. rewrite !orb_true_r. reflexivity.
Qed.

Lemma disaster_keywords_pruned (text : pystr) :
  any_keyword_in disaster_keywords text
  = any_keyword_in [u "disaster"; u "county-attestation"] text.
Proof.
  unfold any_keyword_in, disaster_keywords. cbn [existsb].
  destruct (contains (u "disaster-plan") text) eqn:Hbig;
    [|rewrite !orb_false_r; reflexivity].
  assert (Hsmall : contains (u "disaster") text = true)
    by (eapply contains_trans; [|exact Hbig]; reflexivity).
  rewrite Hsmall. reflexivity.
Qed.

(** A text with ['safety-manual'] in it has ['safety'] in it, which the
    practice rule looks for. *)
Lemma safety_manual_is_practice (text : pystr) :
  contains (u "safety-manual") text = true ->
  any_keyword_in practice_keywords text = true.
Proof.
  intros Hbig. unfold any_keyword_in, practice_keywords. cbn [existsb].
  assert (Hsafety : contains (u "safety") text = true)
    by (eapply contains_trans; [|exact Hbig]; reflexivity).
  rewrite Hsafety. rewrite !orb_true_r. reflexivity.
Qed.

Lemma path_sdm_keywords_pruned (text : pystr) :
  any_keyword_in practice_keywords text = false ->
  any_keyword_in path_sdm_keywords text
  = any_keyword_in
      [u "path"; u "sdm"; u "screening"; u "risk-assessment";
       u "fsna"; u "csna"; u "technology-usage"] text.
Proof.
  intros Hpractice.
  destruct (contains (u "safety-manual") text) eqn:Hbig.
  - rewrite (safety_manual_is_practice _ Hbig) in Hpractice. discriminate.
  - unfold any_keyword_in, path_sdm_keywords. cbn [existsb].
    rewrite Hbig. reflexivity.
Qed.

(** X9. Three keywords of the rule list never decide anything:
    ['circles-of-safety'] and ['disaster-plan'] contain another keyword of
    their own rule, and ['safety-manual'] of the PATH/SDM rule contains
    ['safety'] of the practice rule, which comes first. The
    categorizer gives the same label as the rule list without them. *)
Theorem categorize_section_dead_keywords (unicode_lower : pystr -> pystr)
    (link_text link_url nearby_text : pystr) :
  categorize_section unicode_lower link_text link_url nearby_text
  = first_match_label pruned_rules
      (categorizer_text unicode_lower link_text link_url nearby_text).
Proof.
  rewrite categorize_section_rules.
  generalize (categorizer_text unicode_lower link_text link_url nearby_text).
  intros text. unfold category_rules, pruned_rules.
  cbn [first_match_label]. unfold rule_matches. cbn [fst snd].
  rewrite <- practice_keywords_pruned, <- disaster_keywords_pruned.
  destruct (any_keyword_in manual_keywords text); [reflexivity|].
  destruct (any_keyword_in appendix_keywords text); [reflexivity|].
  destruct (any_keyword_in practice_keywords text) eqn:Hpractice; [reflexivity|].
  rewrite <- (path_sdm_keywords_pruned text Hpractice). reflexivity.
Qed.

(** ** Discovery *)

Section DiscoveryFacts.
Context (E : Env).

Lemma discover_pdf_links_cases (url : pystr) (s : Sys E) :
  discover_pdf_links E url s
  = match session_get E url (world s) with
    | (inl e, w) => (inl e, same_world w s)
    | (inr response, w) =>
        match raise_for_status_exc response with
        | Some e => (inl e, same_world w s)
        | None =>
            (inr (unique_links_from ∅
                    (map (pdf_link_of E url) (pdf_anchors E (content response)))),
             same_world w s)
        end
    end.
Proof.
  unfold discover_pdf_links, try_except, bind, get_url, raise_for_status,
    same_world, pdf_anchors.
  destruct (session_get E url (world s)) as [[e | response] w]; [reflexivity|].
  destruct (raise_for_status_exc response) as [e|]; reflexivity.
Qed.

Lemma discover_pdf_links_keeps_objects (url : pystr) (s s' : Sys E) r :
  discover_pdf_links E url s = (r, s') -> s3_written s' = s3_written s.
Proof.
  rewrite discover_pdf_links_cases.
  destruct (session_get E url (world s)) as [[e | response] w].
  - intros H. inversion H. reflexivity.
  - destruct (raise_for_status_exc response); intros H; inversion H; reflexivity.
Qed.

(** What discovery returns when it returns. *)
Lemma discover_pdf_links_returns (url : pystr) (s s' : Sys E)
    (pdf_links : list PdfLink.t) :
  discover_pdf_links E url s = (inr pdf_links, s') ->
  exists response w,
    session_get E url (world s) = (inr response, w)
    /\ raise_for_status_exc response = None
    /\ pdf_links = unique_links_from ∅
                     (map (pdf_link_of E url) (pdf_anchors E (content response))).
Proof.
  rewrite discover_pdf_links_cases.
  destruct (session_get E url (world s)) as [[e | response] w]; [discriminate|].
  destruct (raise_for_status_exc response) eqn:Hstatus; [discriminate|].
  intros H. inversion H; subst. eauto.
Qed.

Lemma unique_links_from_elem (seen_urls : gset pystr) (pdf_links : list PdfLink.t)
    (link : PdfLink.t) :
  link ∈ unique_links_from seen_urls pdf_links ->
  link ∈ pdf_links /\ PdfLink.url link ∉ seen_urls.
Proof.
  revert seen_urls. induction pdf_links as [|l rest IH]; intros seen_urls; simpl.
  - intros H. inversion H.
  - destruct (decide (PdfLink.url l ∈ seen_urls)) as [Hseen | Hnew].
    + intros H. destruct (IH _ H). split; [right|]; assumption.
    + intros H. apply elem_of_cons in H as [Heq | Hin].
      * subst link. split; [left | exact Hnew].
      * destruct (IH _ Hin) as [Hrest Hnot]. split; [right; exact Hrest | set_solver].
Qed.

Lemma unique_links_from_NoDup (seen_urls : gset pystr) (pdf_links : list PdfLink.t) :
  NoDup (map PdfLink.url (unique_links_from seen_urls pdf_links)).
Proof.
  revert seen_urls. induction pdf_links as [|l rest IH]; intros seen_urls; simpl.
  - constructor.
  - destruct (decide (PdfLink.url l ∈ seen_urls)); [apply IH|].
    simpl. constructor; [|apply IH].
    intros Hin. apply list_elem_of_fmap in Hin as (l' & Hurl & Hl').
    apply unique_links_from_elem in Hl' as [_ Hnot]. set_solver.
Qed.

Lemma unique_links_from_sublist (seen_urls : gset pystr) (pdf_links : list PdfLink.t) :
  sublist (unique_links_from seen_urls pdf_links) pdf_links.
Proof.
  revert seen_urls. induction pdf_links as [|l rest IH]; intros seen_urls; simpl.
  - constructor.
  - destruct (decide (PdfLink.url l ∈ seen_urls)).
    + apply sublist_cons. apply IH.
    + apply sublist_skip. apply IH.
Qed.

(** Of the entries with one URL it is the first that is kept. *)
Lemma unique_links_from_first (seen_urls : gset pystr)
    (before : list PdfLink.t) (link : PdfLink.t) (after : list PdfLink.t) :
  PdfLink.url link ∉ seen_urls ->
  PdfLink.url link ∉ map PdfLink.url before ->
  link ∈ unique_links_from seen_urls (before ++ link :: after).
Proof.
  revert seen_urls. induction before as [|l rest IH]; intros seen_urls Hseen Hbefore.
  - simpl. rewrite decide_False by exact Hseen. left.
  - simpl in *. apply not_elem_of_cons in Hbefore as [Hne Hrest].
    destruct (decide (PdfLink.url l ∈ seen_urls)).
    + apply IH; assumption.
    + right. apply IH; [set_solver | assumption].
Qed.

End DiscoveryFacts.

Lemma unique_links_from_covers (seen_urls : gset pystr) (pdf_links : list PdfLink.t)
    (link : PdfLink.t) :
  link ∈ pdf_links ->
  PdfLink.url link ∈ seen_urls
  \/ PdfLink.url link ∈ map PdfLink.url (unique_links_from seen_urls pdf_links).
Proof.
  revert seen_urls. induction pdf_links as [|l rest IH]; intros seen_urls Hin.
  - inversion Hin.
  - simpl. apply elem_of_cons in Hin as [Heq | Hin].
    + subst l. destruct (decide (PdfLink.url link ∈ seen_urls)); [left; assumption|].
      right. simpl. left.
    + destruct (decide (PdfLink.url l ∈ seen_urls)); [apply IH; exact Hin|].
      destruct (IH ({[PdfLink.url l]} ∪ seen_urls) Hin) as [Hseen | Hkept].
      * apply elem_of_union in Hseen as [Hhead | Hseen]; [|left; exact Hseen].
        apply elem_of_singleton in Hhead. right. simpl. rewrite Hhead. left.
      * right. simpl. right. exact Hkept.
Qed.

Lemma is_pdf_href_true (href : pystr) :
  is_pdf_href href = true <-> contains (u ".pdf") href = true.
Proof.
  unfold is_pdf_href. rewrite orb_true_iff. split; [|auto].
  intros [Hend | Hin]; [apply endswith_contains; exact Hend | exact Hin].
Qed.

Lemma discovered_links_from_anchors (E : Env) (url : pystr) (s s' : Sys E)
    (pdf_links : list PdfLink.t) :
  discover_pdf_links E url s = (inr pdf_links, s') ->
  exists response w,
    session_get E url (world s) = (inr response, w)
    /\ pdf_links = unique_links_from ∅
                     (map (pdf_link_of E url) (pdf_anchors E (content response)))
    /\ Forall (fun pdf_link =>
                 exists link,
                   link ∈ find_all_a_href E (content response)
                   /\ contains (u ".pdf") (href link) = true
                   /\ pdf_link = pdf_link_of E url link)
         pdf_links.
Proof.
  intros Hdisc.
  destruct (discover_pdf_links_returns E _ _ _ _ Hdisc)
    as (response & w & Hget & _ & ->).
  exists response, w. split; [exact Hget|]. split; [reflexivity|].
  apply Forall_forall. intros pdf_link Hin.
  apply unique_links_from_elem in Hin as [Hin _].
  apply list_elem_of_fmap in Hin as (link & -> & Hlink).
  unfold pdf_anchors in Hlink. apply list_elem_of_filter in Hlink as [Hpdf Hall].
  exists link. rewrite <- is_pdf_href_true. auto.
Qed.

(** X11. The links discovery returns have pairwise different URLs. *)
Theorem discovered_urls_distinct (E : Env) (url : pystr) (s s' : Sys E)
    (pdf_links : list PdfLink.t) :
  discover_pdf_links E url s = (inr pdf_links, s') ->
  NoDup (map PdfLink.url pdf_links).
Proof.
  intros Hdisc.
  destruct (discover_pdf_links_returns E _ _ _ _ Hdisc) as (response & w & _ & _ & ->).
  apply unique_links_from_NoDup.
Qed.

Lemma discovered_urls_distinct_witness :
  NoDup (map PdfLink.url [Demo.first_link; Demo.second_link]).
Proof.
  apply (discovered_urls_distinct Demo.env Demo.page Demo.start Demo.start).
  vm_compute. reflexivity.
Defined.

(** X12. Discovery keeps the anchors whose [href] contains [.pdf], in page
    order, and of several anchors that resolve to one URL the first. Every
    link returned is made from such an anchor, the links are a subsequence
    of the links made from all of them, and every such anchor has its
    resolved URL among the links returned. *)
Theorem discovered_links_are_pdf_anchors (E : Env) (url : pystr) (s s' : Sys E)
    (pdf_links : list PdfLink.t) :
  discover_pdf_links E url s = (inr pdf_links, s') ->
  exists response w,
    session_get E url (world s) = (inr response, w)
    /\ sublist pdf_links
         (map (pdf_link_of E url) (pdf_anchors E (content response)))
    /\ Forall (fun pdf_link =>
                 exists link,
                   link ∈ find_all_a_href E (content response)
                   /\ contains (u ".pdf") (href link) = true
                   /\ pdf_link = pdf_link_of E url link)
         pdf_links
    /\ Forall (fun link =>
                 contains (u ".pdf") (href link) = true ->
                 urljoin E url (href link) ∈ map PdfLink.url pdf_links)
         (find_all_a_href E (content response))
    /\ (forall before link after,
          pdf_anchors E (content response) = before ++ link :: after ->
          urljoin E url (href link)
            ∉ map (fun earlier => urljoin E url (href earlier)) before ->
          pdf_link_of E url link ∈ pdf_links).
Proof.
  intros Hdisc.
  destruct (discovered_links_from_anchors E _ _ _ _ Hdisc)
    as (response & w & Hget & Hlinks & Hfrom).
  exists response, w. split; [exact Hget|].
  split; [rewrite Hlinks; apply unique_links_from_sublist|].
  split; [exact Hfrom|]. clear Hfrom. subst pdf_links. split.
  - apply Forall_forall. intros link Hall Hpdf.
    assert (Hin : pdf_link_of E url link
                  ∈ map (pdf_link_of E url) (pdf_anchors E (content response))).
    { apply list_elem_of_fmap. exists link. split; [reflexivity|].
      unfold pdf_anchors. apply list_elem_of_filter.
      rewrite is_pdf_href_true. auto. }
    destruct (unique_links_from_covers ∅ _ _ Hin) as [Hseen | Hkept];
      [set_solver | exact Hkept].
  - intros before link after Hsplit Hfirst.
    rewrite Hsplit, map_app. cbn [map].
    apply unique_links_from_first; [set_solver|].
    rewrite map_map. exact Hfirst.
Qed.

Lemma discovered_links_are_pdf_anchors_witness :
  exists response,
    Demo.fetch Demo.page tt = (inr response, tt)
    /\ sublist [Demo.first_link; Demo.second_link]
         (map (pdf_link_of Demo.env Demo.page)
            (pdf_anchors Demo.env (content response))).
Proof.
  destruct (discovered_links_are_pdf_anchors Demo.env Demo.page Demo.start Demo.start
              [Demo.first_link; Demo.second_link])
    as (response & w & Hget & Hsub & _).
  - vm_compute. reflexivity.
  - exists response. destruct w. split; [exact Hget | exact Hsub].
Defined.

(** X13. Every link discovery returns has a text: an anchor without one
    gets the placeholder ["PDF Document"]. The fallback name ["document"]
    of [process_pdfs] is therefore never used for a discovered link. *)
Theorem discovered_links_have_text (E : Env) (url : pystr) (s s' : Sys E)
    (pdf_links : list PdfLink.t) :
  discover_pdf_links E url s = (inr pdf_links, s') ->
  Forall (fun pdf_link =>
            PdfLink.text pdf_link <> []
            /\ str_or (PdfLink.text pdf_link) (u "document") = PdfLink.text pdf_link)
    pdf_links.
Proof.
  intros Hdisc.
  destruct (discovered_links_from_anchors E _ _ _ _ Hdisc)
    as (response & w & _ & _ & Hfrom).
  eapply Forall_impl; [exact Hfrom|].
  intros pdf_link (link & _ & _ & ->). cbn [pdf_link_of PdfLink.text].
  destruct (anchor_text link); split; try reflexivity; discriminate.
Qed.

Lemma discovered_links_have_text_witness :
  Forall (fun pdf_link =>
            PdfLink.text pdf_link <> []
            /\ str_or (PdfLink.text pdf_link) (u "document") = PdfLink.text pdf_link)
    [Demo.first_link; Demo.second_link].
Proof.
  apply (discovered_links_have_text Demo.env Demo.page Demo.start Demo.start).
  vm_compute. reflexivity.
Defined.

(** ** File names and keys *)

Lemma basename_fold_no_slash (p acc : pystr) :
  Forall not_slash acc ->
  Forall not_slash
    (fold_left (fun tail c => if (c =? SLASH)%N then [] else tail ++ [c]) p acc).
Proof.
  revert acc. induction p as [|c t IH]; intros acc Hacc; simpl; [exact Hacc|].
  apply IH. destruct (c =? SLASH)%N eqn:Hc; [constructor|].
  apply Forall_app. split; [exact Hacc | repeat constructor; exact Hc].
Qed.

Lemma basename_fold_plain (name acc : pystr) :
  Forall not_slash name ->
  fold_left (fun tail c => if (c =? SLASH)%N then [] else tail ++ [c]) name acc
  = acc ++ name.
Proof.
  intros Hname. revert acc.
  induction Hname as [|c t Hc _ IH]; intros acc; simpl.
  - rewrite app_nil_r. reflexivity.
  - rewrite Hc, IH, <- app_assoc. reflexivity.
Qed.

Lemma basename_no_slash (p : pystr) : Forall not_slash (basename p).
Proof. apply basename_fold_no_slash. constructor. Qed.

(** [basename] is what follows the last slash: a directory, a slash and a
    name without slash give that name back. *)
Lemma basename_last_component (dir name : pystr) :
  Forall not_slash name ->
  basename (dir ++ u "/" ++ name) = name.
Proof.
  intros Hname. unfold basename. rewrite fold_left_app. cbn [u app fold_left].
  change (N_of_ascii "/" =? SLASH)%N with true. cbn iota.
  apply (basename_fold_plain name [] Hname).
Qed.

Lemma stored_name_char_not_slash (c : codepoint) :
  stored_name_char c = true -> not_slash c.
Proof. intros H. char_classes. Qed.

Lemma endswith_app (pre needle : pystr) : endswith needle (pre ++ needle) = true.
Proof. apply endswith_spec. exists pre. reflexivity. Qed.

Lemma endswith_app_r (pre hay needle : pystr) :
  endswith needle hay = true -> endswith needle (pre ++ hay) = true.
Proof.
  rewrite !endswith_spec. intros [p ->]. exists (pre ++ p).
  rewrite app_assoc. reflexivity.
Qed.

Lemma original_filename_shape (E : Env) (pdf_link : PdfLink.t) :
  endswith (u ".pdf") (original_filename_of E pdf_link) = true
  /\ original_filename_of E pdf_link <> []
  /\ Forall not_slash (original_filename_of E pdf_link).
Proof.
  unfold original_filename_of.
  pose proof (basename_no_slash (urlparse_path E (PdfLink.url pdf_link))) as Hbase.
  set (name := basename (urlparse_path E (PdfLink.url pdf_link))) in *.
  destruct (is_nil name) eqn:Hnil; cbn [orb];
    [|destruct (endswith (u ".pdf") name) eqn:Hend; cbn [negb]].
  - split; [apply endswith_app|]. split.
    + intros Hempty. apply app_eq_nil in Hempty as [_ Hpdf]. discriminate.
    + apply Forall_app. split; [|repeat constructor].
      eapply Forall_impl; [apply sanitize_filename_chars|].
      intros c. apply stored_name_char_not_slash.
  - split; [exact Hend|]. split; [|exact Hbase].
    destruct name; [discriminate Hnil | discriminate].
  - split; [apply endswith_app|]. split.
    + intros Hempty. apply app_eq_nil in Hempty as [_ Hpdf]. discriminate.
    + apply Forall_app. split; [|repeat constructor].
      eapply Forall_impl; [apply sanitize_filename_chars|].
      intros c. apply stored_name_char_not_slash.
Qed.

(** X14. The file name [process_pdfs] gives a link, taken from the URL's
    path or made from the link text, always ends with [.pdf], is never
    empty and has no slash in it; and the name it is stored under, its
    sanitized form, still ends with [.pdf]. *)
Theorem original_filename_is_pdf_name (E : Env) (pdf_link : PdfLink.t) :
  endswith (u ".pdf") (original_filename_of E pdf_link) = true
  /\ original_filename_of E pdf_link <> []
  /\ Forall not_slash (original_filename_of E pdf_link)
  /\ endswith (u ".pdf")
       (sanitize_filename (unicode_lower E) (original_filename_of E pdf_link)) = true.
Proof.
  destruct (original_filename_shape E pdf_link) as (Hend & Hnonempty & Hslash).
  split; [exact Hend|]. split; [exact Hnonempty|]. split; [exact Hslash|].
  apply endswith_spec in Hend as [stem Hstem].
  rewrite Hstem, sanitize_filename_app_pdf. apply endswith_app.
Qed.

(** ** What a turn of the loop leaves behind *)

Section StoreFacts.
Context (E : Env).

Lemma upload_to_s3_raises_keeps_objects (content : bytes) (filename section : pystr)
    (s s' : Sys E) (e : exc) :
  upload_to_s3 E content filename section s = (inl e, s') ->
  s3_written s' = s3_written s.
Proof.
  intros Hup.
  destruct (upload_to_s3_cases E content filename section s)
    as (upload_date & last_updated & w & [Hok | [e' Hfail]]).
  - cbn zeta in Hok. rewrite Hok in Hup. discriminate.
  - rewrite Hfail in Hup. inversion Hup. reflexivity.
Qed.

Lemma s3_key_of_link_is_pdf_key (pdf_link : PdfLink.t) :
  pdf_key (s3_key_of E (original_filename_of E pdf_link) (section_of E pdf_link)).
Proof.
  destruct (original_filename_shape E pdf_link) as (Hend & _ & _).
  apply endswith_spec in Hend as [stem Hstem].
  exists (section_of E pdf_link),
    (sanitize_filename (unicode_lower E) (original_filename_of E pdf_link)).
  split; [|split; [|split]].
  - unfold s3_key_of. unfold section_of at 1.
    rewrite category_labels_are_folders by apply categorize_section_label.
    reflexivity.
  - apply categorize_section_label.
  - apply sanitize_filename_chars.
  - rewrite Hstem, sanitize_filename_app_pdf. apply endswith_app.
Qed.

(** A turn that ends with a new result has stored exactly one object, the
    one the result reports; a turn that ends with a new error has stored
    nothing. *)
Lemma turn_stores (pdf_link : PdfLink.t) (f f1 : Frame E) :
  turn E pdf_link f = (inr tt, f1) ->
  section_counts f1 = counted (section_of E pdf_link) (section_counts f)
  /\ ((exists object entry,
         results f1 = results f ++ [entry]
         /\ errors f1 = errors f
         /\ s3_written (sys f1) = s3_written (sys f) ++ [object]
         /\ stored_as E object entry
         /\ reports E entry pdf_link)
      \/ (exists entry,
            results f1 = results f
            /\ errors f1 = errors f ++ [entry]
            /\ s3_written (sys f1) = s3_written (sys f)
            /\ reports_failure entry pdf_link)).
Proof.
  intros Hturn.
  destruct (turn_cases E pdf_link f) as (f' & Hturn' & Hcount & Hcases).
  rewrite Hturn in Hturn'. injection Hturn' as <-.
  split; [exact Hcount|].
  destruct Hcases as [(entry0 & Hone & _) | (e & f0 & Hone & Hsys & Hres & Herr)].
  - left.
    destruct (process_one_ok E _ _ _ Hone)
      as (content & content_type & s1 & up & s2 & stamp & w & entry
          & Hdown & Hup & Hsys & Hres & Herr & _ & ->).
    destruct (upload_to_s3_writes E _ _ _ _ _ _ Hup)
      as (upload_date & last_updated & Hwritten & Hkey).
    eexists _, _. split; [exact Hres|]. split; [exact Herr|]. split.
    { rewrite Hsys. cbn [same_world s3_written]. rewrite Hwritten.
      rewrite (download_pdf_keeps_objects E _ _ _ _ Hdown). reflexivity. }
    split.
    + unfold stored_as, put_request.
      cbn [Key Bucket ContentType Body ResultEntry.s3_key ResultEntry.filename
             ResultEntry.section ResultEntry.size].
      rewrite Hkey. repeat split.
    + repeat split.
  - right. eexists. split; [exact Hres|]. split; [exact Herr|]. split.
    + rewrite Hsys.
      destruct (process_one_raises E _ _ _ _ Hone)
        as (_ & _ & _ & [Hdown | (content & content_type & s1 & Hdown & Hup)]).
      * apply (download_pdf_keeps_objects E _ _ _ _ Hdown).
      * rewrite (upload_to_s3_raises_keeps_objects _ _ _ _ _ _ Hup).
        apply (download_pdf_keeps_objects E _ _ _ _ Hdown).
    + split; reflexivity.
Qed.

(** The whole loop: the new results and the new errors report two
    subsequences of the links that together make up all of them, and the
    objects stored are those the new results report, in the same order. *)
Lemma process_loop_stores (pdf_links : list PdfLink.t) (f f' : Frame E) :
  process_loop E pdf_links f = (inr tt, f') ->
  exists entries failures objects stored failed,
    results f' = results f ++ entries
    /\ errors f' = errors f ++ failures
    /\ s3_written (sys f') = s3_written (sys f) ++ objects
    /\ Forall2 (stored_as E) objects entries
    /\ Forall2 (reports E) entries stored
    /\ Forall2 reports_failure failures failed
    /\ sublist stored pdf_links
    /\ sublist failed pdf_links
    /\ pdf_links ≡ₚ stored ++ failed.
Proof.
  revert f. induction pdf_links as [|pdf_link rest IH]; intros f Hloop.
  - injection Hloop as <-. exists [], [], [], [], [].
    rewrite !app_nil_r. split_and!; try reflexivity; constructor.
  - destruct (turn_cases E pdf_link f) as (f1 & Hturn & _).
    rewrite (process_loop_cons E _ _ _ _ Hturn) in Hloop.
    destruct (IH _ Hloop)
      as (entries & failures & objects & stored & failed
          & Hres & Herr & Hobj & Hstored & Hrep & Hfail & Hsub1 & Hsub2 & Hperm).
    destruct (turn_stores _ _ _ Hturn)
      as (_ & [(object & entry & Hres1 & Herr1 & Hobj1 & Has & Hof)
              | (entry & Hres1 & Herr1 & Hobj1 & Hof)]).
    + exists (entry :: entries), failures, (object :: objects),
        (pdf_link :: stored), failed.
      rewrite Hres, Herr, Hobj, Hres1, Herr1, Hobj1, <- !app_assoc.
      split_and!; try reflexivity; try assumption.
      * constructor; assumption.
      * constructor; assumption.
      * apply sublist_skip. exact Hsub1.
      * apply sublist_cons. exact Hsub2.
      * cbn [app]. rewrite Hperm. reflexivity.
    + exists entries, (entry :: failures), objects, stored, (pdf_link :: failed).
      rewrite Hres, Herr, Hobj, Hres1, Herr1, Hobj1, <- !app_assoc.
      split_and!; try reflexivity; try assumption.
      * constructor; assumption.
      * apply sublist_cons. exact Hsub1.
      * apply sublist_skip. exact Hsub2.
      * rewrite Hperm. apply Permutation_middle.
Qed.

End StoreFacts.

(** ** What a run leaves behind *)

Section RunMore.
Context (E : Env).

(** A successful dict, in terms of the links found and the frame the loop
    ended in; without links the loop has nothing to do. *)
Lemma process_pdfs_run (url : pystr) (s s' : Sys E) (r : ProcessResult.t) :
  process_pdfs E url s = (inr r, s') ->
  ProcessResult.success r = true ->
  exists pdf_links s1 f',
    discover_pdf_links E url s = (inr pdf_links, s1)
    /\ process_loop E pdf_links (fresh_frame E s1) = (inr tt, f')
    /\ s3_written s' = s3_written (sys f')
    /\ ProcessResult.summary r
       = Some {| Summary.total := length pdf_links;
                 Summary.successful := length (results f');
                 Summary.failed := length (errors f');
                 Summary.sections := section_counts f' |}
    /\ ProcessResult.results r = Some (results f')
    /\ ProcessResult.errors_list r = errors f'.
Proof.
  intros Hrun Hsuccess.
  pose proof (process_pdfs_cases E url s) as Hcases.
  destruct (discover_pdf_links E url s) as [[e | [|pdf_link rest]] s1].
  - destruct Hcases as (stamp & w & Hfail). rewrite Hfail in Hrun.
    injection Hrun as Hr _. subst r. discriminate.
  - rewrite Hcases in Hrun. injection Hrun as Hr Hs. subst r s'.
    exists [], s1, (fresh_frame E s1). split_and!; reflexivity.
  - destruct Hcases as (f' & stamp & w & Hloop & Hok). rewrite Hok in Hrun.
    injection Hrun as Hr Hs. subst r s'.
    exists (pdf_link :: rest), s1, f'. rewrite errors_list_run_result.
    split_and!; try reflexivity. exact Hloop.
Qed.

Lemma count_of_counted (section label : pystr) (counts : gmap pystr nat) :
  count_of (counted section counts) label
  = count_of counts label + (if decide (section = label) then 1 else 0).
Proof.
  unfold count_of, counted. destruct (decide (section = label)) as [-> | Hne].
  - rewrite lookup_insert_eq. reflexivity.
  - rewrite lookup_insert_ne by exact Hne. lia.
Qed.

Lemma counted_positive (section : pystr) (counts : gmap pystr nat) :
  map_Forall (fun _ n => 0 < n) counts ->
  map_Forall (fun _ n => 0 < n) (counted section counts).
Proof.
  intros Hpos. unfold counted. apply map_Forall_insert_2; [lia | exact Hpos].
Qed.

Lemma links_in_section_cons (label : pystr) (pdf_link : PdfLink.t)
    (rest : list PdfLink.t) :
  links_in_section E label (pdf_link :: rest)
  = (if decide (section_of E pdf_link = label) then 1 else 0)
    + links_in_section E label rest.
Proof.
  unfold links_in_section. rewrite filter_cons.
  destruct (decide (section_of E pdf_link = label)); reflexivity.
Qed.

(** Each turn counts its link under the link's label and nowhere else. *)
Lemma process_loop_counts (pdf_links : list PdfLink.t) (f f' : Frame E) :
  process_loop E pdf_links f = (inr tt, f') ->
  (forall label,
     count_of (section_counts f') label
     = count_of (section_counts f) label + links_in_section E label pdf_links)
  /\ (map_Forall (fun _ n => 0 < n) (section_counts f) ->
      map_Forall (fun _ n => 0 < n) (section_counts f')).
Proof.
  revert f. induction pdf_links as [|pdf_link rest IH]; intros f Hloop.
  - injection Hloop as <-. split; [|auto].
    intros label. unfold links_in_section. simpl. lia.
  - destruct (turn_cases E pdf_link f) as (f1 & Hturn & Hcount & _).
    rewrite (process_loop_cons E _ _ _ _ Hturn) in Hloop.
    destruct (IH _ Hloop) as [Hcounts Hpos]. split.
    + intros label. rewrite Hcounts, Hcount, count_of_counted,
        links_in_section_cons. lia.
    + intros Hf. apply Hpos. rewrite Hcount. apply counted_positive. exact Hf.
Qed.

End RunMore.

(** X15. After a successful run, what [summary.sections] holds for a label
    is the number of discovered links the categorizer files under it,
    stored or not; a label no link falls under has no entry. *)
Theorem sections_count_links_per_label (E : Env) (url : pystr) (s s' : Sys E)
    (r : ProcessResult.t) :
  process_pdfs E url s = (inr r, s') ->
  ProcessResult.success r = true ->
  exists pdf_links s1 summary,
    discover_pdf_links E url s = (inr pdf_links, s1)
    /\ ProcessResult.summary r = Some summary
    /\ forall label,
         count_of (Summary.sections summary) label
         = links_in_section E label pdf_links
         /\ (Summary.sections summary !! label = None
             <-> links_in_section E label pdf_links = 0).
Proof.
  intros Hrun Hsuccess.
  destruct (process_pdfs_run E _ _ _ _ Hrun Hsuccess)
    as (pdf_links & s1 & f' & Hdisc & Hloop & _ & Hsummary & _).
  exists pdf_links, s1. eexists. split; [exact Hdisc|]. split; [exact Hsummary|].
  cbn [Summary.sections].
  destruct (process_loop_counts E _ _ _ Hloop) as [Hcounts Hpos].
  assert (Hpositive : map_Forall (fun _ n => 0 < n) (section_counts f'))
    by (apply Hpos, map_Forall_empty).
  intros label. specialize (Hcounts label).
  cbn [fresh_frame section_counts] in Hcounts.
  unfold count_of at 2 in Hcounts. rewrite lookup_empty in Hcounts.
  cbn [default Nat.add] in Hcounts. split; [exact Hcounts|].
  rewrite <- Hcounts. unfold count_of.
  destruct (section_counts f' !! label) as [n|] eqn:Hlook; cbn [default].
  - specialize (Hpositive label n Hlook). cbn beta in Hpositive.
    split; [discriminate|]. intros Hzero. change (n = 0) in Hzero.
    subst n. exfalso. exact (Nat.lt_irrefl 0 Hpositive).
  - split; reflexivity.
Qed.

Lemma sections_count_links_per_label_witness :
  exists summary,
    ProcessResult.summary Demo.page_dict = Some summary
    /\ count_of (Summary.sections summary) (u "other-resources") = 2
    /\ Summary.sections summary !! u "safe-sleep-resources" = None.
Proof.
  assert (Hrun : process_pdfs Demo.env Demo.page Demo.start
                 = (inr Demo.page_dict, Demo.page_end))
    by (vm_compute; reflexivity).
  destruct (sections_count_links_per_label Demo.env Demo.page Demo.start
              Demo.page_end Demo.page_dict Hrun eq_refl)
    as (pdf_links & s1 & summary & Hdisc & Hsummary & Hcounts).
  assert (Hlinks : pdf_links = [Demo.first_link; Demo.second_link]).
  { vm_compute in Hdisc. injection Hdisc as <- _. reflexivity. }
  subst pdf_links. exists summary. split; [exact Hsummary|]. split.
  - rewrite (proj1 (Hcounts _)). vm_compute. reflexivity.
  - apply (proj2 (Hcounts _)). vm_compute. reflexivity.
Defined.

Section RunStores.
Context (E : Env).

(** A successful run, with what its loop stored. *)
Lemma process_pdfs_stores (url : pystr) (s s' : Sys E) (r : ProcessResult.t) :
  process_pdfs E url s = (inr r, s') ->
  ProcessResult.success r = true ->
  exists pdf_links s1 entries objects stored failed,
    discover_pdf_links E url s = (inr pdf_links, s1)
    /\ ProcessResult.results r = Some entries
    /\ s3_written s' = s3_written s ++ objects
    /\ Forall2 (stored_as E) objects entries
    /\ Forall2 (reports E) entries stored
    /\ Forall2 reports_failure (ProcessResult.errors_list r) failed
    /\ sublist stored pdf_links
    /\ sublist failed pdf_links
    /\ pdf_links ≡ₚ stored ++ failed.
Proof.
  intros Hrun Hsuccess.
  destruct (process_pdfs_run E _ _ _ _ Hrun Hsuccess)
    as (pdf_links & s1 & f' & Hdisc & Hloop & Hend & _ & Hresults & Herrors).
  destruct (process_loop_stores E _ _ _ Hloop)
    as (entries & failures & objects & stored & failed
        & Hres & Herr & Hobj & Hstored & Hrep & Hfail & Hsub1 & Hsub2 & Hperm).
  cbn [fresh_frame results errors sys app] in Hres, Herr, Hobj.
  exists pdf_links, s1, entries, objects, stored, failed.
  split_and!; try assumption.
  - rewrite Hresults, Hres. reflexivity.
  - rewrite Hend, Hobj, (discover_pdf_links_keeps_objects E _ _ _ _ Hdisc).
    reflexivity.
  - rewrite Herrors, Herr. exact Hfail.
Qed.

(** A run that reports failure is a run whose discovery raised. *)
Lemma process_pdfs_failure (url : pystr) (s s' : Sys E) (r : ProcessResult.t) :
  process_pdfs E url s = (inr r, s') ->
  ProcessResult.success r = false ->
  exists e s1,
    discover_pdf_links E url s = (inl e, s1)
    /\ ProcessResult.error r = Some (str_of_exc e)
    /\ s3_written s' = s3_written s.
Proof.
  intros Hrun Hfailure.
  pose proof (process_pdfs_cases E url s) as Hcases.
  destruct (discover_pdf_links E url s) as [[e | [|pdf_link rest]] s1] eqn:Hdisc.
  - destruct Hcases as (stamp & w & Hfail). rewrite Hfail in Hrun.
    injection Hrun as Hr Hs. subst r s'. exists e, s1.
    split_and!; try reflexivity.
    apply (discover_pdf_links_keeps_objects E _ _ _ _ Hdisc).
  - rewrite Hcases in Hrun. injection Hrun as Hr _. subst r. discriminate.
  - destruct Hcases as (f' & stamp & w & _ & Hok). rewrite Hok in Hrun.
    injection Hrun as Hr _. subst r. discriminate.
Qed.

End RunStores.

(** X16. Every object a successful run writes has the bucket of the
    processor, the content type ["application/pdf"], and a key made of the
    prefix ["ncdhhs-pdfs/"], one of the eight category labels, a slash and
    a file name of [[a-z0-9._-]] that ends with [.pdf]. *)
Theorem run_writes_pdf_keys (E : Env) (url : pystr) (s s' : Sys E)
    (r : ProcessResult.t) :
  process_pdfs E url s = (inr r, s') ->
  ProcessResult.success r = true ->
  exists objects,
    s3_written s' = s3_written s ++ objects
    /\ Forall (fun object =>
                 pdf_key (Key object)
                 /\ Bucket object = bucket_name E
                 /\ ContentType object = u "application/pdf")
         objects.
Proof.
  intros Hrun Hsuccess.
  destruct (process_pdfs_stores E _ _ _ _ Hrun Hsuccess)
    as (pdf_links & s1 & entries & objects & stored & failed
        & _ & _ & Hobj & Hstored & Hrep & _).
  exists objects. split; [exact Hobj|].
  clear Hobj. revert stored Hrep.
  induction Hstored as [|object entry objects entries Has _ IH];
    intros stored Hrep; [constructor|].
  inversion Hrep as [|? pdf_link ? stored' Hof Hrest]; subst.
  constructor; [|exact (IH _ Hrest)].
  destruct Has as (_ & Hkey & Hbucket & Htype & _).
  destruct Hof as (_ & _ & Hname & Hsection).
  split; [|split; assumption].
  rewrite Hkey, Hname, Hsection. apply s3_key_of_link_is_pdf_key.
Qed.

Lemma run_writes_pdf_keys_witness :
  exists objects,
    s3_written Demo.page_end = objects
    /\ Forall (fun object => pdf_key (Key object)) objects.
Proof.
  assert (Hrun : process_pdfs Demo.env Demo.page Demo.start
                 = (inr Demo.page_dict, Demo.page_end))
    by (vm_compute; reflexivity).
  destruct (run_writes_pdf_keys Demo.env Demo.page Demo.start
              Demo.page_end Demo.page_dict Hrun eq_refl)
    as (objects & Hwritten & Hkeys).
  exists objects. split; [exact Hwritten|].
  eapply Forall_impl; [exact Hkeys|]. intros object [Hkey _]. exact Hkey.
Defined.

(** X17. The objects a successful run has added to the store are those its
    [results] report, one for one and in the same order: same key, the key
    built from the entry's own section and file name, and the entry's
    [size] is the number of bytes stored. So [summary.successful] is the
    number of objects written. *)
Theorem run_results_mirror_store (E : Env) (url : pystr) (s s' : Sys E)
    (r : ProcessResult.t) :
  process_pdfs E url s = (inr r, s') ->
  ProcessResult.success r = true ->
  exists objects entries summary,
    s3_written s' = s3_written s ++ objects
    /\ ProcessResult.results r = Some entries
    /\ ProcessResult.summary r = Some summary
    /\ Forall2 (stored_as E) objects entries
    /\ map Key objects = map ResultEntry.s3_key entries
    /\ length objects = Summary.successful summary.
Proof.
  intros Hrun Hsuccess.
  destruct (process_pdfs_stores E _ _ _ _ Hrun Hsuccess)
    as (pdf_links & s1 & entries & objects & stored & failed
        & _ & Hresults & Hobj & Hstored & _).
  destruct (process_pdfs_run E _ _ _ _ Hrun Hsuccess)
    as (pdf_links' & s1' & f' & _ & _ & _ & Hsummary & Hresults' & _).
  rewrite Hresults in Hresults'. injection Hresults' as Hentries.
  exists objects, entries. eexists.
  split; [exact Hobj|]. split; [exact Hresults|]. split; [exact Hsummary|].
  split; [exact Hstored|]. cbn [Summary.successful]. rewrite <- Hentries. split.
  - clear -Hstored. induction Hstored as [|object entry ? ? Has _ IH];
      [reflexivity|]. cbn [map]. rewrite IH, (proj1 Has). reflexivity.
  - apply (Forall2_length _ _ _ Hstored).
Qed.

Lemma run_results_mirror_store_witness :
  exists objects entries,
    s3_written Demo.page_end = objects
    /\ ProcessResult.results Demo.page_dict = Some entries
    /\ map Key objects = map ResultEntry.s3_key entries.
Proof.
  assert (Hrun : process_pdfs Demo.env Demo.page Demo.start
                 = (inr Demo.page_dict, Demo.page_end))
    by (vm_compute; reflexivity).
  destruct (run_results_mirror_store Demo.env Demo.page Demo.start
              Demo.page_end Demo.page_dict Hrun eq_refl)
    as (objects & entries & summary & Hwritten & Hresults & _ & _ & Hkeys & _).
  exists objects, entries. auto.
Defined.

(** X18. In a successful run [results] and [errors] each follow the order
    of discovery: the links they report are two subsequences of the
    discovered links, and together they are all of them, each once. *)
Theorem run_keeps_discovery_order (E : Env) (url : pystr) (s s' : Sys E)
    (r : ProcessResult.t) :
  process_pdfs E url s = (inr r, s') ->
  ProcessResult.success r = true ->
  exists pdf_links s1 entries stored failed,
    discover_pdf_links E url s = (inr pdf_links, s1)
    /\ ProcessResult.results r = Some entries
    /\ Forall2 (reports E) entries stored
    /\ Forall2 reports_failure (ProcessResult.errors_list r) failed
    /\ sublist stored pdf_links
    /\ sublist failed pdf_links
    /\ pdf_links ≡ₚ stored ++ failed.
Proof.
  intros Hrun Hsuccess.
  destruct (process_pdfs_stores E _ _ _ _ Hrun Hsuccess)
    as (pdf_links & s1 & entries & objects & stored & failed
        & Hdisc & Hresults & _ & _ & Hrep & Hfail & Hsub1 & Hsub2 & Hperm).
  exists pdf_links, s1, entries, stored, failed. split_and!; assumption.
Qed.

Lemma run_keeps_discovery_order_witness :
  exists entries stored failed,
    ProcessResult.results Demo.page_dict = Some entries
    /\ Forall2 (reports Demo.env) entries stored
    /\ Forall2 reports_failure (ProcessResult.errors_list Demo.page_dict) failed
    /\ [Demo.first_link; Demo.second_link] ≡ₚ stored ++ failed.
Proof.
  assert (Hrun : process_pdfs Demo.env Demo.page Demo.start
                 = (inr Demo.page_dict, Demo.page_end))
    by (vm_compute; reflexivity).
  destruct (run_keeps_discovery_order Demo.env Demo.page Demo.start
              Demo.page_end Demo.page_dict Hrun eq_refl)
    as (pdf_links & s1 & entries & stored & failed
        & Hdisc & Hresults & Hrep & Hfail & _ & _ & Hperm).
  assert (Hlinks : pdf_links = [Demo.first_link; Demo.second_link]).
  { vm_compute in Hdisc. injection Hdisc as <- _. reflexivity. }
  subst pdf_links. exists entries, stored, failed. auto.
Defined.

(** X19. [process_pdfs] reports [success] false in one case only: discovery
    raised. The dict then carries that exception's message, and the run has
    written nothing to the store. *)
Theorem run_fails_only_on_discovery (E : Env) (url : pystr) (s s' : Sys E)
    (r : ProcessResult.t) :
  process_pdfs E url s = (inr r, s') ->
  (ProcessResult.success r = false
   <-> exists e s1, discover_pdf_links E url s = (inl e, s1))
  /\ (ProcessResult.success r = false ->
      s3_written s' = s3_written s
      /\ exists e s1,
           discover_pdf_links E url s = (inl e, s1)
           /\ ProcessResult.error r = Some (str_of_exc e)).
Proof.
  intros Hrun. split.
  - split.
    + intros Hfailure.
      destruct (process_pdfs_failure E _ _ _ _ Hrun Hfailure)
        as (e & s1 & Hdisc & _). eauto.
    + intros (e & s1 & Hdisc).
      destruct (ProcessResult.success r) eqn:Hsuccess; [|reflexivity].
      destruct (process_pdfs_run E _ _ _ _ Hrun Hsuccess)
        as (pdf_links & s1' & f' & Hdisc' & _).
      rewrite Hdisc in Hdisc'. discriminate.
  - intros Hfailure.
    destruct (process_pdfs_failure E _ _ _ _ Hrun Hfailure)
      as (e & s1 & Hdisc & Herror & Hstore).
    split; [exact Hstore|]. eauto.
Qed.

Lemma run_fails_only_on_discovery_witness :
  exists r s',
    process_pdfs Demo.env Demo.down_page Demo.start = (inr r, s')
    /\ ProcessResult.success r = false
    /\ s3_written s' = [].
Proof.
  destruct (process_pdfs_returns Demo.env Demo.down_page Demo.start)
    as (r & s' & Hrun).
  destruct (run_fails_only_on_discovery Demo.env Demo.down_page Demo.start s' r Hrun)
    as [Hiff Hstore].
  assert (Hfailure : ProcessResult.success r = false).
  { apply Hiff. exists (ExternalError (u "Read timed out.")), Demo.start.
    vm_compute. reflexivity. }
  exists r, s'. split; [exact Hrun|]. split; [exact Hfailure|].
  exact (proj1 (Hstore Hfailure)).
Defined.

(** X20. In a successful dict the ['errors'] key is missing exactly when no
    link was found, and it is never an empty list: it is null when nothing
    failed and the non-empty list of failures otherwise. *)
Theorem errors_field_shape (E : Env) (url : pystr) (s s' : Sys E)
    (r : ProcessResult.t) :
  process_pdfs E url s = (inr r, s') ->
  ProcessResult.success r = true ->
  exists summary,
    ProcessResult.summary r = Some summary
    /\ (ProcessResult.errors r = None <-> Summary.total summary = 0)
    /\ ProcessResult.errors r <> Some (Some [])
    /\ (Summary.failed summary = 0
        <-> ProcessResult.errors r = None \/ ProcessResult.errors r = Some None).
Proof.
  intros Hrun Hsuccess.
  pose proof (process_pdfs_cases E url s) as Hcases.
  destruct (discover_pdf_links E url s) as [[e | [|pdf_link rest]] s1].
  - destruct Hcases as (stamp & w & Hfail). rewrite Hfail in Hrun.
    injection Hrun as Hr _. subst r. discriminate.
  - rewrite Hcases in Hrun. injection Hrun as Hr _. subst r.
    eexists. split; [reflexivity|]. cbn. split_and!; try discriminate.
    + split; reflexivity.
    + split; [left|]; reflexivity.
  - destruct Hcases as (f' & stamp & w & _ & Hok). rewrite Hok in Hrun.
    injection Hrun as Hr _. subst r.
    eexists. split; [reflexivity|]. cbn. split_and!.
    + split; discriminate.
    + destruct (errors f'); discriminate.
    + destruct (errors f') as [|entry failures]; cbn.
      * split; [right|]; reflexivity.
      * split; [discriminate | intros [Habs | Habs]; discriminate].
Qed.

Lemma errors_field_shape_witness :
  exists summary,
    ProcessResult.summary Demo.page_dict = Some summary
    /\ ProcessResult.errors Demo.page_dict <> Some (Some []).
Proof.
  assert (Hrun : process_pdfs Demo.env Demo.page Demo.start
                 = (inr Demo.page_dict, Demo.page_end))
    by (vm_compute; reflexivity).
  destruct (errors_field_shape Demo.env Demo.page Demo.start
              Demo.page_end Demo.page_dict Hrun eq_refl)
    as (summary & Hsummary & _ & Hshape & _).
  exists summary. split; assumption.
Defined.

Lemma content_type_of_missing (E : Env) (response : Response) :
  header_content_type response = None -> content_type_of E response = [].
Proof. unfold content_type_of. intros ->. reflexivity. Qed.

(** X21. When the response has no [content-type] header the content type
    is the empty string: the payload is accepted on its [%PDF] signature
    alone and comes back with an empty content type, and any other payload
    raises a [ValueError] whose message ends after ["got: "]. *)
Theorem download_pdf_without_content_type (E : Env) (url : pystr) (s : Sys E)
    (response : Response) (w : World E) :
  session_get E url (world s) = (inr response, w) ->
  raise_for_status_exc response = None ->
  header_content_type response = None ->
  download_pdf E url s
  = if bytes_startswith PDF_MAGIC (content response)
    then (inr (content response, []), same_world w s)
    else (inl (ValueError (u "Invalid file type. Expected PDF, got: ")),
          same_world w s).
Proof.
  intros Hget Hstatus Hheader.
  pose proof (download_pdf_cases E url s) as Hcases.
  rewrite Hget, Hstatus in Hcases. cbn zeta in Hcases.
  rewrite (content_type_of_missing E response Hheader) in Hcases.
  change (contains (u "pdf") []) with false in Hcases.
  rewrite orb_false_r in Hcases.
  destruct (bytes_startswith PDF_MAGIC (content response)); exact Hcases.
Qed.

Lemma download_pdf_without_content_type_witness :
  download_pdf DemoMore.bare_env Demo.first_pdf DemoMore.bare_start
  = (inr (Demo.pdf_body, []), DemoMore.bare_start)
  /\ download_pdf DemoMore.bare_env Demo.page DemoMore.bare_start
     = (inl (ValueError (u "Invalid file type. Expected PDF, got: ")),
        DemoMore.bare_start).
Proof.
  split.
  - apply (download_pdf_without_content_type DemoMore.bare_env Demo.first_pdf
             DemoMore.bare_start (DemoMore.bare_response Demo.pdf_body) tt);
      reflexivity.
  - apply (download_pdf_without_content_type DemoMore.bare_env Demo.page
             DemoMore.bare_start (DemoMore.bare_response Demo.html_body) tt);
      reflexivity.
Defined.

(** ** The callers *)

(** X22. What the FastAPI route [process_pdfs] answers depends on the
    module global [pdf_processor] alone. Once the start-up has assigned the
    processor, the route returns the dict of
    [NCDHHSPDFProcessor.process_pdfs] unchanged: the processor never raises,
    so [HTTPException(500)] is not raised then, not even when discovery
    fails. While the global is still [None], as it is behind
    [Mangum(app, lifespan="off")], every request raises
    [HTTPException(500)] with the [AttributeError]'s text as detail, and
    nothing is fetched or stored. *)
Theorem api_process_pdfs_answers (E : Env) (url : pystr) (s : Sys E) :
  (exists r s',
     process_pdfs E url s = (inr r, s')
     /\ api_process_pdfs E Initialised url s = (inr (Returned r), s'))
  /\ api_process_pdfs E StillNone url s
     = (inr (HTTPException 500
               (u "'NoneType' object has no attribute 'process_pdfs'")), s).
Proof.
  split; [|reflexivity].
  destruct (process_pdfs_returns E url s) as (r & s' & Hrun).
  exists r, s'. split; [exact Hrun|].
  unfold api_process_pdfs. apply try_except_returns.
  cbn [global_process_pdfs].
  rewrite (bind_returns (process_pdfs E url) _ _ _ _ Hrun). reflexivity.
Qed.

Section HandlerFacts.
Context (E : Env) (R : Runtime E).

Lemma url_of_event_keeps_state (event : LambdaEvent) (s s0 : Sys E) x :
  url_of_event E R event s = (x, s0) -> s0 = s.
Proof.
  destruct event as [text | url | | url]; cbn.
  - destruct (json_loads_url R text); intros H; inversion H; reflexivity.
  - intros H; inversion H; reflexivity.
  - intros H; inversion H; reflexivity.
  - intros H; inversion H; reflexivity.
Qed.

(** [lambda_handler], case by case. *)
Lemma lambda_handler_cases (event : LambdaEvent) (s : Sys E) :
  match url_of_event E R event s with
  | (inl e, _) =>
      exists stamp w,
        lambda_handler E R event s = (inr (server_error e stamp), same_world w s)
  | (inr url, _) =>
      if is_nil (default [] url)
      then lambda_handler E R event s = (inr bad_request, s)
      else
        match new_processor R (world s) with
        | (Some e, w0) =>
            exists stamp w,
              lambda_handler E R event s
              = (inr (server_error e stamp), same_world w s)
        | (None, w0) =>
            exists r s',
              process_pdfs E (default [] url) (same_world w0 s) = (inr r, s')
              /\ lambda_handler E R event s = (inr (ok_response r), s')
        end
  end.
Proof.
  unfold lambda_handler.
  destruct (url_of_event E R event s) as [[e | url] s0] eqn:Hurl;
    pose proof (url_of_event_keeps_state _ _ _ _ Hurl) as ->.
  - destruct (now_returns E s) as (stamp & w & Hnow). exists stamp, w.
    rewrite (try_except_raises _ _ _ _ _ (bind_raises _ _ _ _ _ Hurl)).
    rewrite (bind_returns (now E) _ _ _ _ Hnow). reflexivity.
  - destruct (is_nil (default [] url)) eqn:Hnil.
    + apply try_except_returns.
      rewrite (bind_returns (url_of_event E R event) _ _ _ _ Hurl).
      rewrite Hnil. reflexivity.
    + destruct (new_processor R (world s)) as [[e|] w0] eqn:Hnew.
      * destruct (now_returns E (same_world w0 s)) as (stamp & w & Hnow).
        exists stamp, w.
        assert (Hmake : construct_processor E R s = (inl e, same_world w0 s))
          by (unfold construct_processor; rewrite Hnew; reflexivity).
        erewrite try_except_raises.
        2:{ rewrite (bind_returns (url_of_event E R event) _ _ _ _ Hurl).
            rewrite Hnil. apply bind_raises. exact Hmake. }
        rewrite (bind_returns (now E) _ _ _ _ Hnow). reflexivity.
      * destruct (process_pdfs_returns E (default [] url) (same_world w0 s))
          as (r & s' & Hrun).
        exists r, s'. split; [exact Hrun|].
        assert (Hmake : construct_processor E R s = (inr tt, same_world w0 s))
          by (unfold construct_processor; rewrite Hnew; reflexivity).
        apply try_except_returns.
        rewrite (bind_returns (url_of_event E R event) _ _ _ _ Hurl).
        rewrite Hnil.
        rewrite (bind_returns (construct_processor E R) _ _ _ _ Hmake).
        rewrite (bind_returns (process_pdfs E (default [] url)) _ _ _ _ Hrun).
        reflexivity.
Qed.

End HandlerFacts.

(** X23. When the body carries no ['url'], a null one or an empty one,
    [lambda_handler] answers 400 with the error ["URL is required"], and it
    has touched neither the network nor the store nor the clock. *)
Theorem lambda_handler_requires_url (E : Env) (R : Runtime E)
    (event : LambdaEvent) (s : Sys E) (url : option pystr) :
  url_of_event E R event s = (inr url, s) ->
  url = None \/ url = Some [] ->
  lambda_handler E R event s
  = (inr {| LambdaResponse.statusCode := 400;
            LambdaResponse.headers :=
              [(u "Content-Type", u "application/json");
               (u "Access-Control-Allow-Origin", u "*")];
            LambdaResponse.body := ErrorBody (u "URL is required") None |}, s).
Proof.
  intros Hurl Hempty.
  pose proof (lambda_handler_cases E R event s) as Hcases.
  rewrite Hurl in Hcases.
  destruct Hempty as [-> | ->]; exact Hcases.
Qed.

Lemma lambda_handler_requires_url_witness :
  LambdaResponse.statusCode
    (match fst (lambda_handler Demo.env DemoMore.runtime (NoBody None) Demo.start) with
     | inr response => response
     | inl _ => ok_response Demo.page_dict
     end) = 400
  /\ snd (lambda_handler Demo.env DemoMore.runtime (BodyObject (Some [])) Demo.start)
     = Demo.start.
Proof.
  split.
  - rewrite (lambda_handler_requires_url Demo.env DemoMore.runtime (NoBody None)
               Demo.start None eq_refl (or_introl eq_refl)).
    reflexivity.
  - rewrite (lambda_handler_requires_url Demo.env DemoMore.runtime
               (BodyObject (Some [])) Demo.start (Some []) eq_refl
               (or_intror eq_refl)).
    reflexivity.
Defined.

(** X24. With a non-empty ['url'] and a processor that could be made,
    [lambda_handler] answers 200 and its body is the dict of
    [process_pdfs], whatever that dict says: a page that cannot be fetched
    gives 200 with [success] false and the error message inside. *)
Theorem lambda_handler_answers_200 (E : Env) (R : Runtime E)
    (event : LambdaEvent) (s : Sys E) (url : pystr) (w0 : World E) :
  url_of_event E R event s = (inr (Some url), s) ->
  url <> [] ->
  new_processor R (world s) = (None, w0) ->
  exists r s',
    process_pdfs E url (same_world w0 s) = (inr r, s')
    /\ lambda_handler E R event s
       = (inr {| LambdaResponse.statusCode := 200;
                 LambdaResponse.headers := json_headers;
                 LambdaResponse.body := ResultBody r |}, s')
    /\ (forall e s1,
          discover_pdf_links E url (same_world w0 s) = (inl e, s1) ->
          ProcessResult.success r = false
          /\ ProcessResult.error r = Some (str_of_exc e)).
Proof.
  intros Hurl Hnonempty Hnew.
  pose proof (lambda_handler_cases E R event s) as Hcases.
  rewrite Hurl in Hcases.
  destruct url as [|c t]; [contradiction|].
  change (default [] (Some (c :: t))) with (c :: t) in Hcases.
  cbn [is_nil] in Hcases.
  rewrite Hnew in Hcases. destruct Hcases as (r & s' & Hrun & Hhandler).
  exists r, s'. split; [exact Hrun|]. split; [exact Hhandler|].
  intros e s1 Hdisc.
  pose proof (process_pdfs_cases E (c :: t) (same_world w0 s)) as Hpdfs.
  rewrite Hdisc in Hpdfs. destruct Hpdfs as (stamp & w & Hfail).
  rewrite Hfail in Hrun. injection Hrun as <- _. split; reflexivity.
Qed.

Lemma lambda_handler_answers_200_witness :
  exists r s',
    lambda_handler Demo.env DemoMore.runtime (NoBody (Some Demo.down_page)) Demo.start
    = (inr (ok_response r), s')
    /\ ProcessResult.success r = false
    /\ ProcessResult.error r = Some (u "Read timed out.").
Proof.
  destruct (lambda_handler_answers_200 Demo.env DemoMore.runtime
              (NoBody (Some Demo.down_page)) Demo.start Demo.down_page tt
              eq_refl ltac:(discriminate) eq_refl)
    as (r & s' & _ & Hhandler & Hfails).
  exists r, s'. split; [exact Hhandler|].
  apply (Hfails (ExternalError (u "Read timed out.")) Demo.start).
  vm_compute. reflexivity.
Defined.

(** X25. [lambda_handler] never raises and answers 200, 400 or 500, always
    with the JSON and CORS headers. It answers 500 in two cases only: the
    body could not be read (not JSON, not an object, null) or the processor
    could not be made. Nothing that goes wrong while processing gives a
    500. *)
Theorem lambda_handler_statuses (E : Env) (R : Runtime E)
    (event : LambdaEvent) (s : Sys E) :
  exists response s',
    lambda_handler E R event s = (inr response, s')
    /\ LambdaResponse.headers response = json_headers
    /\ In (LambdaResponse.statusCode response) [200; 400; 500]
    /\ (LambdaResponse.statusCode response = 500
        <-> (exists e, url_of_event E R event s = (inl e, s))
            \/ (exists url e w,
                  url_of_event E R event s = (inr url, s)
                  /\ is_nil (default [] url) = false
                  /\ new_processor R (world s) = (Some e, w))).
Proof.
  pose proof (lambda_handler_cases E R event s) as Hcases.
  destruct (url_of_event E R event s) as [[e | url] s0] eqn:Hurl;
    pose proof (url_of_event_keeps_state _ _ _ _ _ _ Hurl) as ->.
  - destruct Hcases as (stamp & w & Hhandler).
    eexists _, _. split; [exact Hhandler|]. split; [reflexivity|].
    split; [cbn; auto|]. split; [|reflexivity]. intros _. left. eauto.
  - destruct (is_nil (default [] url)) eqn:Hnil.
    + eexists _, _. split; [exact Hcases|]. split; [reflexivity|].
      split; [cbn; auto|]. split; [discriminate|].
      intros [[e He] | (url' & e & w & Heq & Hnil' & _)]; [discriminate|].
      injection Heq as <-. rewrite Hnil in Hnil'. discriminate.
    + destruct (new_processor R (world s)) as [[e|] w0] eqn:Hnew.
      * destruct Hcases as (stamp & w & Hhandler).
        eexists _, _. split; [exact Hhandler|]. split; [reflexivity|].
        split; [cbn; auto|]. split; [|reflexivity].
        intros _. right. exists url, e, w0. auto.
      * destruct Hcases as (r & s' & _ & Hhandler).
        eexists _, _. split; [exact Hhandler|]. split; [reflexivity|].
        split; [cbn; auto|]. split; [discriminate|].
        intros [[e He] | (url' & e & w & _ & _ & Hnew')]; discriminate.
Qed.
